(** * mkqif: conversion of finance CSV rows to QIF text

    A shallow embedding of the conversion engine of [mkqif.py]: the
    [CSVFormat] class with its methods [str2date], [credit_debit] and
    [convert_csv_to_qif], followed by the properties stated about them.

    Python values are modelled as the interpreter has them: [str] as
    [string], [int] as [Z], [float] as an IEEE 754 binary64 value
    ([spec_float]), [datetime.date] as a record of year, month and day,
    and raised exceptions as the [Raise] case of [except]. *)

From Stdlib Require Import ZArith List String Ascii Bool Lia DecimalString.
From Stdlib Require Import Floats.SpecFloat.
Import ListNotations.

Local Open Scope string_scope.
Local Open Scope Z_scope.

(* ===================================================================== *)
(** * Exceptions *)
(* ===================================================================== *)

(** The exception classes that the modelled methods can raise. *)
Inductive exn : Type :=
| ValueError (msg : string)
| TypeError
| IndexError
| AttributeError
| MQException (msg : string).

Inductive except (A : Type) : Type :=
| Ok (a : A)
| Raise (e : exn).

Arguments Ok {A} a.
Arguments Raise {A} e.

Definition bind {A B : Type} (m : except A) (k : A -> except B) : except B :=
  match m with
  | Ok a => k a
  | Raise e => Raise e
  end.

Notation "x <- m ;; k" := (bind m (fun x => k))
  (at level 61, m at next level, right associativity).

(** [try: m except ValueError as e: h e]: only [ValueError] is caught, any
    other exception leaves the [try] statement. *)
Definition except_ValueError {A : Type} (m : except A) (h : string -> except A)
  : except A :=
  match m with
  | Raise (ValueError e) => h e
  | _ => m
  end.

(* ===================================================================== *)
(** * Numbers: Python [int] and [float] *)
(* ===================================================================== *)

Definition prec : Z := 53.
Definition emax : Z := 1024.

Definition float := spec_float.

Definition Fzero : float := S754_zero false.
Definition Fopp : float -> float := SFopp.
Definition Fabs : float -> float := SFabs.
Definition Fadd : float -> float -> float := SFadd prec emax.
Definition Fdiv : float -> float -> float := SFdiv prec emax.
Definition Fcompare : float -> float -> option comparison := SFcompare.

(** [float(z)] for an [int] [z] (round to nearest even). *)
Definition float_of_int (z : Z) : float := binary_normalize prec emax z 0 false.

(** A number held by the variable [amount]: the literal [0] is an [int],
    whatever [locale.atof] returns is a [float]. *)
Inductive pynum : Type :=
| PyInt (z : Z)
| PyFloat (f : float).

Definition to_float (n : pynum) : float :=
  match n with
  | PyInt z => float_of_int z
  | PyFloat f => f
  end.

(** Unary minus. *)
Definition neg (n : pynum) : pynum :=
  match n with
  | PyInt z => PyInt (- z)
  | PyFloat f => PyFloat (Fopp f)
  end.

(** [abs(n)]. *)
Definition pyabs (n : pynum) : pynum :=
  match n with
  | PyInt z => PyInt (Z.abs z)
  | PyFloat f => PyFloat (Fabs f)
  end.

(** Three-way comparison with the [int] literal [0]; [None] for a NaN,
    on which every ordered comparison is false. *)
Definition cmp0 (n : pynum) : option comparison :=
  match n with
  | PyInt z => Some (z ?= 0)
  | PyFloat f => Fcompare f Fzero
  end.

(** [n >= 0] *)
Definition ge0 (n : pynum) : bool :=
  match cmp0 n with Some Gt | Some Eq => true | _ => false end.

(** [n < 0] *)
Definition lt0 (n : pynum) : bool :=
  match cmp0 n with Some Lt => true | _ => false end.

(** [n > 0] *)
Definition gt0 (n : pynum) : bool :=
  match cmp0 n with Some Gt => true | _ => false end.

(** [n != 0] *)
Definition ne0 (n : pynum) : bool :=
  match cmp0 n with Some Eq => false | _ => true end.

(** [n == 0] *)
Definition eq0 (n : pynum) : bool := negb (ne0 n).

Definition is_nan (n : pynum) : bool :=
  match n with
  | PyFloat S754_nan => true
  | _ => false
  end.

(** [a == b] on numbers each of which is an [int] or a [float]: the
    comparison is exact.  Two [int]s compare as integers, two [float]s as
    IEEE values; the mixed case only arises here against the [int] 0. *)
Definition num_eqb (a b : pynum) : bool :=
  match a, b with
  | PyInt x, PyInt y => x =? y
  | PyFloat f, PyFloat g =>
      match Fcompare f g with Some Eq => true | _ => false end
  | PyInt x, PyFloat g =>
      match Fcompare (float_of_int x) g with Some Eq => true | _ => false end
  | PyFloat f, PyInt y =>
      match Fcompare f (float_of_int y) with Some Eq => true | _ => false end
  end.

(** Two numbers denote the same amount: they compare equal, or both are
    NaN (which compares unequal even to itself). *)
Definition same_amount (a b : pynum) : Prop :=
  num_eqb a b = true \/ (is_nan a = true /\ is_nan b = true).

(* ===================================================================== *)
(** * Strings *)
(* ===================================================================== *)

Definition space : ascii := " "%char.

(** [s.replace(' ', '')] *)
Fixpoint remove_spaces (s : string) : string :=
  match s with
  | EmptyString => EmptyString
  | String c s' =>
      if Ascii.eqb c space then remove_spaces s'
      else String c (remove_spaces s')
  end.

(** [re.sub(r' +', ' ', s)]: every maximal run of spaces becomes one space. *)
Fixpoint collapse_spaces (s : string) : string :=
  match s with
  | EmptyString => EmptyString
  | String c s' =>
      if Ascii.eqb c space then
        match s' with
        | String c' _ =>
            if Ascii.eqb c' space then collapse_spaces s'
            else String c (collapse_spaces s')
        | EmptyString => String c EmptyString
        end
      else String c (collapse_spaces s')
  end.

Definition hex_digit (n : N) : ascii :=
  match n with
  | 0%N => "0" | 1%N => "1" | 2%N => "2" | 3%N => "3"
  | 4%N => "4" | 5%N => "5" | 6%N => "6" | 7%N => "7"
  | 8%N => "8" | 9%N => "9" | 10%N => "a" | 11%N => "b"
  | 12%N => "c" | 13%N => "d" | 14%N => "e" | _ => "f"
  end%char.

(** ["{:02x}".format(ord(c))] *)
Definition hex2 (c : ascii) : string :=
  let n := N_of_ascii c in
  String (hex_digit (n / 16)) (String (hex_digit (n mod 16)) EmptyString).

(** [sep.join(l)] *)
Fixpoint join (sep : string) (l : list string) : string :=
  match l with
  | [] => EmptyString
  | [x] => x
  | x :: rest => x ++ sep ++ join sep rest
  end.

Fixpoint chars (s : string) : list ascii :=
  match s with
  | EmptyString => []
  | String c s' => c :: chars s'
  end.

(** [":".join("{:02x}".format(ord(c)) for c in s)] *)
Definition hex_encode (s : string) : string :=
  join ":" (map hex2 (chars s)).

Definition CRLF : string :=
  String (ascii_of_N 13) (String (ascii_of_N 10) EmptyString).

(* ===================================================================== *)
(** * Sequences *)
(* ===================================================================== *)

Definition len {A : Type} (l : list A) : Z := Z.of_nat (List.length l).

(** [l[i]] for an [int] [i]: a negative index counts from the end, an
    index outside [-len(l), len(l))] raises [IndexError]. *)
Definition getitem {A : Type} (l : list A) (i : Z) : except A :=
  let j := if i <? 0 then i + len l else i in
  if j <? 0 then Raise IndexError
  else match nth_error l (Z.to_nat j) with
       | Some x => Ok x
       | None => Raise IndexError
       end.

(** A subscript value.  [__init__] converts the other column numbers with
    [int()], but stores [ignore_col] as given: an [int] when it comes from
    the default or from code, a [str] when it comes from the configuration
    file. *)
Inductive subscript : Type :=
| SubInt (i : Z)
| SubStr (s : string).

(** [l[k]] for such a subscript: a [str] subscript on a list is a
    [TypeError]. *)
Definition getitem_sub {A : Type} (l : list A) (k : subscript) : except A :=
  match k with
  | SubInt i => getitem l i
  | SubStr _ => Raise TypeError
  end.

(* ===================================================================== *)
(** * Dates: [datetime.date] *)
(* ===================================================================== *)

Record date : Type := mkDate { year : Z; month : Z; day : Z }.

Definition MINYEAR : Z := 1.
Definition MAXYEAR : Z := 9999.

Definition is_leap (y : Z) : bool :=
  (y mod 4 =? 0) && (negb (y mod 100 =? 0) || (y mod 400 =? 0)).

Definition days_in_month (y m : Z) : Z :=
  if m =? 2 then (if is_leap y then 29 else 28)
  else if (m =? 4) || (m =? 6) || (m =? 9) || (m =? 11) then 30
  else 31.

(** The check made by the constructor of [datetime.date]. *)
Definition valid_ymd (y m d : Z) : bool :=
  (MINYEAR <=? y) && (y <=? MAXYEAR) &&
  (1 <=? m) && (m <=? 12) &&
  (1 <=? d) && (d <=? days_in_month y m).

Definition valid_date (d : date) : bool := valid_ymd (year d) (month d) (day d).

(** [datetime.date(y, m, d)]: [ValueError] outside the calendar. *)
Definition datetime_date (y m d : Z) : except date :=
  if valid_ymd y m d then Ok (mkDate y m d)
  else Raise (ValueError "date value out of range").

(** [a < b]: dates are ordered by year, then month, then day. *)
Definition date_ltb (a b : date) : bool :=
  (year a <? year b) ||
  ((year a =? year b) &&
   ((month a <? month b) || ((month a =? month b) && (day a <? day b)))).

(** [a <= b] *)
Definition date_leb (a b : date) : bool := negb (date_ltb b a).

(** The calendar day after [d] ([d + datetime.timedelta(1)], inside the
    calendar). *)
Definition next_day (d : date) : date :=
  if day d <? days_in_month (year d) (month d)
  then mkDate (year d) (month d) (day d + 1)
  else if month d <? 12 then mkDate (year d) (month d + 1) 1
  else mkDate (year d + 1) 1 1.

(* ===================================================================== *)
(** * Library functions the program calls *)
(* ===================================================================== *)

(** The functions of the Python library the engine calls and whose result
    depends on the locale, the platform or the regular expression engine.
    - [atof s] is [locale.atof(s)]: a [float], or [ValueError];
    - [re_match p s] is the truth value of [re.match(p, s)], for patterns
      that compile;
    - [strptime s f] is the calendar date of
      [datetime.datetime.strptime(s, f)], or [ValueError];
    - [strftime d f] is [d.strftime(f)];
    - [format_2f x] is ["%.02f" % x]. *)
Record Runtime : Type := {
  atof : string -> except float;
  re_match : string -> string -> bool;
  strptime : string -> string -> except date;
  strftime : date -> string -> string;
  format_2f : float -> string
}.

(* ===================================================================== *)
(** * The class [CSVFormat] *)
(* ===================================================================== *)

(** The two values [__init__] accepts for [type]. *)
Inductive qif_type : Type := CCard | Bank.

Definition type_str (t : qif_type) : string :=
  match t with CCard => "CCard" | Bank => "Bank" end.

(** [CSVFormat.Stats] *)
Record Stats : Type := mkStats {
  valid : Z;
  processed : Z;
  skipped : Z;
  balance : float;
  empty : Z;
  ncols_mismatch : Z
}.

(** The attributes of an instance that conversion reads or writes.
    [csv_rows] holds the rows as [csv.reader] yields them, a list of
    fields each. *)
Record CSVFormat : Type := mkCSVFormat {
  name : string;
  type : qif_type;
  date_col : Z;
  payee_col : Z;
  debit_col : Z;
  credit_col : Z;
  ncols : Z;
  date_format : string;
  credit_regexp : option string;
  ignore_regexp : option string;
  ignore_col : subscript;
  debit_is_negative : bool;
  csv_rows : list (list string);
  qif_text : string;
  stats : option Stats
}.

(** Truth value of an attribute that is [None] or a [str]. *)
Definition truthy (o : option string) : bool :=
  match o with
  | Some s => negb (String.eqb s "")
  | None => false
  end.

Definition pattern (o : option string) : string :=
  match o with Some s => s | None => "" end.

(** The check of [type] in [__init__]. *)
Definition check_type (nm ty : string) : except qif_type :=
  if String.eqb ty "CCard" then Ok CCard
  else if String.eqb ty "Bank" then Ok Bank
  else Raise (MQException (nm ++ ": type " ++ ty ++ " should be CCard or Bank")).

(** Assignments to the attributes that conversion writes. *)
Definition set_csv_rows (self : CSVFormat) (rows : list (list string)) : CSVFormat :=
  mkCSVFormat (name self) (type self) (date_col self) (payee_col self)
    (debit_col self) (credit_col self) (ncols self) (date_format self)
    (credit_regexp self) (ignore_regexp self) (ignore_col self)
    (debit_is_negative self) rows (qif_text self) (stats self).

Definition set_qif_text (self : CSVFormat) (t : string) : CSVFormat :=
  mkCSVFormat (name self) (type self) (date_col self) (payee_col self)
    (debit_col self) (credit_col self) (ncols self) (date_format self)
    (credit_regexp self) (ignore_regexp self) (ignore_col self)
    (debit_is_negative self) (csv_rows self) t (stats self).

Definition set_stats (self : CSVFormat) (s : Stats) : CSVFormat :=
  mkCSVFormat (name self) (type self) (date_col self) (payee_col self)
    (debit_col self) (credit_col self) (ncols self) (date_format self)
    (credit_regexp self) (ignore_regexp self) (ignore_col self)
    (debit_is_negative self) (csv_rows self) (qif_text self) (Some s).

Section Engine.

Variable rt : Runtime.

(** ** [CSVFormat.str2date] *)

(** The sentinel year [strptime] gives when the format holds no year. *)
Definition NO_YEAR : Z := 1900.

(** The body of the [try] statement of [str2date].  [now] is [None] when
    the caller leaves it out; reading [now.month] then raises
    [AttributeError]. *)
Definition str2date_try (self : CSVFormat) (date_str : string) (now : option date)
  : except date :=
  d <- strptime rt date_str (date_format self) ;;
  y <- (if year d =? NO_YEAR then
          match now with
          | Some n => Ok (if month d <=? month n then year n else year n - 1)
          | None => Raise AttributeError
          end
        else Ok (year d)) ;;
  datetime_date y (month d) (day d).

(** [str2date]: the bare [except] turns every exception into [None]. *)
Definition str2date (self : CSVFormat) (date_str : string) (now : option date)
  : option date :=
  match str2date_try self date_str now with
  | Ok d => Some d
  | Raise _ => None
  end.

(** ** [CSVFormat.credit_debit] *)

(** The value bound to the local variable [amount]: first the text of the
    debit field, then the number parsed from it. *)
Inductive amount_var : Type :=
| AmountStr (s : string)
| AmountNum (n : pynum).

(** The exception the handler raises for the text [s] of a debit field:
    [MQException(f'credit/debit atof() failed: {e} - {val}')]. *)
Definition amount_error (e s : string) : exn :=
  MQException ("credit/debit atof() failed: " ++ e ++ " - " ++ hex_encode s).

(** The [except ValueError as e] handler.  It iterates over [amount]: over
    its characters while [amount] is still the text, whereas a number is
    not iterable and the handler itself stops with [TypeError]. *)
Definition handler (amount : amount_var) (e : string) : except pynum :=
  match amount with
  | AmountStr s => Raise (amount_error e s)
  | AmountNum _ => Raise TypeError
  end.

(** [0 if amount == "" else locale.atof(amount)] *)
Definition parse_debit (amount : string) : except pynum :=
  if String.eqb amount "" then Ok (PyInt 0)
  else f <- atof rt amount ;; Ok (PyFloat f).

(** The last statement: [-amount if amount > 0 else amount]. *)
Definition fallback (amount : pynum) : pynum :=
  if gt0 amount then neg amount else amount.

Definition credit_debit (self : CSVFormat) (row : list string) : except pynum :=
  debit <- getitem row (debit_col self) ;;
  let amount_s := remove_spaces debit in
  credit <- getitem row (credit_col self) ;;
  amount <- except_ValueError (parse_debit amount_s)
              (handler (AmountStr amount_s)) ;;
  if truthy (credit_regexp self) then
    if re_match rt (pattern (credit_regexp self)) credit
    then Ok (if ge0 amount then amount else neg amount)
    else Ok (if lt0 amount then amount else neg amount)
  else if debit_col self =? credit_col self then
    Ok (if debit_is_negative self then amount else neg amount)
  else if negb (String.eqb credit "") && negb (credit_col self =? payee_col self)
  then
    parsed <- except_ValueError
                (x <- atof rt (remove_spaces credit) ;; Ok (PyFloat x))
                (handler (AmountNum amount)) ;;
    let fcredit := if lt0 parsed then neg parsed else parsed in
    if ne0 fcredit then Ok fcredit else Ok (fallback amount)
  else Ok (fallback amount).

(** ** [CSVFormat.convert_csv_to_qif] *)

(** The local variables of the loop. *)
Record counters : Type := mkCounters {
  c_balance : float;
  c_processed : Z;
  c_valid : Z;
  c_empty : Z;
  c_ncols_mismatch : Z;
  c_qif_text : string
}.

Definition counters0 : counters := mkCounters Fzero 0 0 0 0 "".

(** [self.ignore_regexp and re.match(self.ignore_regexp, row[self.ignore_col])] *)
Definition ignore_test (self : CSVFormat) (row : list string) : except bool :=
  if truthy (ignore_regexp self) then
    field <- getitem_sub row (ignore_col self) ;;
    Ok (re_match rt (pattern (ignore_regexp self)) field)
  else Ok false.

(** The text appended for one row. *)
Definition qif_block (self : CSVFormat) (row_date : date) (amount : pynum)
    (payee : string) : string :=
  "!Type:" ++ type_str (type self) ++ CRLF ++
  "D" ++ strftime rt row_date "%d-%m-%Y" ++ CRLF ++
  "T" ++ format_2f rt (to_float amount) ++ CRLF ++
  "P" ++ payee ++ CRLF ++
  "^" ++ CRLF.

(** [empty += 1] *)
Definition incr_empty (c : counters) : counters :=
  mkCounters (c_balance c) (c_processed c) (c_valid c) (c_empty c + 1)
    (c_ncols_mismatch c) (c_qif_text c).

(** [ncols_mismatch += 1] *)
Definition incr_ncols_mismatch (c : counters) : counters :=
  mkCounters (c_balance c) (c_processed c) (c_valid c) (c_empty c)
    (c_ncols_mismatch c + 1) (c_qif_text c).

(** [valid += 1] *)
Definition incr_valid (c : counters) : counters :=
  mkCounters (c_balance c) (c_processed c) (c_valid c + 1) (c_empty c)
    (c_ncols_mismatch c) (c_qif_text c).

(** [balance += amount; processed += 1; qif_text += block] *)
Definition add_record (c : counters) (amount : pynum) (block : string) : counters :=
  mkCounters (Fadd (c_balance c) (to_float amount)) (c_processed c + 1)
    (c_valid c) (c_empty c) (c_ncols_mismatch c) (c_qif_text c ++ block).

(** One iteration of the [for] loop. *)
Definition row_step (self : CSVFormat) (cutoff_date today : date)
    (c : counters) (row : list string) : except counters :=
  ignored <- ignore_test self row ;;
  if ignored then Ok c
  else if len row =? 0 then Ok (incr_empty c)
  else if negb (len row =? ncols self) then Ok (incr_ncols_mismatch c)
  else
    date_str <- getitem row (date_col self) ;;
    match str2date self date_str (Some today) with
    | None => Ok (incr_empty c)
    | Some row_date =>
        let c1 := incr_valid c in
        if date_ltb row_date cutoff_date || date_ltb today row_date then Ok c1
        else
          payee_s <- getitem row (payee_col self) ;;
          let payee := collapse_spaces payee_s in
          amount <- credit_debit self row ;;
          Ok (add_record c1 amount (qif_block self row_date amount payee))
    end.

(** The [for] loop: the first exception ends it. *)
Fixpoint loop (self : CSVFormat) (cutoff_date today : date)
    (c : counters) (rows : list (list string)) : except counters :=
  match rows with
  | [] => Ok c
  | row :: rest =>
      c' <- row_step self cutoff_date today c row ;;
      loop self cutoff_date today c' rest
  end.

Definition stats_of (c : counters) : Stats :=
  mkStats (c_valid c) (c_processed c) (c_valid c - c_processed c)
    (c_balance c) (c_empty c) (c_ncols_mismatch c).

(** [convert_csv_to_qif]: the returned text, or the exception, together
    with the instance afterwards; an exception leaves the loop before
    [self.stats] is assigned. *)
Definition convert_csv_to_qif (self : CSVFormat) (cutoff_date today : date)
  : except string * CSVFormat :=
  match loop self cutoff_date today counters0 (csv_rows self) with
  | Ok c => (Ok (c_qif_text c), set_stats self (stats_of c))
  | Raise e => (Raise e, self)
  end.

(** [perform_conversion] on rows already read: [rows] stands for what
    [get_csv_rows] read and [csv.reader] split. *)
Definition perform_conversion (self : CSVFormat) (rows : list (list string))
    (effective_date cutoff_date : date) : except unit * CSVFormat :=
  let self1 := set_csv_rows self rows in
  match convert_csv_to_qif self1 cutoff_date effective_date with
  | (Ok text, self2) => (Ok tt, set_qif_text self2 text)
  | (Raise e, self2) => (Raise e, self2)
  end.

End Engine.

(* ===================================================================== *)
(** * Output records and their serialization, as the specification
      describes them *)
(* ===================================================================== *)

(** The specification speaks of output records that the engine collects
    and a serializer that renders them, where the source appends text row
    by row.  The definitions of this section follow the words of the
    specification; the theorems compare them with [convert_csv_to_qif]. *)

(** An output record: account kind, transaction date, signed amount and
    payee text with its runs of spaces collapsed. *)
Record OutputRecord : Type := mkRecord {
  r_kind : qif_type;
  r_date : date;
  r_amount : pynum;
  r_payee : string
}.

Section Records.

Variable rt : Runtime.

(** A row is dropped by the ignore filter. *)
Definition ignored (self : CSVFormat) (row : list string) : bool :=
  match ignore_test rt self row with
  | Ok b => b
  | Raise _ => false
  end.

(** The rows that the ignore filter lets through. *)
Definition kept (self : CSVFormat) (rows : list (list string))
  : list (list string) :=
  filter (fun row => negb (ignored self row)) rows.

(** The date window: both bounds belong to it. *)
Definition in_window (cutoff_date effective_date d : date) : bool :=
  date_leb cutoff_date d && date_leb d effective_date.

(** The record of an accepted row: a row that is not ignored, has the
    expected number of fields, a date that parses and lies in the window,
    and an amount that resolves. *)
Definition accepted (self : CSVFormat) (cutoff_date effective_date : date)
    (row : list string) : option OutputRecord :=
  if ignored self row then None
  else if (len row =? 0) || negb (len row =? ncols self) then None
  else
    match getitem row (date_col self) with
    | Ok date_str =>
        match str2date rt self date_str (Some effective_date) with
        | Some d =>
            if in_window cutoff_date effective_date d then
              match getitem row (payee_col self), credit_debit rt self row with
              | Ok payee, Ok amount =>
                  Some (mkRecord (type self) d amount (collapse_spaces payee))
              | _, _ => None
              end
            else None
        | None => None
        end
    | Raise _ => None
    end.

(** The output records of a row sequence, in the order of the rows. *)
Fixpoint output_records (self : CSVFormat) (cutoff_date effective_date : date)
    (rows : list (list string)) : list OutputRecord :=
  match rows with
  | [] => []
  | row :: rest =>
      match accepted self cutoff_date effective_date row with
      | Some r => r :: output_records self cutoff_date effective_date rest
      | None => output_records self cutoff_date effective_date rest
      end
  end.

(** The block of one record: type marker, date line, amount line, payee
    line and terminator, each ended by CR LF. *)
Definition serialize (r : OutputRecord) : string :=
  "!Type:" ++ type_str (r_kind r) ++ CRLF ++
  "D" ++ strftime rt (r_date r) "%d-%m-%Y" ++ CRLF ++
  "T" ++ format_2f rt (to_float (r_amount r)) ++ CRLF ++
  "P" ++ r_payee r ++ CRLF ++
  "^" ++ CRLF.

(** The blocks of the records one after the other. *)
Fixpoint serialize_all (rs : list OutputRecord) : string :=
  match rs with
  | [] => ""
  | r :: rest => serialize r ++ serialize_all rest
  end.

End Records.

(* ===================================================================== *)
(** * A reference runtime *)
(* ===================================================================== *)

(** An executable instance of [Runtime], used to run the engine on
    concrete rows.  It follows CPython in the C locale on the inputs it
    accepts: plain signed decimals for [atof], patterns without
    metacharacters for [re_match], the directives [%d], [%m] and [%Y]
    (two, two and four digits) for [strptime] and [strftime]. *)
Module Ref.

Definition digit_val (c : ascii) : option Z :=
  let n := Z.of_N (N_of_ascii c) in
  if (48 <=? n) && (n <=? 57) then Some (n - 48) else None.

(** The digits at the head of [s], most significant first: their value,
    their number, and the rest of [s]. *)
Fixpoint digits (s : string) (acc : Z) (n : Z) : Z * Z * string :=
  match s with
  | EmptyString => (acc, n, s)
  | String c s' =>
      match digit_val c with
      | Some v => digits s' (10 * acc + v) (n + 1)
      | None => (acc, n, s)
      end
  end.

Definition float_of_decimal (negative : bool) (m k : Z) : float :=
  if m =? 0 then S754_zero negative
  else Fdiv (float_of_int (if negative then - m else m)) (float_of_int (10 ^ k)).

(** [locale.atof] on [sign? digits (. digits)?] with at least one digit.
    The quotient of mantissa and power of ten is rounded once, which is
    the nearest [float] as long as both are exact (mantissa below [2^53],
    at most 22 decimals). *)
Definition atof (s : string) : except float :=
  let err := Raise (ValueError ("could not convert string to float: '" ++ s ++ "'")) in
  let '(negative, body) :=
    match s with
    | String "-" r => (true, r)
    | String "+" r => (false, r)
    | _ => (false, s)
    end in
  let '(ip, ni, r1) := digits body 0 0 in
  match r1 with
  | EmptyString =>
      if 0 <? ni then Ok (float_of_decimal negative ip 0) else err
  | String "." r2 =>
      let '(m, nf, r3) := digits r2 ip 0 in
      match r3 with
      | EmptyString =>
          if 0 <? ni + nf then Ok (float_of_decimal negative m nf) else err
      | _ => err
      end
  | _ => err
  end.

(** [re.match] for a pattern of ordinary characters: a prefix test. *)
Definition re_match (p s : string) : bool := String.prefix p s.

(** Exactly [n] digits at the head of [s]. *)
Definition fixed_digits (n : Z) (s : string) : option (Z * string) :=
  let '(v, k, r) := digits (substring 0 (Z.to_nat n) s) 0 0 in
  if (k =? n) && (String.eqb r "")
  then Some (v, substring (Z.to_nat n) (String.length s - Z.to_nat n) s)
  else None.

Fixpoint strptime_fields (f s : string) (y m d : Z) : option (Z * Z * Z) :=
  match f with
  | EmptyString => if String.eqb s "" then Some (y, m, d) else None
  | String "%" (String "d" f') =>
      match fixed_digits 2 s with
      | Some (v, s') => strptime_fields f' s' y m v
      | None => None
      end
  | String "%" (String "m" f') =>
      match fixed_digits 2 s with
      | Some (v, s') => strptime_fields f' s' y v d
      | None => None
      end
  | String "%" (String "Y" f') =>
      match fixed_digits 4 s with
      | Some (v, s') => strptime_fields f' s' v m d
      | None => None
      end
  | String c f' =>
      match s with
      | String c' s' => if Ascii.eqb c c' then strptime_fields f' s' y m d else None
      | EmptyString => None
      end
  end.

(** [strptime]: the fields that the format leaves out are 1900, 1 and 1. *)
Definition strptime (s f : string) : except date :=
  match strptime_fields f s 1900 1 1 with
  | Some (y, m, d) =>
      if valid_ymd y m d then Ok (mkDate y m d)
      else Raise (ValueError "day is out of range for month")
  | None => Raise (ValueError "time data does not match format")
  end.

Definition dec (z : Z) : string :=
  NilZero.string_of_uint (N.to_uint (Z.to_N z)).

(** [z] in decimal, padded with zeros on the left to [n] characters. *)
Definition pad (n : nat) (z : Z) : string :=
  let s := dec z in
  String.concat "" (repeat "0" (n - String.length s)) ++ s.

Fixpoint strftime (d : date) (f : string) : string :=
  match f with
  | EmptyString => EmptyString
  | String "%" (String "d" f') => pad 2 (day d) ++ strftime d f'
  | String "%" (String "m" f') => pad 2 (month d) ++ strftime d f'
  | String "%" (String "Y" f') => pad 4 (year d) ++ strftime d f'
  | String c f' => String c (strftime d f')
  end.

(** The integer nearest to [num / den], ties to the even one. *)
Definition round_half_even (num den : Z) : Z :=
  let q := num / den in
  let r := num mod den in
  match 2 * r ?= den with
  | Lt => q
  | Gt => q + 1
  | Eq => if Z.even q then q else q + 1
  end.

(** ["%.02f" % x]: the exact value of [x] rounded to hundredths. *)
Definition format_2f (x : float) : string :=
  let sign (s : bool) := if s then "-" else "" in
  match x with
  | S754_nan => "nan"
  | S754_infinity s => sign s ++ "inf"
  | S754_zero s => sign s ++ "0.00"
  | S754_finite s m e =>
      let n := if 0 <=? e then Z.pos m * 100 * 2 ^ e
               else round_half_even (Z.pos m * 100) (2 ^ (- e)) in
      sign s ++ dec (n / 100) ++ "." ++ pad 2 (n mod 100)
  end.

Definition runtime : Runtime :=
  Build_Runtime atof re_match strptime strftime format_2f.

End Ref.

(** The default instance of the source: [CSVFormat()]. *)
Definition default_format : CSVFormat :=
  mkCSVFormat "Default" CCard 0 1 2 3 4 "%d-%m-%Y" None None (SubInt 1) true
    [] "" None.

Definition d_2024_01_01 : date := mkDate 2024 1 1.
Definition d_2024_01_31 : date := mkDate 2024 1 31.

(* ===================================================================== *)
(** * Formats, dates and rows of the examples *)
(* ===================================================================== *)

(** A format that recognises credits by the text [CR] in column 3. *)
Definition pattern_format : CSVFormat :=
  mkCSVFormat "Card" CCard 0 1 2 3 4 "%d-%m-%Y" (Some "CR") None (SubInt 1) true
    [] "" None.

(** A format whose dates hold no year. *)
Definition no_year_format : CSVFormat :=
  mkCSVFormat "NoYear" Bank 0 1 2 3 4 "%d-%m" None None (SubInt 1) true
    [] "" None.

(** A format with an ignore pattern and the default [ignore_col]. *)
Definition ignoring_format : CSVFormat :=
  mkCSVFormat "Ignoring" CCard 0 1 2 3 4 "%d-%m-%Y" None (Some "Pending")
    (SubInt 1) true [] "" None.

Definition d_2024_03_15 : date := mkDate 2024 3 15.
Definition d_0001_01_01 : date := mkDate 1 1 1.

Definition coffee_row : list string := ["10-01-2024"; "Coffee  Shop"; "3.50"; ""].
Definition refund_row : list string := ["12-01-2024"; "Refund"; "-12.50"; "CR"].
Definition salary_row : list string := ["15-01-2024"; "Salary"; ""; "1500.00"].
Definition zero_credit_row : list string := ["16-01-2024"; "Fee"; "2.00"; "0.00"].
Definition bad_credit_row : list string := ["18-01-2024"; "Shop"; "3.00"; "n/a"].
Definition late_row : list string := ["01-02-2024"; "Later"; "1.00"; ""].
Definition empty_row : list string := [].
Definition short_row : list string := ["Opening balance"; "100.00"].

(** The rows of a statement for January 2024, and the same with a debit
    field that does not parse in the second row. *)
Definition january_rows : list (list string) :=
  [coffee_row; empty_row; salary_row; zero_credit_row; late_row; short_row].

Definition january : CSVFormat := set_csv_rows default_format january_rows.

Definition d_2024_01_10 : date := mkDate 2024 1 10.

(** The amounts 1500.0, 12.5, 3.5 and 2.0 as [float]s. *)
Definition f_1500 : float := S754_finite false 6597069766656000 (-42).
Definition f_12_5 : float := S754_finite false 7036874417766400 (-49).
Definition f_3_5 : float := S754_finite false 7881299347898368 (-51).
Definition f_2 : float := S754_finite false 4503599627370496 (-51).

(** A row whose debit field is a number of 310 digits, beyond the range of
    a [float]. *)
Definition huge_debit_row : list string :=
  ["10-01-2024"; "Shop"; String.concat "" (repeat "9" 310); ""].

(* ===================================================================== *)
(** * The form of the date and amount lines *)
(* ===================================================================== *)

(** The decimal digit of [z], for [z] from 0 to 9. *)
Definition digit_char (z : Z) : ascii := ascii_of_N (Z.to_N (48 + z)).

(** The text [dd-mm-yyyy] of a date: the day and the month with two
    digits, the year with four. *)
Definition dd_mm_yyyy (d : date) : string :=
  String (digit_char (day d / 10))
 (String (digit_char (day d mod 10))
 (String "-"
 (String (digit_char (month d / 10))
 (String (digit_char (month d mod 10))
 (String "-"
 (String (digit_char (year d / 1000))
 (String (digit_char (year d / 100 mod 10))
 (String (digit_char (year d / 10 mod 10))
 (String (digit_char (year d mod 10)) EmptyString))))))))).

Definition is_digit (c : ascii) : bool :=
  let n := N_of_ascii c in ((48 <=? n) && (n <=? 57))%N.

Fixpoint digits_only (s : string) : bool :=
  match s with
  | EmptyString => true
  | String c s' => is_digit c && digits_only s'
  end.

(** [s] is a run of digits, a point and two digits; [seen] tells that a
    digit came before [s]. *)
Fixpoint digits_point_two (seen : bool) (s : string) : bool :=
  match s with
  | EmptyString => false
  | String c s' =>
      if is_digit c then digits_point_two true s'
      else if Ascii.eqb c "." then
        seen && match s' with
                | String a (String b EmptyString) => is_digit a && is_digit b
                | _ => false
                end
      else false
  end.

(** A number written with exactly two decimals: an optional minus sign,
    one digit or more, a point and two digits. *)
Definition two_decimals (s : string) : bool :=
  match s with
  | EmptyString => false
  | String c s' =>
      if Ascii.eqb c "-" then digits_point_two false s'
      else digits_point_two false s
  end.

(** A [float] that is a number, not an infinity and not a NaN. *)
Definition is_finite (x : float) : bool :=
  match x with
  | S754_zero _ | S754_finite _ _ _ => true
  | S754_infinity _ | S754_nan => false
  end.

(* ===================================================================== *)
(** * The rest of the script *)
(* ===================================================================== *)

(** ** Strings and lists *)

(** The scan of [s.split(sep)] for a separator that is not empty: [cur] is
    the piece read so far, [skip] the number of characters of a separator
    found that are still to pass.  Separators are found from the left and
    do not overlap. *)
Fixpoint split_from (sep : string) (skip : nat) (cur s : string) : list string :=
  match s with
  | EmptyString => [cur]
  | String c s' =>
      match skip with
      | S k => split_from sep k cur s'
      | O =>
          if String.prefix sep s
          then cur :: split_from sep (String.length sep - 1) "" s'
          else split_from sep 0 (cur ++ String c "") s'
      end
  end.

(** [s.split(sep)]: [ValueError] for the empty separator. *)
Definition str_split (s sep : string) : except (list string) :=
  if String.eqb sep "" then Raise (ValueError "empty separator")
  else Ok (split_from sep 0 "" s).

(** [s[-1]] *)
Fixpoint last_char (s : string) : except ascii :=
  match s with
  | EmptyString => Raise IndexError
  | String c EmptyString => Ok c
  | String _ s' => last_char s'
  end.

(** [l[n:]] *)
Definition slice_from {A : Type} (l : list A) (n : Z) : list A :=
  let start := if n <? 0 then Z.max (len l + n) 0 else n in
  skipn (Z.to_nat start) l.

(** [s.encode('ascii', 'ignore').decode('ascii')] on a text decoded from
    Latin-1: the characters above 127 are left out. *)
Fixpoint ascii_only (s : string) : string :=
  match s with
  | EmptyString => EmptyString
  | String c s' =>
      if (N_of_ascii c <? 128)%N then String c (ascii_only s')
      else ascii_only s'
  end.

(** [str(n)] for an [int]. *)
Definition str_of_int (n : Z) : string := NilZero.string_of_int (Z.to_int n).

(** Every character of [s] satisfies [p]. *)
Fixpoint all_chars (p : ascii -> bool) (s : string) : bool :=
  match s with
  | EmptyString => true
  | String c s' => p c && all_chars p s'
  end.

(** No space of [s] is followed by a space. *)
Fixpoint no_double_space (s : string) : bool :=
  match s with
  | EmptyString => true
  | String c s' =>
      match s' with
      | String c' _ =>
          negb (Ascii.eqb c space && Ascii.eqb c' space) && no_double_space s'
      | EmptyString => true
      end
  end.

(** The number of characters [c] in [s]. *)
Fixpoint count_char (c : ascii) (s : string) : nat :=
  match s with
  | EmptyString => O
  | String c' s' => (if Ascii.eqb c' c then 1 else 0) + count_char c s'
  end.

(** The value of a hexadecimal digit in lower case. *)
Definition unhex_digit (c : ascii) : option N :=
  let n := N_of_ascii c in
  if ((48 <=? n) && (n <=? 57))%N then Some (n - 48)%N
  else if ((97 <=? n) && (n <=? 102))%N then Some (n - 87)%N
  else None.

(** The reading of a text that [hex_encode] wrote: two digits for each
    character, a colon between two characters. *)
Fixpoint hex_decode (s : string) : option string :=
  match s with
  | EmptyString => Some EmptyString
  | String a (String b rest) =>
      match unhex_digit a, unhex_digit b with
      | Some h, Some l =>
          let c := ascii_of_N (16 * h + l) in
          match rest with
          | EmptyString => Some (String c EmptyString)
          | String sep rest' =>
              if Ascii.eqb sep ":" then
                match rest' with
                | EmptyString => None
                | _ =>
                    match hex_decode rest' with
                    | Some t => Some (String c t)
                    | None => None
                    end
                end
              else None
          end
      | _, _ => None
      end
  | String _ EmptyString => None
  end.

(** ** Words for the statements about the engine *)

Definition is_space (c : ascii) : bool := Ascii.eqb c space.

(** The left-to-right sum of the amounts of the records, from [0.0]. *)
Definition sum_amounts (rs : list OutputRecord) : float :=
  fold_left (fun b r => Fadd b (to_float (r_amount r))) rs Fzero.

(** ** [conv_finame_file_list] *)

Section Script.

(** The message of the [ValueError] that the interpreter raises when a
    list of [n] values is unpacked into two names; its wording depends on
    the version of the interpreter. *)
Variable unpack_message : nat -> string.

(** [finame, file = parts] *)
Definition unpack2 (parts : list string) : except (string * string) :=
  match parts with
  | [finame; file] => Ok (finame, file)
  | _ => Raise (ValueError (unpack_message (List.length parts)))
  end.

(** The [for] loop inside the [try] statement. *)
Fixpoint conv_loop (finame_files : list string) : except (list (string * string)) :=
  match finame_files with
  | [] => Ok []
  | finame_file :: rest =>
      parts <- str_split finame_file "," ;;
      pair <- unpack2 parts ;;
      if String.eqb (fst pair) "" || String.eqb (snd pair) ""
      then Raise (MQException "invalid fi_name,CSV_file pair")
      else
        tail <- conv_loop rest ;;
        Ok (pair :: tail)
  end.

Definition conv_finame_file_list (finame_files : list string)
  : except (list (string * string)) :=
  except_ValueError (conv_loop finame_files)
    (fun e => Raise (MQException ("invalid fi_name,CSV_file pair: " ++ e))).

End Script.

(** ** [CSVFormat.__init__] and the dictionary [CSVFormat.formats] *)

(** A dictionary with [str] keys, in the order in which the keys were
    first set. *)
Definition dict (V : Type) : Type := list (string * V).

(** [d[k]], [None] standing for [KeyError] *)
Fixpoint dict_get {V : Type} (d : dict V) (k : string) : option V :=
  match d with
  | [] => None
  | (k', v) :: rest => if String.eqb k' k then Some v else dict_get rest k
  end.

(** [d[k] = v]: a key already there keeps its place. *)
Fixpoint dict_set {V : Type} (d : dict V) (k : string) (v : V) : dict V :=
  match d with
  | [] => [(k, v)]
  | (k', v') :: rest =>
      if String.eqb k' k then (k, v) :: rest
      else (k', v') :: dict_set rest k v
  end.

(** [d.keys()] *)
Definition dict_keys {V : Type} (d : dict V) : list string := map fst d.

(** The arguments of [__init__].  Those that [__init__] passes to [int()]
    are an [int] or a [str], like [ignore_col]. *)
Record InitArgs : Type := mkInitArgs {
  a_name : string;
  a_type : string;
  a_date_col : subscript;
  a_payee_col : subscript;
  a_debit_col : subscript;
  a_credit_col : subscript;
  a_ncols : subscript;
  a_nheaders : subscript;
  a_file_regexp : string;
  a_date_format : string;
  a_credit_regexp : option string;
  a_ignore_regexp : option string;
  a_ignore_col : subscript;
  a_debit_is_negative : bool
}.

(** The default values of the arguments. *)
Definition default_args : InitArgs :=
  mkInitArgs "Default" "CCard" (SubInt 0) (SubInt 1) (SubInt 2) (SubInt 3)
    (SubInt 4) (SubInt 0) ".*\.csv" "%d-%m-%Y" None None (SubInt 1) true.

(** An instance: the attributes that conversion uses, and the others. *)
Record Instance : Type := mkInstance {
  fmt : CSVFormat;
  nheaders : Z;
  regexp : string;
  pathnames : list string;
  nfiles : Z
}.

Section Init.

(** [int(s)] for a [str] [s]: the integer, or [ValueError]. *)
Variable int_of_str : string -> except Z.

(** [int(v)] *)
Definition to_int (v : subscript) : except Z :=
  match v with
  | SubInt i => Ok i
  | SubStr s => int_of_str s
  end.

(** The body of [__init__] up to the registration. *)
Definition build_instance (a : InitArgs) : except Instance :=
  t <- check_type (a_name a) (a_type a) ;;
  dc <- to_int (a_date_col a) ;;
  pc <- to_int (a_payee_col a) ;;
  dbc <- to_int (a_debit_col a) ;;
  cc <- to_int (a_credit_col a) ;;
  nc <- to_int (a_ncols a) ;;
  nh <- to_int (a_nheaders a) ;;
  Ok (mkInstance
        (mkCSVFormat (a_name a) t dc pc dbc cc nc (a_date_format a)
           (a_credit_regexp a) (a_ignore_regexp a) (a_ignore_col a)
           (a_debit_is_negative a) [] "" None)
        nh (a_file_regexp a) [] 0).

(** [CSVFormat(...)]: the exception or the new instance, and the
    dictionary [CSVFormat.formats] afterwards. *)
Definition CSVFormat_init (formats : dict Instance) (a : InitArgs)
  : except Instance * dict Instance :=
  match build_instance a with
  | Ok self => (Ok self, dict_set formats (a_name a) self)
  | Raise e => (Raise e, formats)
  end.

End Init.

(** ** [CSVFormat.reader], after the file is read *)

(** What [reader] returns for the text [ulines] that [f.read()] gave:
    [nheaders] is [self.nheaders] and [linesep] is [os.linesep]. *)
Definition reader (nheaders : Z) (linesep ulines : string)
  : except (list string) :=
  lines <- str_split (ascii_only ulines) linesep ;;
  Ok (slice_from lines nheaders).

(** ** [CSVFormat.output_qif] *)

(** What [output_qif] asks of the system: a text for the terminal
    ([print]), or a file to create with a text. *)
Inductive effect : Type :=
| Print (text : string)
| WriteFile (path text : string).

(** [output_qif]: the effects in order and the value returned.  [dump] is
    the truth value of the argument [dump]. *)
Definition output_qif (self : CSVFormat) (output_dir qif_suffix : string)
    (dump : bool) : except (list effect * bool) :=
  effects <-
    (if negb (String.eqb (qif_text self) "") then
       if dump then Ok [Print (qif_text self)]
       else
         c <- last_char output_dir ;;
         let output_dir' :=
           if Ascii.eqb c "/" then output_dir else output_dir ++ "/" in
         let output_file := output_dir' ++ name self ++ qif_suffix in
         Ok [WriteFile output_file (qif_text self)]
     else Ok []) ;;
  Ok (effects, negb (String.eqb (qif_text self) "")).

(** ** [CSVFormat.delete_files] *)

Section Delete.

(** The file system and [os.unlink]: the system afterwards, and the
    [OSError] if the call raised one. *)
Variables (world oserror : Type).
Variable unlink : string -> world -> world * option oserror.

(** The [for] loop; [error] is the local variable. *)
Fixpoint delete_loop (pathnames : list string) (error : option oserror)
    (w : world) : world * option oserror :=
  match pathnames with
  | [] => (w, error)
  | pathname :: rest =>
      match unlink pathname w with
      | (w', Some err) =>
          delete_loop rest
            (match error with None => Some err | Some _ => error end) w'
      | (w', None) => delete_loop rest error w'
      end
  end.

Definition delete_files (pathnames : list string) (w : world)
  : world * option oserror :=
  delete_loop pathnames None w.

(** The system after [os.unlink] was called on every path in turn. *)
Fixpoint unlink_all (pathnames : list string) (w : world) : world :=
  match pathnames with
  | [] => w
  | pathname :: rest => unlink_all rest (fst (unlink pathname w))
  end.

(** The first error in a list of results. *)
Fixpoint first_error (results : list (option oserror)) : option oserror :=
  match results with
  | [] => None
  | Some err :: _ => Some err
  | None :: rest => first_error rest
  end.

(** The results of those calls. *)
Fixpoint unlink_results (pathnames : list string) (w : world)
  : list (option oserror) :=
  match pathnames with
  | [] => []
  | pathname :: rest =>
      snd (unlink pathname w) :: unlink_results rest (fst (unlink pathname w))
  end.

End Delete.

Arguments delete_loop {world oserror} unlink pathnames error w.
Arguments delete_files {world oserror} unlink pathnames w.
Arguments unlink_all {world oserror} unlink pathnames w.
Arguments unlink_results {world oserror} unlink pathnames w.
Arguments first_error {oserror} results.

(** ** [CSVFormat.file_count] *)

Definition file_count (count : Z) : string :=
  if 9 <? count then "*" else str_of_int count.

(** ** Instances and values of the examples *)

(** [int()] on an optional sign followed by digits. *)
Definition int_of_decimal (s : string) : except Z :=
  let err := Raise (ValueError ("invalid literal for int() with base 10: '" ++ s ++ "'")) in
  let '(negative, body) :=
    match s with
    | String "-" r => (true, r)
    | String "+" r => (false, r)
    | _ => (false, s)
    end in
  let '(v, n, r) := Ref.digits body 0 0 in
  if (0 <? n) && String.eqb r "" then Ok (if negative then - v else v) else err.

(** The messages of CPython 3.8 to 3.13. *)
Definition unpack_message_cpython (n : nat) : string :=
  if (n <? 2)%nat
  then "not enough values to unpack (expected 2, got " ++ str_of_int (Z.of_nat n) ++ ")"
  else "too many values to unpack (expected 2)".

(** With [debit_is_negative] set to [b]. *)
Definition with_debit_is_negative (self : CSVFormat) (b : bool) : CSVFormat :=
  mkCSVFormat (name self) (type self) (date_col self) (payee_col self)
    (debit_col self) (credit_col self) (ncols self) (date_format self)
    (credit_regexp self) (ignore_regexp self) (ignore_col self)
    b (csv_rows self) (qif_text self) (stats self).

(** A section of a configuration file, all values being [str]. *)
Definition bank_args : InitArgs :=
  mkInitArgs "Bank1" "Bank" (SubStr "0") (SubStr "1") (SubStr "2") (SubStr "3")
    (SubStr "4") (SubStr "1") "bank.*\.csv" "%d-%m-%Y" None (Some "Pending")
    (SubStr "1") true.

(** A file system as the list of the paths that exist: [os.unlink] removes
    the path or fails. *)
Definition unlink_listed (p : string) (w : list string)
  : list string * option string :=
  if existsb (String.eqb p) w
  then (filter (fun q => negb (String.eqb p q)) w, None)
  else (w, Some ("No such file or directory: " ++ p)).

(** The line separator of POSIX systems. *)
Definition LF : string := String (ascii_of_N 10) EmptyString.

(** A file of a header line and two rows, ending with a newline. *)
Definition statement_text : string :=
  "Date,Payee,Debit,Credit" ++ LF ++
  "10-01-2024,Coffee  Shop,3.50," ++ LF ++
  "15-01-2024,Salary,,1500.00" ++ LF.

Definition pending_row : list string :=
  ["11-01-2024"; "Pending payment"; "1.00"; ""].
Definition spaces_credit_row : list string :=
  ["18-01-2024"; "Shop"; "3.00"; "  "].

Definition d_2024_03_20 : date := mkDate 2024 3 20.

(** The amount 3.0 as a [float]. *)
Definition f_3 : float := S754_finite false 6755399441055744 (-51).

(** ** [check] *)

(** The calendar day before [d]. *)
Definition prev_day (d : date) : date :=
  if 1 <? day d then mkDate (year d) (month d) (day d - 1)
  else if 1 <? month d
       then mkDate (year d) (month d - 1) (days_in_month (year d) (month d - 1))
       else mkDate (year d - 1) 12 31.

(** [d - datetime.timedelta(n)] for a number of days [n]: [n] days back,
    or forward for a negative [n]; [None] stands for the [OverflowError]
    of a result outside the calendar. *)
Definition date_minus_days (d : date) (n : Z) : option date :=
  let r := match n with
           | Z0 => d
           | Zpos p => Pos.iter prev_day d p
           | Zneg p => Pos.iter next_day d p
           end in
  if valid_date r then Some r else None.

(** [d.toordinal()]: the number of the day [d], counted from 1 for
    1 January of the year 1; [a - b] on dates is the difference of their
    ordinals, and [d - datetime.timedelta(n)] is the date of ordinal
    [d.toordinal() - n]. *)
Definition days_before_year (y : Z) : Z :=
  (y - 1) * 365 + (y - 1) / 4 - (y - 1) / 100 + (y - 1) / 400.

Definition days_before_month (y m : Z) : Z :=
  match m with
  | 1 => 0 | 2 => 31 | 3 => 59 | 4 => 90 | 5 => 120 | 6 => 151
  | 7 => 181 | 8 => 212 | 9 => 243 | 10 => 273 | 11 => 304 | _ => 334
  end + (if (2 <? m) && is_leap y then 1 else 0).

Definition toordinal (d : date) : Z :=
  days_before_year (year d) + days_before_month (year d) (month d) + day d.

(** A month from 1 to 12 and a day of that month, in any year. *)
Definition day_of_month (d : date) : Prop :=
  1 <= month d <= 12 /\ 1 <= day d <= days_in_month (year d) (month d).

(** [s.ljust(n)], the conversion [%-ns]. *)
Definition ljust (n : nat) (s : string) : string :=
  s ++ String.concat "" (repeat " " (n - String.length s)).

(** The fields of [Params] that [check] reads or sets; [p_cutoff_delta] is
    the number of days of the [timedelta]. *)
Record Params : Type := mkParams {
  p_script : string;
  p_fi_names : list string;
  p_effective_date : date;
  p_cutoff_date : option date;
  p_cutoff_delta : Z;
  p_institutions : dict Instance;
  p_qif_suffix : option string;
  p_check : bool
}.

(** A line printed, to the standard output or to the standard error. *)
Inductive printed : Type :=
| Stdout (line : string)
| Stderr (line : string).

(** What the call of [input()] gives. *)
Inductive answer : Type :=
| Entered (line : string)
| KeyboardInterrupt
| EOFError.

(** How [check] ends: it returns, it leaves through [sys.exit], or an
    exception that it does not catch leaves it. *)
Inductive ending : Type :=
| Returned (params : Params)
| Exited (status : Z)
| OverflowRaised
| EOFRaised.

Section Check.

Variable rt : Runtime.

(** The first name of [fi_names] that is no key of [institutions]. *)
Fixpoint first_unconfigured (institutions : dict Instance)
    (fi_names : list string) : option string :=
  match fi_names with
  | [] => None
  | nm :: rest =>
      match dict_get institutions nm with
      | Some _ => first_unconfigured institutions rest
      | None => Some nm
      end
  end.

(** [check]: the lines printed and the ending.  [reply] is what [input()]
    gives if it is called. *)
Definition check (reply : answer) (params : Params) : list printed * ending :=
  match p_institutions params with
  | [] =>
      ([Stderr (p_script params ++ ": no CSV formats have been configured.")],
       Exited 1)
  | _ :: _ =>
      let qif_suffix := strftime rt (p_effective_date params) "%y%m%d.qif" in
      let computed :=
        match p_cutoff_date params with
        | Some c => Some c
        | None => date_minus_days (p_effective_date params) (p_cutoff_delta params)
        end in
      match computed with
      | None => ([], OverflowRaised)
      | Some cutoff =>
          let params' :=
            mkParams (p_script params) (p_fi_names params)
              (p_effective_date params) (Some cutoff) (p_cutoff_delta params)
              (p_institutions params) (Some qif_suffix) (p_check params) in
          match first_unconfigured (p_institutions params) (p_fi_names params) with
          | Some nm =>
              ([Stderr (p_script params ++ ": unconfigured institution name: '"
                        ++ nm ++ "'.")],
               Exited 1)
          | None =>
              if p_check params then
                let lines :=
                  [Stdout (ljust 30 "Effective Processing Date:" ++
                           strftime rt (p_effective_date params) "%d-%m-%Y");
                   Stdout (ljust 30 "Historical Cutoff Date:" ++
                           strftime rt cutoff "%d-%m-%Y");
                   Stdout (ljust 30 "QIF Suffix:" ++ qif_suffix);
                   Stdout "Hit RETURN to continue (^C to quit)"] in
                match reply with
                | Entered _ => (lines, Returned params')
                | KeyboardInterrupt =>
                    ((lines ++ [Stderr "OK, quitting ..."])%list, Exited 0)
                | EOFError => (lines, EOFRaised)
                end
              else ([], Returned params')
          end
      end
  end.

End Check.

(** ** [get_matching_files], [is_modified_now] and [get_csv_rows] *)

Section Files.

(** The directory: [re_findall p s] is the truth value of
    [re.findall(p, s)], [listdir dir] is [os.listdir(dir)], [read path] is
    what [f.read()] gives for the file at [path], [mtime path] is the local
    date of [os.stat(path).st_mtime], [linesep] is [os.linesep].  The
    directory and the files are taken to exist and to be readable: the
    [OSError] of a missing one is left out. *)
Variable re_findall : string -> string -> bool.
Variable listdir : string -> list string.
Variable read : string -> string.
Variable mtime : string -> date.
Variable linesep : string.

Definition get_matching_files (dir re_str : string) : list string :=
  filter (fun file => re_findall re_str file) (listdir dir).

Definition is_modified_now (pathname : string) (now : date) : bool :=
  (year (mtime pathname) =? year now) &&
  (month (mtime pathname) =? month now) &&
  (day (mtime pathname) =? day now).

(** The [for] loop over the source files: the rows read so far are
    extended by those of each file. *)
Fixpoint read_files (nh : Z) (paths : list string) : except (list string) :=
  match paths with
  | [] => Ok []
  | path :: rest =>
      lines <- reader nh linesep (read path) ;;
      tail <- read_files nh rest ;;
      Ok (lines ++ tail)%list
  end.

(** [get_csv_rows]: the rows and the path names, and the instance with
    [nfiles] as the search sets it. *)
Definition get_csv_rows (self : Instance) (source_dir : string)
    (effective_date : date) (date_check : bool) (file : option string)
  : except (list string * list string * Instance) :=
  c <- last_char source_dir ;;
  let source_dir := if Ascii.eqb c "/" then source_dir else source_dir ++ "/" in
  if truthy file then
    csv_rows <- reader (nheaders self) linesep (read (pattern file)) ;;
    Ok (csv_rows, [pattern file], self)
  else
    let candidate_files := get_matching_files source_dir (regexp self) in
    let self' :=
      mkInstance (fmt self) (nheaders self) (regexp self) (pathnames self)
        (len candidate_files) in
    let source_files :=
      if date_check
      then filter (fun file => is_modified_now (source_dir ++ file) effective_date)
             candidate_files
      else candidate_files in
    let paths := map (fun f => source_dir ++ f) source_files in
    csv_rows <- read_files (nheaders self) paths ;;
    Ok (csv_rows, paths, self').

End Files.

(** A directory of three files, two of them statements, one of which was
    changed on 2024-01-31. *)
Definition example_listdir (dir : string) : list string :=
  ["bank_jan.csv"; "notes.txt"; "bank_feb.csv"].
Definition example_findall (re_str file : string) : bool :=
  String.prefix "bank" file.
Definition example_read (path : string) : string := statement_text.
Definition example_mtime (path : string) : date :=
  if String.eqb path "data/bank_jan.csv" then d_2024_01_31 else d_2024_01_10.
Definition example_instance : Instance :=
  mkInstance default_format 1 "bank.*\.csv" [] 0.

(** Parameters of an example: the formats of one section of a
    configuration file, the default delta of seven days. *)
Definition example_params (delta : Z) : Params :=
  mkParams "mkqif.py" ["Bank1"] d_2024_01_31 None delta
    (snd (CSVFormat_init int_of_decimal [] bank_args)) None false.

(* ===================================================================== *)
(** * Facts about numbers and dates *)
(* ===================================================================== *)

Lemma Fcompare_refl (f : float) : f <> S754_nan -> Fcompare f f = Some Eq.
Proof.
  destruct f as [s | s | | s m e]; intros H; try congruence;
    destruct s; cbn; try reflexivity;
    rewrite Z.compare_refl, Pos.compare_cont_refl; reflexivity.
Qed.

Lemma same_amount_refl (n : pynum) : same_amount n n.
Proof.
  destruct n as [z | f].
  - left. cbn. apply Z.eqb_refl.
  - destruct f as [s | s | | s m e].
    + left. reflexivity.
    + left. cbn. destruct s; reflexivity.
    + right. split; reflexivity.
    + left. cbn -[Fcompare]. rewrite Fcompare_refl; [reflexivity | discriminate].
Qed.

(** The three-way comparison of a [float] with zero only reads its sign. *)
Lemma cmp0_float (f : float) :
  cmp0 (PyFloat f) =
  match f with
  | S754_nan => None
  | S754_zero _ => Some Eq
  | S754_infinity s | S754_finite s _ _ => Some (if s then Lt else Gt)
  end.
Proof. destruct f as [s | s | | s m e]; try destruct s; reflexivity. Qed.

Lemma neg_involutive (n : pynum) : neg (neg n) = n.
Proof.
  destruct n as [z | f]; cbn.
  - now rewrite Z.opp_involutive.
  - destruct f as [s | s | | s m e]; cbn; try rewrite negb_involutive; reflexivity.
Qed.

(** A number that is not below zero is its own absolute value, up to the
    sign of a zero. *)
Lemma ge0_same_abs (n : pynum) : ge0 n = true -> same_amount n (pyabs n).
Proof.
  destruct n as [z | f]; unfold ge0.
  - cbn. destruct (Z.compare_spec z 0); intros; try discriminate;
      left; cbn; apply Z.eqb_eq; lia.
  - rewrite cmp0_float.
    destruct f as [s | s | | s m e]; try destruct s; intros; try discriminate;
      try apply same_amount_refl.
    left; reflexivity.
Qed.

Lemma lt0_neg_abs (n : pynum) : lt0 n = true -> neg n = pyabs n.
Proof.
  destruct n as [z | f]; unfold lt0.
  - cbn. destruct (Z.compare_spec z 0); intros; try discriminate.
    f_equal. lia.
  - rewrite cmp0_float.
    destruct f as [s | s | | s m e]; try destruct s; intros; try discriminate;
      reflexivity.
Qed.

Lemma lt0_is_neg_abs (n : pynum) : lt0 n = true -> n = neg (pyabs n).
Proof.
  intros H. rewrite <- (lt0_neg_abs n H). symmetry. apply neg_involutive.
Qed.

Lemma not_lt0_neg_same (n : pynum) :
  lt0 n = false -> same_amount (neg n) (neg (pyabs n)).
Proof.
  destruct n as [z | f]; unfold lt0.
  - cbn. destruct (Z.compare_spec z 0); intros; try discriminate;
      left; cbn; apply Z.eqb_eq; lia.
  - rewrite cmp0_float.
    destruct f as [s | s | | s m e]; try destruct s; intros; try discriminate;
      try apply same_amount_refl.
    left; reflexivity.
Qed.

(** Without a sign to flip, a number and its opposite are the same
    amount: this is the case of zero and of NaN. *)
Lemma no_sign_neg_same (n : pynum) :
  lt0 n = false -> gt0 n = false -> same_amount (neg n) n.
Proof.
  destruct n as [z | f]; unfold lt0, gt0.
  - cbn. destruct (Z.compare_spec z 0); intros; try discriminate.
    left; cbn; apply Z.eqb_eq; lia.
  - rewrite cmp0_float.
    destruct f as [s | s | | s m e]; try destruct s; intros; try discriminate.
    + left; reflexivity.
    + left; reflexivity.
    + right; split; reflexivity.
Qed.

Lemma ge0_lt0 (n : pynum) : ge0 n = true -> lt0 n = false.
Proof. unfold ge0, lt0. destruct (cmp0 n) as [[]|]; congruence. Qed.

Lemma gt0_ge0 (n : pynum) : gt0 n = true -> ge0 n = true.
Proof. unfold ge0, gt0. destruct (cmp0 n) as [[]|]; congruence. Qed.

Lemma gt0_lt0 (n : pynum) : gt0 n = true -> lt0 n = false.
Proof. unfold gt0, lt0. destruct (cmp0 n) as [[]|]; congruence. Qed.

Lemma truthy_Some (o : option string) (p : string) :
  o = Some p -> p <> "" -> truthy o = true /\ pattern o = p.
Proof.
  intros -> Hp. split; [| reflexivity]. cbn.
  destruct (String.eqb_spec p ""); [contradiction | reflexivity].
Qed.

(* ===================================================================== *)
(** * The sign of the resolved amount *)
(* ===================================================================== *)

Section CreditDebit.

Variable rt : Runtime.

(** C1.  With a credit pattern configured, the amount [credit_debit]
    returns is the absolute value of the parsed debit amount when the
    credit field matches the pattern and the opposite of the absolute value
    when it does not.  The parsed amount is negated exactly when the field
    matches and the amount is below zero, or the field does not match and
    the amount is above zero; in the four cases left (a match or not, on an
    amount above or below zero) this is an equality, and on a zero or NaN
    the result is the same amount as the one parsed. *)
Theorem credit_debit_pattern_sign (self : CSVFormat) (row : list string)
    (p debit credit : string) (amount : pynum) :
  credit_regexp self = Some p ->
  p <> "" ->
  getitem row (debit_col self) = Ok debit ->
  getitem row (credit_col self) = Ok credit ->
  parse_debit rt (remove_spaces debit) = Ok amount ->
  exists r,
    credit_debit rt self row = Ok r /\
    same_amount r
      (if re_match rt p credit then pyabs amount else neg (pyabs amount)) /\
    (if (re_match rt p credit && lt0 amount) ||
        (negb (re_match rt p credit) && gt0 amount)
     then r = neg amount
     else same_amount r amount) /\
    (re_match rt p credit = true -> gt0 amount = true -> r = amount) /\
    (re_match rt p credit = false -> lt0 amount = true -> r = amount).
Proof.
  intros Hre Hp Hd Hc Ha.
  destruct (truthy_Some _ _ Hre Hp) as [Ht Hpat].
  unfold credit_debit. rewrite Hd. cbn [bind]. rewrite Hc. cbn [bind].
  rewrite Ha. cbn [except_ValueError bind]. rewrite Ht, Hpat.
  destruct (re_match rt p credit) eqn:Hm; cbn [andb orb negb].
  - destruct (ge0 amount) eqn:Hge.
    + exists amount. rewrite (ge0_lt0 _ Hge).
      split; [reflexivity |]. split; [apply ge0_same_abs, Hge |].
      split; [apply same_amount_refl |]. split; [reflexivity | discriminate].
    + assert (Hlt : lt0 amount = true \/ is_nan amount = true).
      { revert Hge. unfold ge0, lt0. destruct amount as [z | f].
        - cbn. destruct (z ?= 0); auto; discriminate.
        - rewrite cmp0_float.
          destruct f as [s | s | | s m e]; try destruct s; cbn; auto; discriminate. }
      exists (neg amount). split; [reflexivity |].
      destruct Hlt as [Hlt | Hnan].
      * rewrite Hlt. split; [rewrite (lt0_neg_abs _ Hlt); apply same_amount_refl |].
        split; [reflexivity |]. split; [| discriminate].
        intros _ Hgt. apply gt0_ge0 in Hgt. congruence.
      * destruct amount as [z | [s | s | | s m e]]; try discriminate.
        cbn. split; [right; split; reflexivity |].
        split; [right; split; reflexivity |]. split; [reflexivity | discriminate].
  - destruct (lt0 amount) eqn:Hlt.
    + exists amount. split; [reflexivity |].
      assert (Hgt : gt0 amount = false).
      { revert Hlt. unfold gt0, lt0. destruct (cmp0 amount) as [[]|]; congruence. }
      rewrite Hgt.
      split; [rewrite <- (lt0_is_neg_abs _ Hlt); apply same_amount_refl |].
      split; [apply same_amount_refl |]. split; [discriminate | reflexivity].
    + exists (neg amount). split; [reflexivity |].
      split; [apply not_lt0_neg_same, Hlt |].
      split; [| split; discriminate].
      destruct (gt0 amount) eqn:Hgt; [reflexivity |].
      apply no_sign_neg_same; assumption.
Qed.

(** Facts on the branches of [credit_debit] once both fields are read and
    the debit field is parsed. *)

Lemma eq0_float_zero (f : float) :
  eq0 (PyFloat f) = true -> exists s, f = S754_zero s.
Proof.
  unfold eq0, ne0. rewrite cmp0_float.
  destruct f as [s | s | | s m e]; try destruct s; cbn; try discriminate;
    intros _; eexists; reflexivity.
Qed.

Lemma credit_branch (self : CSVFormat) (row : list string)
    (debit credit : string) (amount : pynum) :
  truthy (credit_regexp self) = false ->
  debit_col self <> credit_col self ->
  getitem row (debit_col self) = Ok debit ->
  getitem row (credit_col self) = Ok credit ->
  parse_debit rt (remove_spaces debit) = Ok amount ->
  credit <> "" ->
  credit_col self <> payee_col self ->
  credit_debit rt self row =
    (parsed <- except_ValueError
                 (x <- atof rt (remove_spaces credit) ;; Ok (PyFloat x))
                 (handler (AmountNum amount)) ;;
     let fcredit := if lt0 parsed then neg parsed else parsed in
     if ne0 fcredit then Ok fcredit else Ok (fallback amount)).
Proof.
  intros Ht Hcols Hd Hc Ha Hne Hpay.
  unfold credit_debit. rewrite Hd. cbn [bind]. rewrite Hc. cbn [bind].
  rewrite Ha. cbn [except_ValueError bind]. rewrite Ht.
  destruct (Z.eqb_spec (debit_col self) (credit_col self)); [contradiction |].
  destruct (String.eqb_spec credit ""); [contradiction |].
  destruct (Z.eqb_spec (credit_col self) (payee_col self)); [contradiction |].
  reflexivity.
Qed.

(** A credit field that parses to zero leaves the result to the last
    statement. *)
Lemma zero_credit_result (self : CSVFormat) (row : list string)
    (debit credit : string) (amount : pynum) (f : float) :
  truthy (credit_regexp self) = false ->
  debit_col self <> credit_col self ->
  getitem row (debit_col self) = Ok debit ->
  getitem row (credit_col self) = Ok credit ->
  parse_debit rt (remove_spaces debit) = Ok amount ->
  credit <> "" ->
  credit_col self <> payee_col self ->
  atof rt (remove_spaces credit) = Ok f ->
  eq0 (PyFloat f) = true ->
  credit_debit rt self row = Ok (fallback amount).
Proof.
  intros Ht Hcols Hd Hc Ha Hne Hpay Hf Hz.
  rewrite (credit_branch self row debit credit amount) by assumption.
  rewrite Hf. cbn [bind except_ValueError].
  destruct (eq0_float_zero f Hz) as [s ->]. destruct s; reflexivity.
Qed.

(** C5.  Without a credit pattern and with the credit column distinct from
    the debit and the payee column, a credit field that is not empty and
    parses to zero does not make [credit_debit] return the credit: the
    result is the one of the last statement, the debit amount negated when
    it is above zero and unchanged otherwise. *)
Theorem zero_credit_falls_through (self : CSVFormat) (row : list string)
    (debit credit : string) (amount : pynum) (f : float) :
  truthy (credit_regexp self) = false ->
  debit_col self <> credit_col self ->
  getitem row (debit_col self) = Ok debit ->
  getitem row (credit_col self) = Ok credit ->
  parse_debit rt (remove_spaces debit) = Ok amount ->
  credit <> "" ->
  credit_col self <> payee_col self ->
  atof rt (remove_spaces credit) = Ok f ->
  eq0 (PyFloat f) = true ->
  credit_debit rt self row = Ok (fallback amount) /\
  fallback amount = (if gt0 amount then neg amount else amount).
Proof.
  intros Ht Hcols Hd Hc Ha Hne Hpay Hf Hz.
  split; [| reflexivity].
  apply (zero_credit_result self row debit credit amount f); assumption.
Qed.

(** A credit field that parses to a number other than zero is returned,
    made positive. *)
Lemma nonzero_credit_returned (self : CSVFormat) (row : list string)
    (debit credit : string) (amount : pynum) (f : float) :
  truthy (credit_regexp self) = false ->
  debit_col self <> credit_col self ->
  getitem row (debit_col self) = Ok debit ->
  getitem row (credit_col self) = Ok credit ->
  parse_debit rt (remove_spaces debit) = Ok amount ->
  credit <> "" ->
  credit_col self <> payee_col self ->
  atof rt (remove_spaces credit) = Ok f ->
  eq0 (PyFloat f) = false ->
  credit_debit rt self row = Ok (pyabs (PyFloat f)).
Proof.
  intros Ht Hcols Hd Hc Ha Hne Hpay Hf Hz.
  rewrite (credit_branch self row debit credit amount) by assumption.
  rewrite Hf. cbn [bind except_ValueError].
  revert Hz. unfold eq0, ne0, lt0. cbn [neg pyabs]. 
  destruct f as [s | s | | s m e]; try destruct s; cbn; congruence.
Qed.

(** C10.  When the debit field has been parsed, no credit pattern is
    configured, the credit column is neither the debit nor the payee column
    and the credit field is not empty and [locale.atof] rejects it, the
    handler of [credit_debit] runs with [amount] bound to a number and
    stops with [TypeError]: what leaves [credit_debit] is not the
    [MQException] that reports the text in hexadecimal. *)
Theorem bad_credit_raises_TypeError (self : CSVFormat) (row : list string)
    (debit credit : string) (amount : pynum) (e : string) :
  truthy (credit_regexp self) = false ->
  debit_col self <> credit_col self ->
  getitem row (debit_col self) = Ok debit ->
  getitem row (credit_col self) = Ok credit ->
  parse_debit rt (remove_spaces debit) = Ok amount ->
  credit <> "" ->
  credit_col self <> payee_col self ->
  atof rt (remove_spaces credit) = Raise (ValueError e) ->
  credit_debit rt self row = Raise TypeError /\
  forall msg, credit_debit rt self row <> Raise (MQException msg).
Proof.
  intros Ht Hcols Hd Hc Ha Hne Hpay Hf.
  assert (H : credit_debit rt self row = Raise TypeError).
  { rewrite (credit_branch self row debit credit amount) by assumption.
    rewrite Hf. reflexivity. }
  split; [exact H |]. intros msg. rewrite H. discriminate.
Qed.


(** C6, as the code has it.  A debit field that is blank once its spaces
    are removed is not parsed and stands for the amount 0.  The amount
    [credit_debit] returns is then 0 when a credit pattern is configured,
    when debit and credit share a column, when the credit field is empty or
    is the payee column, and when the credit field parses to zero; when
    the credit field parses to another number, the amount returned is the
    absolute value of that credit.  In the case that is left, a credit
    field that is not empty and that [locale.atof] rejects, nothing is
    returned: the [ValueError] ends in the [TypeError] of the handler, and
    any other exception leaves [credit_debit] as it is. *)
Theorem blank_debit_amount (self : CSVFormat) (row : list string)
    (debit credit : string) :
  getitem row (debit_col self) = Ok debit ->
  getitem row (credit_col self) = Ok credit ->
  remove_spaces debit = "" ->
  parse_debit rt (remove_spaces debit) = Ok (PyInt 0) /\
  (truthy (credit_regexp self) = true \/ debit_col self = credit_col self \/
   credit = "" \/ credit_col self = payee_col self ->
   credit_debit rt self row = Ok (PyInt 0)) /\
  (forall f : float,
     truthy (credit_regexp self) = false ->
     debit_col self <> credit_col self ->
     credit <> "" ->
     credit_col self <> payee_col self ->
     atof rt (remove_spaces credit) = Ok f ->
     credit_debit rt self row =
       Ok (if eq0 (PyFloat f) then PyInt 0 else pyabs (PyFloat f))) /\
  (forall e : exn,
     truthy (credit_regexp self) = false ->
     debit_col self <> credit_col self ->
     credit <> "" ->
     credit_col self <> payee_col self ->
     atof rt (remove_spaces credit) = Raise e ->
     credit_debit rt self row =
       Raise (match e with ValueError _ => TypeError | _ => e end)).
Proof.
  intros Hd Hc Hb.
  assert (Ha : parse_debit rt (remove_spaces debit) = Ok (PyInt 0)).
  { unfold parse_debit. rewrite Hb. reflexivity. }
  split; [exact Ha |]. split; [| split].
  - intros Hcase.
    unfold credit_debit. rewrite Hd. cbn [bind]. rewrite Hc. cbn [bind].
    rewrite Ha. cbn [except_ValueError bind].
    destruct (truthy (credit_regexp self)).
    { destruct (re_match rt _ credit); reflexivity. }
    destruct (Z.eqb_spec (debit_col self) (credit_col self)).
    { destruct (debit_is_negative self); reflexivity. }
    destruct Hcase as [H | [H | [H | H]]]; try congruence.
    + subst credit. reflexivity.
    + rewrite H, Z.eqb_refl, andb_false_r. reflexivity.
  - intros f Ht Hcols Hne Hpay Hf.
    destruct (eq0 (PyFloat f)) eqn:Hz.
    + apply (zero_credit_result self row debit credit (PyInt 0) f);
        assumption.
    + apply (nonzero_credit_returned self row debit credit (PyInt 0) f);
        assumption.
  - intros e Ht Hcols Hne Hpay Hf.
    rewrite (credit_branch self row debit credit (PyInt 0)) by assumption.
    rewrite Hf. destruct e; reflexivity.
Qed.

End CreditDebit.

(* ===================================================================== *)
(** * Dates *)
(* ===================================================================== *)

Lemma date_ltb_irrefl (d : date) : date_ltb d d = false.
Proof.
  unfold date_ltb. rewrite !Z.ltb_irrefl, !Z.eqb_refl. reflexivity.
Qed.

Lemma date_leb_refl (d : date) : date_leb d d = true.
Proof. unfold date_leb. now rewrite date_ltb_irrefl. Qed.

(** A day is before the day after it. *)
Lemma date_ltb_next_day (d : date) : date_ltb d (next_day d) = true.
Proof.
  unfold next_day, date_ltb.
  destruct (day d <? days_in_month (year d) (month d)) eqn:Hd; cbn [year month day].
  - rewrite Z.ltb_irrefl, !Z.eqb_refl.
    replace (day d <? day d + 1) with true by (symmetry; apply Z.ltb_lt; lia).
    rewrite Z.ltb_irrefl. reflexivity.
  - destruct (month d <? 12) eqn:Hm; cbn [year month day].
    + rewrite Z.ltb_irrefl, Z.eqb_refl.
      replace (month d <? month d + 1) with true by (symmetry; apply Z.ltb_lt; lia).
      reflexivity.
    + replace (year d <? year d + 1) with true by (symmetry; apply Z.ltb_lt; lia).
      reflexivity.
Qed.

(** The order of dates, by year, month and day. *)
Lemma date_ltb_iff (a b : date) :
  date_ltb a b = true <->
  year a < year b \/
  (year a = year b /\
   (month a < month b \/ (month a = month b /\ day a < day b))).
Proof.
  unfold date_ltb.
  destruct (Z.ltb_spec (year a) (year b)), (Z.eqb_spec (year a) (year b)),
    (Z.ltb_spec (month a) (month b)), (Z.eqb_spec (month a) (month b)),
    (Z.ltb_spec (day a) (day b)); cbn; split; intros; (lia || discriminate || reflexivity).
Qed.

(** The window test of the specification is the negation of the test the
    loop makes. *)
Lemma in_window_ltb (cutoff_date today d : date) :
  in_window cutoff_date today d =
  negb (date_ltb d cutoff_date || date_ltb today d).
Proof.
  unfold in_window, date_leb. now rewrite negb_orb.
Qed.

(** A day and month of the year 1900, which is not a leap year, exist in
    every year of the calendar. *)
Lemma valid_ymd_1900 (y m d : Z) :
  valid_ymd NO_YEAR m d = true ->
  MINYEAR <= y <= MAXYEAR ->
  valid_ymd y m d = true.
Proof.
  unfold valid_ymd, NO_YEAR. intros H [Hlo Hhi].
  repeat (apply andb_prop in H; destruct H as [H ?]).
  repeat (apply andb_true_intro; split); try assumption;
    try (apply Z.leb_le; assumption).
  apply Z.leb_le. match goal with Hd : (d <=? _) = true |- _ => apply Z.leb_le in Hd; revert Hd end.
  unfold days_in_month. change (is_leap 1900) with false.
  destruct (m =? 2); [destruct (is_leap y); lia |].
  destruct ((m =? 4) || (m =? 6) || (m =? 9) || (m =? 11)); lia.
Qed.

Section Str2date.

Variable rt : Runtime.

(** What [str2date] returns for a date without year, by the year that the
    comparison of the months selects. *)
Lemma str2date_no_year (self : CSVFormat) (date_str : string) (now d : date) :
  strptime rt date_str (date_format self) = Ok d ->
  year d = NO_YEAR ->
  str2date rt self date_str (Some now) =
    let y := if month d <=? month now then year now else year now - 1 in
    if valid_ymd y (month d) (day d) then Some (mkDate y (month d) (day d))
    else None.
Proof.
  intros Hp Hy. unfold str2date, str2date_try. rewrite Hp. cbn [bind].
  rewrite Hy, Z.eqb_refl. cbn [bind]. unfold datetime_date.
  cbv zeta.
  destruct (valid_ymd _ (month d) (day d)); reflexivity.
Qed.

(** C3, as the code has it.  For a date string that [strptime] parses to a
    date of the year 1900, [str2date] returns the parsed day and month in
    the year of the reference date when the parsed month is at most the
    reference month, and in the year before when the parsed month is later
    and the reference year is at least 2.  For a reference date in year 1
    and a later parsed month there is no year before: [str2date] returns
    [None]. *)
Theorem str2date_year_inference (self : CSVFormat) (date_str : string)
    (now d : date) :
  strptime rt date_str (date_format self) = Ok d ->
  valid_date d = true ->
  year d = NO_YEAR ->
  valid_date now = true ->
  (month d <= month now ->
   str2date rt self date_str (Some now) =
     Some (mkDate (year now) (month d) (day d))) /\
  (month now < month d -> 2 <= year now ->
   str2date rt self date_str (Some now) =
     Some (mkDate (year now - 1) (month d) (day d))) /\
  (month now < month d -> year now = 1 ->
   str2date rt self date_str (Some now) = None).
Proof.
  intros Hp Hv Hy Hnow.
  rewrite (str2date_no_year self date_str now d Hp Hy). cbv zeta.
  unfold valid_date in Hv. rewrite Hy in Hv.
  assert (Hrange : MINYEAR <= year now <= MAXYEAR).
  { unfold valid_date, valid_ymd in Hnow.
    repeat (apply andb_prop in Hnow; destruct Hnow as [Hnow ?]).
    split; apply Z.leb_le; assumption. }
  unfold MINYEAR, MAXYEAR in Hrange.
  repeat split.
  - intros Hle. apply Z.leb_le in Hle. rewrite Hle.
    rewrite (valid_ymd_1900 (year now) _ _ Hv); [reflexivity |].
    unfold MINYEAR, MAXYEAR; lia.
  - intros Hlt H2. apply Z.leb_gt in Hlt. rewrite Hlt.
    rewrite (valid_ymd_1900 (year now - 1) _ _ Hv); [reflexivity |].
    unfold MINYEAR, MAXYEAR; lia.
  - intros Hlt H1. apply Z.leb_gt in Hlt. rewrite Hlt, H1. reflexivity.
Qed.

(** A date that [str2date] returns is a date of the calendar. *)
Lemma str2date_valid (self : CSVFormat) (date_str : string)
    (now : option date) (r : date) :
  str2date rt self date_str now = Some r -> valid_date r = true.
Proof.
  unfold str2date, str2date_try.
  destruct (strptime rt date_str (date_format self)) as [d | e]; cbn [bind];
    [| discriminate].
  destruct (if year d =? NO_YEAR then _ else _) as [y | e]; cbn [bind];
    [| discriminate].
  unfold datetime_date. destruct (valid_ymd y (month d) (day d)) eqn:Hv;
    [| discriminate].
  intros [= <-]. exact Hv.
Qed.

End Str2date.

(* ===================================================================== *)
(** * The conversion loop *)
(* ===================================================================== *)

Lemma append_assoc (a b c : string) : (a ++ b) ++ c = a ++ (b ++ c).
Proof. induction a as [| x a IH]; cbn; [reflexivity | now rewrite IH]. Qed.

Lemma append_nil_r (a : string) : a ++ "" = a.
Proof. induction a as [| x a IH]; cbn; [reflexivity | now rewrite IH]. Qed.

Section Conversion.

Variable rt : Runtime.
Variable self : CSVFormat.
Variables cutoff_date today : date.

Local Abbreviation step := (row_step rt self cutoff_date today).
Local Abbreviation run := (loop rt self cutoff_date today).

(** The block the loop appends is the serialization of the record. *)
Lemma qif_block_serialize (d : date) (amount : pynum) (payee : string) :
  qif_block rt self d amount payee =
  serialize rt (mkRecord (type self) d amount payee).
Proof. reflexivity. Qed.

(** The outcomes of one iteration that does not raise: the row is ignored
    and nothing changes; or it is counted by exactly one of [empty],
    [ncols_mismatch] and [valid] without being accepted; or it is accepted,
    counted by [valid] and its record is added. *)
Lemma row_step_inv (c c' : counters) (row : list string) :
  step c row = Ok c' ->
  (ignored rt self row = true /\
   accepted rt self cutoff_date today row = None /\ c' = c) \/
  (ignored rt self row = false /\
   accepted rt self cutoff_date today row = None /\
   (c' = incr_empty c \/ c' = incr_ncols_mismatch c \/ c' = incr_valid c)) \/
  (ignored rt self row = false /\
   exists r, accepted rt self cutoff_date today row = Some r /\
             c' = add_record (incr_valid c) (r_amount r) (serialize rt r)).
Proof.
  unfold row_step, accepted, ignored.
  destruct (ignore_test rt self row) as [[|] | e]; cbn [bind]; try discriminate.
  { intros [= <-]. left. auto. }
  destruct (len row =? 0); cbn [orb].
  { intros [= <-]. right; left. auto. }
  destruct (len row =? ncols self); cbn [negb].
  2: { intros [= <-]. right; left. auto. }
  destruct (getitem row (date_col self)) as [date_str | e]; cbn [bind];
    try discriminate.
  destruct (str2date rt self date_str (Some today)) as [d |].
  2: { intros [= <-]. right; left. auto. }
  rewrite in_window_ltb.
  destruct (date_ltb d cutoff_date || date_ltb today d); cbn [negb].
  { intros [= <-]. right; left. auto. }
  destruct (getitem row (payee_col self)) as [payee | e]; cbn [bind];
    try discriminate.
  destruct (credit_debit rt self row) as [amount | e]; cbn [bind];
    try discriminate.
  intros [= <-]. right; right. split; [reflexivity |].
  eexists. split; [reflexivity |]. reflexivity.
Qed.

(** What an accepted row gives to its record. *)
Lemma accepted_inv (row : list string) (r : OutputRecord) :
  accepted rt self cutoff_date today row = Some r ->
  r_kind r = type self /\
  in_window cutoff_date today (r_date r) = true /\
  valid_date (r_date r) = true /\
  credit_debit rt self row = Ok (r_amount r).
Proof.
  unfold accepted.
  destruct (ignored rt self row); [discriminate |].
  destruct ((len row =? 0) || negb (len row =? ncols self)); [discriminate |].
  destruct (getitem row (date_col self)) as [date_str | e]; [| discriminate].
  destruct (str2date rt self date_str (Some today)) as [d |] eqn:Hd;
    [| discriminate].
  destruct (in_window cutoff_date today d) eqn:Hw; [| discriminate].
  destruct (getitem row (payee_col self)) as [payee | e]; [| discriminate].
  destruct (credit_debit rt self row) as [amount | e]; [| discriminate].
  intros [= <-]. cbn. repeat split; try assumption.
  eapply str2date_valid; eassumption.
Qed.

Lemma loop_app (c : counters) (pre post : list (list string)) :
  run c (pre ++ post) = (c' <- run c pre ;; run c' post).
Proof.
  revert c. induction pre as [| row pre IH]; intros c; cbn; [reflexivity |].
  destruct (step c row) as [c1 | e]; cbn [bind]; [apply IH | reflexivity].
Qed.

(** Every row that is not ignored is counted once, by [valid], [empty] or
    [ncols_mismatch], and [processed] never exceeds [valid]. *)
Lemma loop_counts (rows : list (list string)) (c c' : counters) :
  run c rows = Ok c' ->
  c_valid c' + c_empty c' + c_ncols_mismatch c' =
    c_valid c + c_empty c + c_ncols_mismatch c + len (kept rt self rows) /\
  c_valid c' - c_processed c' >= c_valid c - c_processed c.
Proof.
  unfold kept, len.
  revert c. induction rows as [| row rows IH]; intros c; cbn.
  - intros [= <-]. lia.
  - destruct (step c row) as [c1 | e] eqn:Hs; cbn [bind]; try discriminate.
    intros Hrun. destruct (IH c1 Hrun) as [IH1 IH2].
    destruct (row_step_inv c c1 row Hs)
      as [(Hi & _ & ->) | [(Hi & _ & Hc) | (Hi & r & _ & ->)]];
      rewrite Hi; cbn [negb].
    + split; assumption.
    + cbn [List.length]. rewrite Nat2Z.inj_succ.
      destruct Hc as [-> | [-> | ->]]; cbn in IH1, IH2; lia.
    + cbn [List.length]. rewrite Nat2Z.inj_succ.
      cbn in IH1, IH2; lia.
Qed.

(** The text grows by the blocks of the accepted rows, in their order. *)
Lemma loop_text (rows : list (list string)) (c c' : counters) :
  run c rows = Ok c' ->
  c_qif_text c' =
    c_qif_text c ++
    serialize_all rt (output_records rt self cutoff_date today rows).
Proof.
  revert c. induction rows as [| row rows IH]; intros c; cbn.
  - intros [= <-]. now rewrite append_nil_r.
  - destruct (step c row) as [c1 | e] eqn:Hs; cbn [bind]; try discriminate.
    intros Hrun. rewrite (IH c1 Hrun).
    destruct (row_step_inv c c1 row Hs)
      as [(_ & Ha & ->) | [(_ & Ha & Hc) | (_ & r & Ha & ->)]];
      rewrite Ha.
    + reflexivity.
    + destruct Hc as [-> | [-> | ->]]; reflexivity.
    + cbn. now rewrite append_assoc.
Qed.

End Conversion.

Lemma getitem_nonempty {A : Type} (l : list A) (i : Z) (x : A) :
  getitem l i = Ok x -> (len l =? 0) = false.
Proof.
  destruct l as [| a l]; [| intros _; reflexivity].
  unfold getitem. destruct (_ <? 0); [discriminate |].
  destruct (Z.to_nat _); discriminate.
Qed.

Lemma output_records_app (rt : Runtime) (self : CSVFormat)
    (cutoff_date today : date) (pre post : list (list string)) :
  output_records rt self cutoff_date today (pre ++ post) =
  (output_records rt self cutoff_date today pre ++
   output_records rt self cutoff_date today post)%list.
Proof.
  induction pre as [| row pre IH]; cbn; [reflexivity |].
  destruct (accepted rt self cutoff_date today row); cbn; now rewrite IH.
Qed.

Lemma serialize_all_app (rt : Runtime) (a b : list OutputRecord) :
  serialize_all rt (a ++ b)%list = serialize_all rt a ++ serialize_all rt b.
Proof.
  induction a as [| r a IH]; cbn [serialize_all app]; [reflexivity |].
  now rewrite IH, append_assoc.
Qed.

(* ===================================================================== *)
(** * The date and amount lines *)
(* ===================================================================== *)

(** A test that holds on each number of a range holds on any number in
    the range. *)
Lemma forall_range (P : Z -> bool) (lo n : Z) :
  forallb P (map (fun i => lo + Z.of_nat i) (seq 0 (Z.to_nat n))) = true ->
  forall z, lo <= z < lo + n -> P z = true.
Proof.
  intros H z Hz. rewrite forallb_forall in H. apply H.
  apply in_map_iff. exists (Z.to_nat (z - lo)). split; [lia |].
  apply in_seq. lia.
Qed.

Lemma is_digit_digit_char (z : Z) : 0 <= z < 10 -> is_digit (digit_char z) = true.
Proof.
  intros Hz.
  apply (forall_range (fun z => is_digit (digit_char z)) 0 10);
    [vm_compute; reflexivity | lia].
Qed.

(** Numbers below 100 padded to two characters, and numbers of four
    digits. *)
Lemma pad_2_digits (z : Z) :
  0 <= z < 100 ->
  Ref.pad 2 z =
  String (digit_char (z / 10)) (String (digit_char (z mod 10)) "").
Proof.
  intros Hz. apply String.eqb_eq.
  apply (forall_range
           (fun z => String.eqb (Ref.pad 2 z)
                       (String (digit_char (z / 10))
                          (String (digit_char (z mod 10)) ""))) 0 100);
    [vm_compute; reflexivity | lia].
Qed.

Lemma pad_4_digits (z : Z) :
  1000 <= z < 10000 ->
  Ref.pad 4 z =
  String (digit_char (z / 1000))
    (String (digit_char (z / 100 mod 10))
       (String (digit_char (z / 10 mod 10))
          (String (digit_char (z mod 10)) ""))).
Proof.
  intros Hz. apply String.eqb_eq.
  apply (forall_range
           (fun z => String.eqb (Ref.pad 4 z)
                       (String (digit_char (z / 1000))
                          (String (digit_char (z / 100 mod 10))
                             (String (digit_char (z / 10 mod 10))
                                (String (digit_char (z mod 10)) ""))))) 1000 9000);
    [vm_compute; reflexivity | lia].
Qed.

Lemma days_in_month_bound (y m : Z) : 28 <= days_in_month y m <= 31.
Proof.
  unfold days_in_month.
  destruct (m =? 2); [destruct (is_leap y); lia |].
  destruct ((m =? 4) || (m =? 6) || (m =? 9) || (m =? 11)); lia.
Qed.

Lemma valid_date_bounds (d : date) :
  valid_date d = true ->
  MINYEAR <= year d <= MAXYEAR /\ 1 <= month d <= 12 /\
  1 <= day d <= days_in_month (year d) (month d).
Proof.
  unfold valid_date, valid_ymd. intros H.
  repeat (apply andb_prop in H; destruct H as [H ?]).
  repeat match goal with Hb : (_ <=? _) = true |- _ => apply Z.leb_le in Hb end.
  lia.
Qed.

(** [%d-%m-%Y] on a date of the calendar from the year 1000 on. *)
Lemma strftime_dd_mm_yyyy (d : date) :
  valid_date d = true -> 1000 <= year d ->
  Ref.strftime d "%d-%m-%Y" = dd_mm_yyyy d.
Proof.
  intros Hv Hy. destruct (valid_date_bounds d Hv) as (Hyr & Hm & Hd).
  pose proof (days_in_month_bound (year d) (month d)) as Hdim.
  unfold MAXYEAR in Hyr.
  cbn [Ref.strftime].
  rewrite (pad_2_digits (day d)), (pad_2_digits (month d)),
    (pad_4_digits (year d)) by lia.
  reflexivity.
Qed.

Lemma digits_only_string_of_uint (u : Decimal.uint) :
  digits_only (NilEmpty.string_of_uint u) = true.
Proof. induction u; cbn; auto. Qed.

(** The decimal text of an integer: digits, and at least one. *)
Lemma dec_digits (z : Z) :
  exists c s, Ref.dec z = String c s /\ is_digit c = true /\ digits_only s = true.
Proof.
  unfold Ref.dec. generalize (N.to_uint (Z.to_N z)). intros u.
  pose proof (digits_only_string_of_uint u) as H.
  destruct u; cbn in *;
    (eexists; eexists; split; [reflexivity | split; [reflexivity | assumption]]).
Qed.

Lemma digits_point_two_digits (ip : string) (a b : ascii) (seen : bool) :
  digits_only ip = true ->
  seen = true \/ ip <> "" ->
  is_digit a = true -> is_digit b = true ->
  digits_point_two seen (ip ++ String "." (String a (String b ""))) = true.
Proof.
  intros Hip Hs Ha Hb. revert seen Hs.
  induction ip as [| c ip IH]; intros seen Hs.
  - destruct Hs as [-> | Hne]; [| contradiction].
    cbn. rewrite Ha, Hb. reflexivity.
  - cbn in Hip. apply andb_prop in Hip. destruct Hip as [Hc Hip].
    cbn [append digits_point_two]. rewrite Hc. apply IH; auto.
Qed.

(** ["%.02f"] on a finite number gives two decimals. *)
Lemma format_2f_two_decimals (x : float) :
  is_finite x = true -> two_decimals (Ref.format_2f x) = true.
Proof.
  destruct x as [s | s | | s m e]; try discriminate; intros _.
  - destruct s; reflexivity.
  - unfold Ref.format_2f.
    set (n := if 0 <=? e then _ else _).
    assert (Hr : 0 <= n mod 100 < 100) by (apply Z.mod_pos_bound; lia).
    rewrite (pad_2_digits _ Hr).
    destruct (dec_digits (n / 100)) as (c & ip & -> & Hc & Hip).
    assert (Hfrac :
      digits_point_two false
        (String c ip ++
         String "." (String (digit_char (n mod 100 / 10))
                       (String (digit_char (n mod 100 mod 10)) ""))) = true).
    { apply digits_point_two_digits.
      - cbn. now rewrite Hc, Hip.
      - right. discriminate.
      - apply is_digit_digit_char. split.
        + apply Z.div_pos; lia.
        + apply Z.div_lt_upper_bound; lia.
      - apply is_digit_digit_char. apply Z.mod_pos_bound. lia. }
    destruct s.
    + exact Hfrac.
    + cbn [append]. unfold two_decimals.
      destruct (Ascii.eqb_spec c "-") as [-> | _]; [discriminate Hc |].
      exact Hfrac.
Qed.

(** ["%.02f"] on an infinity or a NaN gives no decimals. *)
Lemma format_2f_not_finite (x : float) :
  is_finite x = false ->
  (Ref.format_2f x = "inf" \/ Ref.format_2f x = "-inf" \/ Ref.format_2f x = "nan") /\
  two_decimals (Ref.format_2f x) = false.
Proof.
  destruct x as [s | s | | s m e]; try discriminate; intros _.
  - destruct s; cbn; auto.
  - cbn; auto.
Qed.

Section Properties.

Variable rt : Runtime.

(** C2.  When a conversion run ends without an exception, the statistics
    it records satisfy [valid = processed + skipped], and [valid + empty +
    ncols_mismatch] is the number of rows that the ignore filter did not
    drop. *)
Theorem row_count_law (self self' : CSVFormat) (cutoff_date today : date)
    (text : string) :
  convert_csv_to_qif rt self cutoff_date today = (Ok text, self') ->
  exists st,
    stats self' = Some st /\
    valid st = processed st + skipped st /\
    valid st + empty st + ncols_mismatch st = len (kept rt self (csv_rows self)).
Proof.
  unfold convert_csv_to_qif.
  destruct (loop rt self cutoff_date today counters0 (csv_rows self))
    as [c | e] eqn:Hrun; [| discriminate].
  intros [= _ <-]. exists (stats_of c).
  destruct (loop_counts rt self cutoff_date today _ _ _ Hrun) as [Hsum _].
  cbn in *. repeat split; lia.
Qed.

(** In such a run [skipped] counts rows: it is not negative. *)
Lemma skipped_nonneg (self self' : CSVFormat) (cutoff_date today : date)
    (text : string) (st : Stats) :
  convert_csv_to_qif rt self cutoff_date today = (Ok text, self') ->
  stats self' = Some st ->
  0 <= skipped st.
Proof.
  unfold convert_csv_to_qif.
  destruct (loop rt self cutoff_date today counters0 (csv_rows self))
    as [c | e] eqn:Hrun; [| discriminate].
  intros [= _ <-]. cbn. intros [= <-].
  destruct (loop_counts rt self cutoff_date today _ _ _ Hrun) as [_ Hge].
  cbn in *. lia.
Qed.

(** C4.  A row that passes the ignore filter, has the expected number of
    fields and a date [d] that parses is counted as valid, and the
    iteration that handles it without an exception emits it exactly when
    [cutoff_date <= d <= today], dates being ordered by year, month and
    day.  Emitting the row is: one more processed row, its amount added to
    the balance, and its block appended to the text, the lines [!Type:]
    with the account kind, [D] with the date [d], [T] with the amount, [P]
    with the payee and [^], each ended by CR LF; the row is then the output
    record of that date, amount and payee.  A row outside the window is
    counted as valid and nothing else: the text, the balance and the
    number of processed rows stay as they were.  Both bounds are inside:
    in a window that is not empty a row dated [cutoff_date] or [today] is
    emitted; a row dated the day before [cutoff_date] or the day after
    [today] is only counted as valid. *)
Theorem date_window_inclusive (self : CSVFormat) (cutoff_date today : date)
    (c c' : counters) (row : list string) (date_str : string) (d : date) :
  ignore_test rt self row = Ok false ->
  len row = ncols self ->
  getitem row (date_col self) = Ok date_str ->
  str2date rt self date_str (Some today) = Some d ->
  row_step rt self cutoff_date today c row = Ok c' ->
  let crlf := String "013" (String "010" "") in
  let before (a b : date) :=
    year a < year b \/
    (year a = year b /\
     (month a < month b \/ (month a = month b /\ day a < day b))) in
  let emitted :=
    exists amount payee,
      credit_debit rt self row = Ok amount /\
      getitem row (payee_col self) = Ok payee /\
      accepted rt self cutoff_date today row =
        Some (mkRecord (type self) d amount (collapse_spaces payee)) /\
      c_processed c' = c_processed c + 1 /\
      c_balance c' =
        Fadd (c_balance c)
          (match amount with PyInt z => float_of_int z | PyFloat f => f end) /\
      c_qif_text c' =
        c_qif_text c ++
        "!Type:" ++ match type self with CCard => "CCard" | Bank => "Bank" end ++
        crlf ++
        "D" ++ strftime rt d "%d-%m-%Y" ++ crlf ++
        "T" ++ format_2f rt
                 (match amount with PyInt z => float_of_int z | PyFloat f => f end) ++
        crlf ++
        "P" ++ collapse_spaces payee ++ crlf ++
        "^" ++ crlf in
  let only_counted :=
    accepted rt self cutoff_date today row = None /\
    c_processed c' = c_processed c /\
    c_balance c' = c_balance c /\
    c_qif_text c' = c_qif_text c in
  c_valid c' = c_valid c + 1 /\
  c_empty c' = c_empty c /\
  c_ncols_mismatch c' = c_ncols_mismatch c /\
  (c_processed c' = c_processed c + 1 <->
   date_leb cutoff_date d = true /\ date_leb d today = true) /\
  (c_processed c' = c_processed c + 1 <->
   ~ before d cutoff_date /\ ~ before today d) /\
  (date_leb cutoff_date d = true /\ date_leb d today = true -> emitted) /\
  (date_ltb d cutoff_date = true \/ date_ltb today d = true -> only_counted) /\
  (date_leb cutoff_date today = true -> d = cutoff_date \/ d = today -> emitted) /\
  (next_day d = cutoff_date \/ d = next_day today -> only_counted).
Proof.
  intros Hi Hlen Hd Hdate Hstep crlf before emitted only_counted.
  assert (Hne : (len row =? 0) = false) by (eapply getitem_nonempty; eassumption).
  assert (Hcases :
    (in_window cutoff_date today d = true /\ emitted /\
     c_valid c' = c_valid c + 1 /\ c_empty c' = c_empty c /\
     c_ncols_mismatch c' = c_ncols_mismatch c) \/
    (in_window cutoff_date today d = false /\ only_counted /\
     c_valid c' = c_valid c + 1 /\ c_empty c' = c_empty c /\
     c_ncols_mismatch c' = c_ncols_mismatch c)).
  { revert Hstep. unfold emitted, only_counted, row_step, accepted, ignored.
    rewrite Hi. cbn [bind]. rewrite Hne, Hlen, Z.eqb_refl. cbn [negb orb].
    rewrite Hd. cbn [bind]. rewrite Hdate. cbv zeta.
    rewrite in_window_ltb.
    destruct (date_ltb d cutoff_date || date_ltb today d); cbn [negb].
    - intros [= <-]. right. cbn. auto 10.
    - destruct (getitem row (payee_col self)) as [payee | e]; cbn [bind];
        try discriminate.
      destruct (credit_debit rt self row) as [amount | e]; cbn [bind];
        try discriminate.
      intros [= <-]. left. split; [reflexivity |]. split.
      + exists amount, payee. repeat split.
      + cbn. auto. }
  assert (Hin : in_window cutoff_date today d = true <->
                date_leb cutoff_date d = true /\ date_leb d today = true)
    by (unfold in_window; apply andb_true_iff).
  assert (Hout : in_window cutoff_date today d = false <->
                 date_ltb d cutoff_date = true \/ date_ltb today d = true).
  { rewrite in_window_ltb, negb_false_iff. apply orb_true_iff. }
  assert (Hiff : c_processed c' = c_processed c + 1 <->
                 in_window cutoff_date today d = true).
  { destruct Hcases as [(Hw & (a & p & _ & _ & _ & Hp & _) & _)
                       | (Hw & (_ & Hp & _) & _)]; rewrite Hw.
    - split; auto.
    - split; [lia | discriminate]. }
  assert (Hemit : in_window cutoff_date today d = true -> emitted).
  { intros Hw. destruct Hcases as [(_ & H & _) | (Hw' & _)];
      [exact H | congruence]. }
  assert (Honly : in_window cutoff_date today d = false -> only_counted).
  { intros Hw. destruct Hcases as [(Hw' & _) | (_ & H & _)];
      [congruence | exact H]. }
  assert (Hcount : c_valid c' = c_valid c + 1 /\ c_empty c' = c_empty c /\
                   c_ncols_mismatch c' = c_ncols_mismatch c).
  { destruct Hcases as [(_ & _ & H) | (_ & _ & H)]; exact H. }
  destruct Hcount as (Hv & He & Hn).
  split; [exact Hv |]. split; [exact He |]. split; [exact Hn |].
  split; [rewrite Hiff; exact Hin |].
  split.
  { rewrite Hiff, Hin. unfold date_leb, before.
    rewrite !negb_true_iff, <- !not_true_iff_false, !date_ltb_iff.
    reflexivity. }
  split; [intros Hw; apply Hemit, Hin, Hw |].
  split; [intros Hw; apply Honly, Hout, Hw |].
  split.
  { intros Hwin Hb. apply Hemit, Hin.
    destruct Hb as [-> | ->]; rewrite date_leb_refl, ?Hwin; auto. }
  intros Hb. apply Honly, Hout.
  destruct Hb as [<- | ->]; [left | right]; apply date_ltb_next_day.
Qed.

(** Without an ignore pattern the anomalies of a row are counted and the
    iteration ends normally: an empty row and a row whose date does not
    parse count as [empty], a row with another number of fields than
    [ncols] counts as [ncols_mismatch]. *)
Lemma anomalies_counted (self : CSVFormat) (cutoff_date today : date)
    (c : counters) (row : list string) :
  truthy (ignore_regexp self) = false ->
  (row = [] -> row_step rt self cutoff_date today c row = Ok (incr_empty c)) /\
  (row <> [] -> len row <> ncols self ->
   row_step rt self cutoff_date today c row = Ok (incr_ncols_mismatch c)) /\
  (forall date_str,
     len row = ncols self ->
     getitem row (date_col self) = Ok date_str ->
     str2date rt self date_str (Some today) = None ->
     row_step rt self cutoff_date today c row = Ok (incr_empty c)).
Proof.
  intros Ht. unfold row_step, ignore_test. rewrite Ht. cbn [bind].
  repeat split.
  - intros ->. reflexivity.
  - intros Hne Hlen. destruct row as [| f row]; [contradiction |].
    change (len (f :: row) =? 0) with false. cbv iota.
    destruct (Z.eqb_spec (len (f :: row)) (ncols self)); [contradiction | reflexivity].
  - intros date_str Hlen Hd Hdate.
    rewrite (getitem_nonempty _ _ _ Hd), Hlen, Z.eqb_refl. cbn [negb].
    rewrite Hd. cbn [bind]. rewrite Hdate. reflexivity.
Qed.

(** With an ignore pattern the filter reads [row[self.ignore_col]] first:
    on an empty row that is an [IndexError], and with an [ignore_col] that
    is a [str] a [TypeError] on every row. *)
Lemma ignore_test_raises (self : CSVFormat) (row : list string) :
  truthy (ignore_regexp self) = true ->
  (forall i, ignore_col self = SubInt i -> row = [] ->
     ignore_test rt self row = Raise IndexError) /\
  (forall s, ignore_col self = SubStr s ->
     ignore_test rt self row = Raise TypeError).
Proof.
  intros Ht. unfold ignore_test. rewrite Ht. split.
  - intros i -> ->. unfold getitem_sub, getitem.
    destruct (_ <? 0); [reflexivity |]. destruct (Z.to_nat _); reflexivity.
  - intros s ->. reflexivity.
Qed.

(** C8, on the code.  With an ignore pattern configured and an integer
    [ignore_col], an empty row does not reach the test that would count it
    as empty: the ignore filter subscripts the row first.  The conversion
    stops at that row with [IndexError], whatever rows follow, and records
    no statistics, where the claim has the row counted and the run go
    on. *)
Theorem empty_row_with_ignore_pattern_raises (self : CSVFormat)
    (cutoff_date today : date) (pre post : list (list string))
    (c : counters) (i : Z) :
  truthy (ignore_regexp self) = true ->
  ignore_col self = SubInt i ->
  csv_rows self = (pre ++ [] :: post)%list ->
  loop rt self cutoff_date today counters0 pre = Ok c ->
  row_step rt self cutoff_date today c [] = Raise IndexError /\
  convert_csv_to_qif rt self cutoff_date today = (Raise IndexError, self).
Proof.
  intros Ht Hcol Hrows Hpre.
  destruct (ignore_test_raises self [] Ht) as [Hraise _].
  assert (Hstep : row_step rt self cutoff_date today c [] = Raise IndexError).
  { unfold row_step. rewrite (Hraise i Hcol eq_refl). reflexivity. }
  split; [exact Hstep |].
  unfold convert_csv_to_qif. rewrite Hrows, loop_app, Hpre. cbn [bind loop].
  rewrite Hstep. reflexivity.
Qed.


(** C9, as the code has it.  The text of a conversion run that ends
    without an exception is the concatenation, in the order of the rows,
    of one block per output record: the lines [!Type:] with the account
    kind [CCard] or [Bank], [D] with the date as [strftime("%d-%m-%Y")]
    gives it, [T] with the amount as ["%.02f"] gives it, [P] with the
    payee and [^], each ended by CR LF; without output records the text is
    empty.  With the date and number formatting of CPython the date line
    is [dd-mm-yyyy] for a date from the year 1000 on, and the amount line
    has exactly two decimals when the amount is finite; the amount line of
    an infinite or NaN amount is [inf], [-inf] or [nan], without
    decimals. *)
Theorem qif_text_serializes_records (self self' : CSVFormat)
    (cutoff_date today : date) (text : string) :
  (forall x, format_2f rt x = Ref.format_2f x) ->
  (forall d, valid_date d = true -> 1000 <= year d ->
     strftime rt d "%d-%m-%Y" = Ref.strftime d "%d-%m-%Y") ->
  convert_csv_to_qif rt self cutoff_date today = (Ok text, self') ->
  let crlf := String "013" (String "010" "") in
  let amount_of (r : OutputRecord) :=
    match r_amount r with PyInt z => float_of_int z | PyFloat f => f end in
  let block (r : OutputRecord) :=
    "!Type:" ++ match r_kind r with CCard => "CCard" | Bank => "Bank" end ++
    crlf ++
    "D" ++ strftime rt (r_date r) "%d-%m-%Y" ++ crlf ++
    "T" ++ format_2f rt (amount_of r) ++ crlf ++
    "P" ++ r_payee r ++ crlf ++
    "^" ++ crlf in
  let blocks (rs : list OutputRecord) :=
    fold_right (fun r rest => block r ++ rest) "" rs in
  let records := output_records rt self cutoff_date today in
  text = blocks (records (csv_rows self)) /\
  (forall pre post,
     csv_rows self = (pre ++ post)%list ->
     text = blocks (records pre) ++ blocks (records post)) /\
  Forall (fun r =>
            (1000 <= year (r_date r) ->
             strftime rt (r_date r) "%d-%m-%Y" = dd_mm_yyyy (r_date r)) /\
            (is_finite (amount_of r) = true ->
             two_decimals (format_2f rt (amount_of r)) = true) /\
            (is_finite (amount_of r) = false ->
             (format_2f rt (amount_of r) = "inf" \/
              format_2f rt (amount_of r) = "-inf" \/
              format_2f rt (amount_of r) = "nan") /\
             two_decimals (format_2f rt (amount_of r)) = false))
         (records (csv_rows self)) /\
  (records (csv_rows self) = [] -> text = "").
Proof.
  intros Hfmt Hdate Hconv crlf amount_of block blocks records.
  assert (Hblocks : forall rs, serialize_all rt rs = blocks rs).
  { induction rs as [| r rs IH]; [reflexivity |].
    cbn [serialize_all]. rewrite IH. reflexivity. }
  revert Hconv. unfold convert_csv_to_qif.
  destruct (loop rt self cutoff_date today counters0 (csv_rows self))
    as [c | e] eqn:Hrun; [| discriminate].
  intros [= <- _].
  pose proof (loop_text rt self cutoff_date today _ _ _ Hrun) as Htext.
  cbn [counters0 c_qif_text append] in Htext.
  split; [rewrite Htext; apply Hblocks |]. split.
  { intros pre post Hrows. rewrite Htext, Hrows, output_records_app.
    rewrite serialize_all_app, !Hblocks. reflexivity. }
  split.
  { unfold records. generalize (csv_rows self). intros rows.
    induction rows as [| row rows IH]; cbn [output_records]; [constructor |].
    destruct (accepted rt self cutoff_date today row) as [r |] eqn:Ha;
      [| exact IH].
    constructor; [| exact IH].
    destruct (accepted_inv rt self cutoff_date today row r Ha)
      as (_ & _ & Hvalid & _).
    split; [| split].
    - intros Hy. rewrite (Hdate _ Hvalid Hy).
      apply strftime_dd_mm_yyyy; assumption.
    - intros Hfin. rewrite Hfmt. apply format_2f_two_decimals, Hfin.
    - intros Hfin. rewrite Hfmt. apply format_2f_not_finite, Hfin. }
  intros Hnil. rewrite Htext. unfold records in Hnil. rewrite Hnil. reflexivity.
Qed.

End Properties.

(* ===================================================================== *)
(** * The theorems on concrete rows *)
(* ===================================================================== *)

(** The example of the specification: one row, the default columns, the
    window of January 2024. *)
Example coffee_shop_example :
  convert_csv_to_qif Ref.runtime (set_csv_rows default_format [coffee_row])
    d_2024_01_01 d_2024_01_31 =
  (Ok ("!Type:CCard" ++ CRLF ++ "D10-01-2024" ++ CRLF ++ "T-3.50" ++ CRLF ++
       "PCoffee Shop" ++ CRLF ++ "^" ++ CRLF),
   set_stats (set_csv_rows default_format [coffee_row])
     (mkStats 1 1 0 (Fopp f_3_5) 0 0)).
Proof. vm_compute. reflexivity. Qed.

(** A refund of 12.50, entered as a negative amount and marked [CR]: the
    field matches, the amount is below zero and is negated. *)
Lemma credit_debit_pattern_sign_witness :
  exists r,
    credit_debit Ref.runtime pattern_format refund_row = Ok r /\
    same_amount r (pyabs (PyFloat (Fopp f_12_5))) /\
    r = neg (PyFloat (Fopp f_12_5)).
Proof.
  destruct (credit_debit_pattern_sign Ref.runtime pattern_format refund_row
              "CR" "-12.50" "CR" (PyFloat (Fopp f_12_5)))
    as (r & Hr & Hsame & Hflip & _); try reflexivity; try discriminate.
  exists r. split; [exact Hr |]. split; [exact Hsame | exact Hflip].
Defined.

(** Six rows in January: three valid dates of which two in the window, one
    empty row, one row of two fields. *)
Lemma row_count_law_witness :
  exists st,
    stats (snd (convert_csv_to_qif Ref.runtime january d_2024_01_01 d_2024_01_31))
      = Some st /\
    valid st = processed st + skipped st /\
    valid st + empty st + ncols_mismatch st = 6.
Proof.
  refine (row_count_law Ref.runtime january _ d_2024_01_01 d_2024_01_31
            (match fst (convert_csv_to_qif Ref.runtime january
                          d_2024_01_01 d_2024_01_31) with
             | Ok t => t
             | Raise _ => ""
             end) _).
  vm_compute. reflexivity.
Defined.

(** The example of the specification: reference date 2024-03-15, parsed
    day and month 10-04. *)
Lemma str2date_year_inference_witness :
  str2date Ref.runtime no_year_format "10-04" (Some d_2024_03_15) =
  Some (mkDate 2023 4 10).
Proof.
  refine (proj1 (proj2 (str2date_year_inference Ref.runtime no_year_format
                          "10-04" d_2024_03_15 (mkDate 1900 4 10) _ _ _ _))
            _ _);
    try reflexivity; unfold d_2024_03_15; cbn; lia.
Defined.

(** The same date string against a reference date in year 1: the claim
    has the year resolved to the year before, the method returns [None]. *)
Lemma str2date_year_one_counterexample :
  strptime Ref.runtime "10-04" (date_format no_year_format) = Ok (mkDate 1900 4 10) /\
  valid_date d_0001_01_01 = true /\
  month d_0001_01_01 < 4 /\
  str2date Ref.runtime no_year_format "10-04" (Some d_0001_01_01) = None /\
  str2date Ref.runtime no_year_format "10-04" (Some d_0001_01_01) <>
    Some (mkDate (year d_0001_01_01 - 1) 4 10).
Proof.
  repeat split; try reflexivity. vm_compute. discriminate.
Qed.

(** A row dated exactly at the cutoff date is emitted: its block is the
    text, its amount the balance. *)
Lemma date_window_inclusive_witness :
  match row_step Ref.runtime default_format d_2024_01_10 d_2024_01_31
          counters0 coffee_row with
  | Ok c' =>
      c_valid c' = 1 /\ c_processed c' = 1 /\
      c_balance c' = Fopp f_3_5 /\
      c_qif_text c' =
        "!Type:CCard" ++ CRLF ++ "D10-01-2024" ++ CRLF ++ "T-3.50" ++ CRLF ++
        "PCoffee Shop" ++ CRLF ++ "^" ++ CRLF
  | Raise _ => False
  end.
Proof.
  destruct (row_step Ref.runtime default_format d_2024_01_10 d_2024_01_31
              counters0 coffee_row) as [c' | e] eqn:Hstep;
    [| vm_compute in Hstep; discriminate Hstep].
  destruct (date_window_inclusive Ref.runtime default_format
              d_2024_01_10 d_2024_01_31 counters0 c' coffee_row
              "10-01-2024" d_2024_01_10)
    as (Hv & _ & _ & _ & _ & _ & _ & Hb & _);
    try reflexivity; try exact Hstep.
  destruct Hb as (amount & payee & Hcd & Hp & _ & Hproc & Hbal & Htext);
    [reflexivity | left; reflexivity |].
  vm_compute in Hcd. injection Hcd as <-.
  vm_compute in Hp. injection Hp as <-.
  split; [exact Hv |]. split; [exact Hproc |].
  split; [rewrite Hbal | rewrite Htext]; vm_compute; reflexivity.
Defined.

(** A statement whose second line is empty, read with an ignore pattern
    and the default [ignore_col]. *)
Lemma empty_row_with_ignore_pattern_raises_witness :
  convert_csv_to_qif Ref.runtime
    (set_csv_rows ignoring_format [coffee_row; empty_row; salary_row])
    d_2024_01_01 d_2024_01_31 =
  (Raise IndexError,
   set_csv_rows ignoring_format [coffee_row; empty_row; salary_row]).
Proof.
  refine (proj2 (empty_row_with_ignore_pattern_raises Ref.runtime
                   (set_csv_rows ignoring_format
                      [coffee_row; empty_row; salary_row])
                   d_2024_01_01 d_2024_01_31 [coffee_row] [salary_row]
                   (add_record (incr_valid counters0) (PyFloat (Fopp f_3_5))
                      (qif_block Ref.runtime ignoring_format d_2024_01_10
                         (PyFloat (Fopp f_3_5)) "Coffee Shop"))
                   1 _ _ _ _));
    reflexivity.
Defined.

(** A fee of 2.00 with a credit field of 0.00 is a debit. *)
Lemma zero_credit_falls_through_witness :
  credit_debit Ref.runtime default_format zero_credit_row =
  Ok (PyFloat (Fopp f_2)).
Proof.
  refine (proj1 (zero_credit_falls_through Ref.runtime default_format
                   zero_credit_row "2.00" "0.00" (PyFloat f_2) Fzero
                   _ _ _ _ _ _ _ _ _));
    try reflexivity; discriminate.
Defined.

(** A salary row: the debit field is empty and the credit field holds
    1500.00. *)
Lemma blank_debit_amount_witness :
  parse_debit Ref.runtime (remove_spaces "") = Ok (PyInt 0) /\
  credit_debit Ref.runtime default_format salary_row = Ok (PyFloat f_1500).
Proof.
  destruct (blank_debit_amount Ref.runtime default_format salary_row
              "" "1500.00") as (Hp & _ & Hc & _); try reflexivity.
  split; [exact Hp |].
  refine (Hc f_1500 _ _ _ _ _); try reflexivity; discriminate.
Defined.

(** The debit field of that row is blank and the resolved amount is
    1500.0, not 0. *)
Lemma blank_debit_nonzero_counterexample :
  getitem salary_row (debit_col default_format) = Ok "" /\
  credit_debit Ref.runtime default_format salary_row = Ok (PyFloat f_1500) /\
  eq0 (PyFloat f_1500) = false.
Proof. repeat split; reflexivity. Qed.


(** The text of the January rows: the blocks of the coffee shop, the
    salary and the fee, in that order. *)
Lemma qif_text_serializes_records_witness :
  fst (convert_csv_to_qif Ref.runtime january d_2024_01_01 d_2024_01_31) =
  Ok ("!Type:CCard" ++ CRLF ++ "D10-01-2024" ++ CRLF ++ "T-3.50" ++ CRLF ++
      "PCoffee Shop" ++ CRLF ++ "^" ++ CRLF ++
      "!Type:CCard" ++ CRLF ++ "D15-01-2024" ++ CRLF ++ "T1500.00" ++ CRLF ++
      "PSalary" ++ CRLF ++ "^" ++ CRLF ++
      "!Type:CCard" ++ CRLF ++ "D16-01-2024" ++ CRLF ++ "T-2.00" ++ CRLF ++
      "PFee" ++ CRLF ++ "^" ++ CRLF).
Proof.
  destruct (convert_csv_to_qif Ref.runtime january d_2024_01_01 d_2024_01_31)
    as [[text | e] self'] eqn:Hrun; [| vm_compute in Hrun; discriminate Hrun].
  destruct (qif_text_serializes_records Ref.runtime january self'
              d_2024_01_01 d_2024_01_31 text
              (fun x => eq_refl) (fun d _ _ => eq_refl) Hrun)
    as (Htext & _).
  cbn [fst]. rewrite Htext. vm_compute. reflexivity.
Defined.

(** A debit of 310 digits is beyond the range of a [float]: [locale.atof]
    gives an infinity, and the amount line is [T-inf], without decimals. *)
Lemma amount_line_inf_counterexample :
  fst (convert_csv_to_qif Ref.runtime
         (set_csv_rows default_format [huge_debit_row])
         d_2024_01_01 d_2024_01_31) =
  Ok ("!Type:CCard" ++ CRLF ++ "D10-01-2024" ++ CRLF ++ "T-inf" ++ CRLF ++
      "PShop" ++ CRLF ++ "^" ++ CRLF) /\
  output_records Ref.runtime (set_csv_rows default_format [huge_debit_row])
    d_2024_01_01 d_2024_01_31 [huge_debit_row] =
  [mkRecord CCard d_2024_01_10 (PyFloat (S754_infinity true)) "Shop"] /\
  two_decimals "-inf" = false.
Proof. repeat split; vm_compute; reflexivity. Qed.

(** A debit of 3.00 with the credit field [n/a]. *)
Lemma bad_credit_raises_TypeError_witness :
  credit_debit Ref.runtime default_format bad_credit_row = Raise TypeError.
Proof.
  refine (proj1 (bad_credit_raises_TypeError Ref.runtime default_format
                   bad_credit_row "3.00" "n/a" (PyFloat (S754_finite false 6755399441055744 (-51)))
                   "could not convert string to float: 'n/a'"
                   _ _ _ _ _ _ _ _));
    try reflexivity; discriminate.
Defined.

(* ===================================================================== *)
(** * Strings: splitting, joining, spaces *)
(* ===================================================================== *)

Lemma length_append (a b : string) :
  String.length (a ++ b) = (String.length a + String.length b)%nat.
Proof. induction a as [| x a IH]; cbn; [reflexivity | now rewrite IH]. Qed.

Lemma split_from_not_nil (sep : string) (k : nat) (cur s : string) :
  split_from sep k cur s <> [].
Proof.
  revert k cur. induction s as [| c s IH]; intros k cur; cbn [split_from];
    [discriminate |].
  destruct k as [| k]; [| apply IH].
  destruct (String.prefix sep (String c s)); [discriminate | apply IH].
Qed.

Lemma join_cons (sep x : string) (l : list string) :
  l <> [] -> join sep (x :: l) = x ++ sep ++ join sep l.
Proof. destruct l; [contradiction | reflexivity]. Qed.

Lemma prefix_inv (p s : string) :
  String.prefix p s = true -> exists r, s = p ++ r.
Proof.
  revert s. induction p as [| a p IH]; intros s.
  - intros _. exists s. reflexivity.
  - destruct s as [| b s]; cbn; [discriminate |].
    destruct (ascii_dec a b) as [-> | _]; [| discriminate].
    intros H. destruct (IH s H) as [r ->]. exists r. reflexivity.
Qed.

(** Joining the pieces gives back what was split: [t] is the rest of a
    separator that the scan is still passing. *)
Lemma split_from_join (sep : string) :
  sep <> "" ->
  forall (s : string) (k : nat) (cur t r : string),
    s = t ++ r -> String.length t = k ->
    join sep (split_from sep k cur s) = cur ++ r.
Proof.
  intros Hsep. induction s as [| c s IH]; intros k cur t r Hs Hk.
  - destruct t; [| discriminate]. cbn in Hs. subst r. cbn.
    now rewrite append_nil_r.
  - cbn [split_from]. destruct k as [| k].
    + destruct t; [| discriminate]. cbn in Hs. subst r.
      destruct (String.prefix sep (String c s)) eqn:Hp.
      * destruct (prefix_inv _ _ Hp) as [r Hr].
        destruct sep as [| a sep']; [contradiction |].
        cbn in Hr. injection Hr as -> ->.
        rewrite join_cons by apply split_from_not_nil.
        replace (String.length (String a sep') - 1)%nat
          with (String.length sep') by (cbn [String.length]; lia).
        rewrite (IH (String.length sep') "" sep' r eq_refl eq_refl).
        cbn. reflexivity.
      * rewrite (IH 0%nat (cur ++ String c "") "" s eq_refl eq_refl).
        rewrite append_assoc. reflexivity.
    + destruct t as [| c' t]; [discriminate |]. cbn in Hs, Hk.
      injection Hs as -> ->. injection Hk as Hk.
      apply (IH k cur t r eq_refl Hk).
Qed.

Lemma str_split_join (s sep : string) :
  sep <> "" ->
  exists parts, str_split s sep = Ok parts /\ join sep parts = s.
Proof.
  intros Hsep. unfold str_split.
  destruct (String.eqb_spec sep ""); [contradiction |].
  eexists. split; [reflexivity |].
  apply (split_from_join sep Hsep s 0%nat "" "" s); reflexivity.
Qed.

(** Pieces of a split at a single character. *)

Lemma prefix_char (c a : ascii) (s : string) :
  String.prefix (String c "") (String a s) = Ascii.eqb a c.
Proof.
  cbn. destruct (ascii_dec c a) as [-> | Hne].
  - rewrite Ascii.eqb_refl. now destruct s.
  - symmetry. apply Ascii.eqb_neq. congruence.
Qed.

Lemma count_char_append (c : ascii) (a b : string) :
  count_char c (a ++ b) = (count_char c a + count_char c b)%nat.
Proof. induction a as [| x a IH]; cbn; [reflexivity | rewrite IH; lia]. Qed.

(** A piece holds no separator character. *)
Lemma split_char_pieces (c : ascii) (s cur : string) :
  count_char c cur = 0%nat ->
  Forall (fun piece => count_char c piece = 0%nat)
    (split_from (String c "") 0 cur s).
Proof.
  revert cur. induction s as [| a s IH]; intros cur Hcur; cbn [split_from].
  - constructor; [assumption | constructor].
  - rewrite prefix_char. cbn [String.length Nat.sub].
    destruct (Ascii.eqb a c) eqn:Ha.
    + constructor; [assumption |]. apply IH. reflexivity.
    + apply IH. rewrite count_char_append, Hcur. cbn. now rewrite Ha.
Qed.

(** A text without the separator character is one piece. *)
Lemma split_char_none (c : ascii) (s cur : string) :
  count_char c s = 0%nat ->
  split_from (String c "") 0 cur s = [cur ++ s].
Proof.
  revert cur. induction s as [| a s IH]; intros cur Hs; cbn [split_from].
  - now rewrite append_nil_r.
  - rewrite prefix_char. cbn in Hs.
    destruct (Ascii.eqb a c); [discriminate |].
    rewrite IH by exact Hs. now rewrite append_assoc.
Qed.

(** The first separator character ends the first piece. *)
Lemma split_char_first (c : ascii) (n rest cur : string) :
  count_char c n = 0%nat ->
  split_from (String c "") 0 cur (n ++ String c rest) =
  (cur ++ n) :: split_from (String c "") 0 "" rest.
Proof.
  revert cur. induction n as [| a n IH]; intros cur Hn; cbn [append split_from].
  - rewrite prefix_char, Ascii.eqb_refl, append_nil_r. reflexivity.
  - rewrite prefix_char. cbn in Hn.
    destruct (Ascii.eqb a c); [discriminate |].
    rewrite IH by exact Hn. now rewrite append_assoc.
Qed.

(** Every character of a piece is a character of the text. *)
Lemma split_from_all_chars (p : ascii -> bool) (sep s : string) :
  all_chars p s = true ->
  forall (k : nat) (cur : string),
    all_chars p cur = true ->
    Forall (fun piece => all_chars p piece = true) (split_from sep k cur s).
Proof.
  induction s as [| a s IH]; intros Hs k cur Hcur; cbn [split_from].
  - constructor; [assumption | constructor].
  - cbn in Hs. apply andb_prop in Hs. destruct Hs as [Ha Hs].
    destruct k as [| k]; [| apply IH; assumption].
    destruct (String.prefix sep (String a s)).
    + constructor; [assumption |]. apply IH; [assumption | reflexivity].
    + apply IH; [assumption |].
      clear -Ha Hcur. induction cur as [| x cur IHc]; cbn.
      * now rewrite Ha.
      * cbn in Hcur. apply andb_prop in Hcur. destruct Hcur as [Hx Hc].
        now rewrite Hx, IHc.
Qed.

Lemma ascii_only_all (s : string) :
  all_chars (fun c => (N_of_ascii c <? 128)%N) (ascii_only s) = true.
Proof.
  induction s as [| c s IH]; cbn; [reflexivity |].
  destruct (N_of_ascii c <? 128)%N eqn:Hc; [cbn; now rewrite Hc | assumption].
Qed.

(* ===================================================================== *)
(** * [conv_finame_file_list] *)
(* ===================================================================== *)

Section ScriptFacts.

Variable unpack_message : nat -> string.

Local Abbreviation comma := (","%char).

(** What one argument of the command line must look like. *)
Local Abbreviation pair_ok :=
  (fun p : string * string =>
     fst p <> "" /\ snd p <> "" /\
     count_char comma (fst p) = 0%nat /\ count_char comma (snd p) = 0%nat).

Local Abbreviation rejoin := (fun p : string * string => fst p ++ "," ++ snd p).

Lemma conv_loop_raises (l : list string) (e : exn) :
  conv_loop unpack_message l = Raise e ->
  (exists m, e = MQException m) \/ (exists m, e = ValueError m).
Proof.
  induction l as [| x l IH]; cbn [conv_loop]; [discriminate |].
  unfold str_split. cbn [String.eqb bind].
  unfold unpack2 at 1.
  destruct (split_from "," 0 "" x) as [| n [| f [| g parts]]]; cbn [bind].
  - intros [= <-]. right. eauto.
  - intros [= <-]. right. eauto.
  - cbn [fst snd].
    destruct (String.eqb n "" || String.eqb f "").
    + intros [= <-]. left. eauto.
    + destruct (conv_loop unpack_message l) as [tail | e']; cbn [bind];
        [discriminate |].
      intros [= <-]. apply IH. reflexivity.
  - intros [= <-]. right. eauto.
Qed.

Lemma conv_loop_ok (l : list string) (ps : list (string * string)) :
  conv_loop unpack_message l = Ok ps ->
  l = map rejoin ps /\ Forall pair_ok ps.
Proof.
  revert ps. induction l as [| x l IH]; intros ps; cbn [conv_loop].
  - intros [= <-]. split; constructor.
  - unfold str_split. cbn [String.eqb bind].
    pose proof (split_from_join "," ltac:(discriminate) x 0%nat "" "" x
                  eq_refl eq_refl) as Hjoin.
    pose proof (split_char_pieces comma x "" eq_refl) as Hpieces.
    unfold unpack2 at 1.
    destruct (split_from "," 0 "" x) as [| n [| f [| g parts]]]; cbn [bind];
      try discriminate.
    cbn [fst snd].
    destruct (String.eqb_spec n ""); [discriminate |].
    destruct (String.eqb_spec f ""); [discriminate |]. cbn [orb].
    destruct (conv_loop unpack_message l) as [tail | e']; cbn [bind];
      [| discriminate].
    intros [= <-]. destruct (IH tail eq_refl) as [Hl Hall].
    inversion Hpieces as [| ? ? Hn Hrest]; clear Hpieces.
    inversion Hrest as [| ? ? Hf _]; clear Hrest.
    split.
    + cbn [map fst snd]. cbn in Hjoin. rewrite <- Hl, <- Hjoin. reflexivity.
    + constructor; [| exact Hall]. cbn [fst snd]. auto.
Qed.

Lemma conv_loop_complete (ps : list (string * string)) :
  Forall pair_ok ps ->
  conv_loop unpack_message (map rejoin ps) = Ok ps.
Proof.
  induction 1 as [| [n f] ps (Hn & Hf & Hcn & Hcf) _ IH]; [reflexivity |].
  cbn [fst snd] in *. cbn [map conv_loop]. rewrite IH. cbn [fst snd].
  unfold str_split. cbn [String.eqb bind].
  change (n ++ "," ++ f) with (n ++ String comma f).
  rewrite (split_char_first comma n f "" Hcn).
  rewrite (split_char_none comma f "" Hcf).
  cbn [append unpack2 bind fst snd].
  destruct (String.eqb_spec n ""); [contradiction |].
  destruct (String.eqb_spec f ""); [contradiction |]. reflexivity.
Qed.

(** X1.  [conv_finame_file_list] accepts exactly the lists whose elements
    all are a name, one comma and a file name, both not empty and without
    a comma: it then returns these pairs in the order of the list, and
    joining each pair with a comma gives the list back. *)
Theorem conv_finame_file_list_pairs (l : list string)
    (ps : list (string * string)) :
  conv_finame_file_list unpack_message l = Ok ps <->
  l = map (fun p => fst p ++ "," ++ snd p) ps /\
  Forall (fun p =>
            fst p <> "" /\ snd p <> "" /\
            count_char "," (fst p) = 0%nat /\ count_char "," (snd p) = 0%nat)
         ps.
Proof.
  unfold conv_finame_file_list. split.
  - destruct (conv_loop unpack_message l) as [ps' | e] eqn:Hloop;
      cbn [except_ValueError].
    + intros [= <-]. apply conv_loop_ok. exact Hloop.
    + destruct e; discriminate.
  - intros [-> Hall]. rewrite (conv_loop_complete ps Hall). reflexivity.
Qed.

(** X2.  Whatever is wrong with an argument (no comma, more than one, an
    empty name or file name), the exception that leaves
    [conv_finame_file_list] is an [MQException], the one its caller
    catches. *)
Theorem conv_finame_file_list_raises_MQException (l : list string) (e : exn) :
  conv_finame_file_list unpack_message l = Raise e ->
  exists m, e = MQException m.
Proof.
  unfold conv_finame_file_list.
  destruct (conv_loop unpack_message l) as [ps | e'] eqn:Hloop;
    cbn [except_ValueError]; [discriminate |].
  destruct (conv_loop_raises l e' Hloop) as [[m ->] | [m ->]].
  - intros [= <-]. eauto.
  - intros [= <-]. eauto.
Qed.

End ScriptFacts.

(* ===================================================================== *)
(** * [reader] *)
(* ===================================================================== *)

Lemma Forall_skipn {A : Type} (P : A -> Prop) (n : nat) (l : list A) :
  Forall P l -> Forall P (skipn n l).
Proof.
  intros H. rewrite <- (firstn_skipn n l) in H.
  apply Forall_app in H. apply H.
Qed.

Lemma last_skipn {A : Type} (n : nat) (l : list A) (d : A) :
  skipn n l <> [] -> last (skipn n l) d = last l d.
Proof.
  revert l. induction n as [| n IH]; intros l; [reflexivity |].
  destruct l as [| x l]; [contradiction |]. cbn [skipn].
  intros H. rewrite (IH l H).
  destruct l as [| y l]; [destruct n; contradiction | reflexivity].
Qed.

Lemma ascii_only_append (a b : string) :
  ascii_only (a ++ b) = ascii_only a ++ ascii_only b.
Proof.
  induction a as [| x a IH]; cbn; [reflexivity |].
  destruct (N_of_ascii x <? 128)%N; cbn; now rewrite IH.
Qed.

(** A separator character at the end of the text adds an empty piece. *)
Lemma split_char_last (c : ascii) (s cur : string) :
  split_from (String c "") 0 cur (s ++ String c "") =
  (split_from (String c "") 0 cur s ++ [""])%list.
Proof.
  revert cur. induction s as [| a s IH]; intros cur; cbn [append split_from].
  - rewrite prefix_char, Ascii.eqb_refl. reflexivity.
  - rewrite !prefix_char. cbn [String.length Nat.sub].
    destruct (Ascii.eqb a c); rewrite IH; reflexivity.
Qed.

(** X3.  [reader] loses nothing of the text but the characters outside
    ASCII and the header lines: for a line separator that is not empty, the
    header lines followed by the lines returned, joined by the separator,
    are the text without its non-ASCII characters; a number of header lines
    that is not negative drops that many lines, or all of them; and every
    character returned is an ASCII character. *)
Theorem reader_keeps_ascii_text (nheaders : Z) (linesep ulines : string) :
  linesep <> "" ->
  exists headers lines,
    reader nheaders linesep ulines = Ok lines /\
    join linesep (headers ++ lines) = ascii_only ulines /\
    (0 <= nheaders ->
     len headers = Z.min nheaders (len (headers ++ lines)%list)) /\
    Forall (fun line =>
              all_chars (fun c => (N_of_ascii c <? 128)%N) line = true) lines.
Proof.
  intros Hsep. unfold reader, str_split.
  destruct (String.eqb_spec linesep ""); [contradiction |]. cbn [bind].
  set (all := split_from linesep 0 "" (ascii_only ulines)).
  unfold slice_from.
  set (start := Z.to_nat (if nheaders <? 0
                          then Z.max (len all + nheaders) 0 else nheaders)).
  exists (firstn start all), (skipn start all).
  rewrite firstn_skipn. split; [reflexivity |]. split.
  - apply (split_from_join linesep Hsep (ascii_only ulines) 0%nat "" ""
             (ascii_only ulines)); reflexivity.
  - split.
    + intros Hn. unfold len. rewrite length_firstn. subst start.
      destruct (Z.ltb_spec nheaders 0); lia.
    + apply Forall_skipn.
      apply split_from_all_chars; [apply ascii_only_all | reflexivity].
Qed.

(** X4.  When the line separator is one ASCII character and the text ends
    with it, the last line [reader] returns is empty (unless the header
    count leaves no line at all): a file that ends with a newline gives
    one more, empty, line. *)
Theorem reader_final_empty_line (nheaders : Z) (c : ascii) (text : string) :
  (N_of_ascii c <? 128)%N = true ->
  exists lines,
    reader nheaders (String c "") (text ++ String c "") = Ok lines /\
    (lines = [] \/ last lines "x" = "").
Proof.
  intros Hc. unfold reader, str_split. cbn [String.eqb bind].
  eexists. split; [reflexivity |].
  rewrite ascii_only_append. cbn [ascii_only]. rewrite Hc.
  rewrite split_char_last. unfold slice_from.
  match goal with |- skipn ?n ?l = [] \/ _ =>
    destruct (skipn n l) as [| y rest] eqn:Hs; [left; reflexivity | right];
    rewrite <- Hs, last_skipn by (rewrite Hs; discriminate)
  end.
  apply last_last.
Qed.

(* ===================================================================== *)
(** * The payee text and the text in the error message *)
(* ===================================================================== *)

Lemma collapse_spaces_nonspace (c : ascii) (s : string) :
  Ascii.eqb c space = false ->
  collapse_spaces (String c s) = String c (collapse_spaces s).
Proof. intros H. cbn [collapse_spaces]. now rewrite H. Qed.

Lemma no_double_space_cons (c : ascii) (s : string) :
  no_double_space s = true ->
  (Ascii.eqb c space = false \/
   match s with String c' _ => Ascii.eqb c' space = false | EmptyString => True end) ->
  no_double_space (String c s) = true.
Proof.
  intros Hs Hc. cbn [no_double_space]. destruct s as [| c' s']; [reflexivity |].
  rewrite Hs, andb_true_r. destruct Hc as [-> | ->]; [reflexivity |].
  now rewrite andb_false_r.
Qed.

Lemma collapse_spaces_space_space (c c' : ascii) (s : string) :
  Ascii.eqb c space = true -> Ascii.eqb c' space = true ->
  collapse_spaces (String c (String c' s)) = collapse_spaces (String c' s).
Proof. intros H H'. cbn [collapse_spaces]. rewrite H, H'. reflexivity. Qed.

Lemma collapse_spaces_space_other (c c' : ascii) (s : string) :
  Ascii.eqb c space = true -> Ascii.eqb c' space = false ->
  collapse_spaces (String c (String c' s)) =
  String c (String c' (collapse_spaces s)).
Proof. intros H H'. cbn [collapse_spaces]. rewrite H, H'. reflexivity. Qed.

(** X5.  The payee text of a record, [re.sub(r' +', ' ', payee)], has no
    two spaces in a row; the other characters are those of the field, in
    order; and a field without two spaces in a row is kept as it is. *)
Theorem collapse_spaces_normal (s : string) :
  no_double_space (collapse_spaces s) = true /\
  remove_spaces (collapse_spaces s) = remove_spaces s /\
  (no_double_space s = true -> collapse_spaces s = s).
Proof.
  induction s as [| c s (IH1 & IH2 & IH3)]; [repeat split |].
  destruct (Ascii.eqb c space) eqn:Hc.
  - destruct s as [| c' s'].
    + cbn. rewrite !Hc. cbn. rewrite ?Hc. repeat split.
    + destruct (Ascii.eqb c' space) eqn:Hc'.
      * rewrite (collapse_spaces_space_space c c' s' Hc Hc').
        split; [exact IH1 |]. split.
        -- rewrite IH2. cbn [remove_spaces]. now rewrite Hc, Hc'.
        -- cbn [no_double_space]. rewrite Hc, Hc'. discriminate.
      * rewrite (collapse_spaces_space_other c c' s' Hc Hc').
        rewrite (collapse_spaces_nonspace c' s' Hc') in IH1, IH2, IH3.
        split; [| split].
        -- apply no_double_space_cons; [exact IH1 | right; exact Hc'].
        -- cbn [remove_spaces] in IH2 |- *. rewrite Hc, Hc' in *. exact IH2.
        -- intros H. cbn [no_double_space] in H.
           apply andb_prop in H. destruct H as [_ H].
           now rewrite (IH3 H).
  - rewrite (collapse_spaces_nonspace c s Hc). split; [| split].
    + apply no_double_space_cons; [exact IH1 | left; exact Hc].
    + cbn [remove_spaces]. rewrite Hc. now rewrite IH2.
    + intros H. rewrite IH3; [reflexivity |].
      cbn [no_double_space] in H. destruct s as [| c' s']; [reflexivity |].
      apply andb_prop in H. apply H.
Qed.

Lemma unhex_hex_digit (n : N) :
  (n < 16)%N -> unhex_digit (hex_digit n) = Some n.
Proof.
  intros H.
  assert (Hcases : In n [0; 1; 2; 3; 4; 5; 6; 7; 8; 9; 10; 11; 12; 13; 14; 15]%N).
  { cbn. lia. }
  cbn in Hcases.
  repeat (destruct Hcases as [<- | Hcases]; [reflexivity |]). contradiction.
Qed.

Lemma N_of_ascii_bound (c : ascii) : (N_of_ascii c < 256)%N.
Proof. destruct c as [[] [] [] [] [] [] [] []]; vm_compute; reflexivity. Qed.

(** The two digits of a character give the character back. *)
Lemma hex2_decode (c : ascii) :
  exists h l,
    hex2 c = String h (String l "") /\
    exists hv lv,
      unhex_digit h = Some hv /\ unhex_digit l = Some lv /\
      ascii_of_N (16 * hv + lv) = c.
Proof.
  unfold hex2. pose proof (N_of_ascii_bound c) as Hb.
  set (n := N_of_ascii c) in *.
  do 2 eexists. split; [reflexivity |].
  exists (n / 16)%N, (n mod 16)%N. split; [| split].
  - apply unhex_hex_digit. apply N.Div0.div_lt_upper_bound. exact Hb.
  - apply unhex_hex_digit. apply N.mod_lt. discriminate.
  - rewrite <- N.div_mod by discriminate. apply ascii_N_embedding.
Qed.

Lemma hex_encode_cons (c c' : ascii) (s : string) :
  hex_encode (String c (String c' s)) =
  hex2 c ++ ":" ++ hex_encode (String c' s).
Proof. reflexivity. Qed.

Lemma hex_decode_encode (s : string) : hex_decode (hex_encode s) = Some s.
Proof.
  induction s as [| c s IH]; [reflexivity |].
  destruct (hex2_decode c) as (h & l & Hhex & hv & lv & Hh & Hl & Hc).
  destruct s as [| c' s'].
  - change (hex_encode (String c "")) with (hex2 c). rewrite Hhex.
    cbn [hex_decode]. rewrite Hh, Hl, Hc. reflexivity.
  - rewrite hex_encode_cons, Hhex.
    destruct (hex2_decode c') as (h' & l' & Hhex' & _).
    assert (Hne : exists x rest, hex_encode (String c' s') = String x rest).
    { destruct s' as [| c'' s''].
      - change (hex_encode (String c' "")) with (hex2 c'). rewrite Hhex'. eauto.
      - rewrite hex_encode_cons, Hhex'. cbn. eauto. }
    destruct Hne as (x & rest & Hne).
    cbn [append hex_decode]. rewrite Hh, Hl, Hc.
    rewrite Hne in *. rewrite IH. reflexivity.
Qed.

(** X6.  The hexadecimal text that the fatal error carries identifies the
    offending text: two different texts never give the same encoding. *)
Theorem hex_encode_injective (a b : string) :
  hex_encode a = hex_encode b -> a = b.
Proof.
  intros H. pose proof (hex_decode_encode a) as Ha.
  rewrite H, hex_decode_encode in Ha. now injection Ha.
Qed.

(* ===================================================================== *)
(** * More on [credit_debit] *)
(* ===================================================================== *)

Lemma remove_spaces_all_spaces (s : string) :
  all_chars is_space s = true -> remove_spaces s = "".
Proof.
  induction s as [| c s IH]; [reflexivity |]. cbn. unfold is_space at 1.
  destruct (Ascii.eqb c space); [exact IH | discriminate].
Qed.

Lemma gt0_neg (n : pynum) : gt0 n = true -> gt0 (neg n) = false.
Proof.
  destruct n as [z | f]; unfold gt0.
  - cbn. destruct (Z.compare_spec z 0); try discriminate. intros _.
    destruct (Z.compare_spec (- z) 0); try reflexivity; lia.
  - cbn [neg]. rewrite !cmp0_float.
    destruct f as [s | s | | s m e]; try destruct s; cbn; congruence.
Qed.

Lemma fallback_not_positive (amount : pynum) : gt0 (fallback amount) = false.
Proof.
  unfold fallback. destruct (gt0 amount) eqn:H; [apply gt0_neg, H | exact H].
Qed.

Section CreditDebitMore.

Variable rt : Runtime.

(** X7.  A credit field that holds nothing but spaces is not the same as
    an empty one: without a credit pattern and with the credit column
    apart from the debit and payee columns, the test [credit != ""] lets
    it through, its spaces are removed and [locale.atof] is given the empty
    text, whose [ValueError] ends in the [TypeError] of the handler. *)
Theorem spaces_only_credit_raises (self : CSVFormat) (row : list string)
    (debit credit e : string) (amount : pynum) :
  truthy (credit_regexp self) = false ->
  debit_col self <> credit_col self ->
  getitem row (debit_col self) = Ok debit ->
  getitem row (credit_col self) = Ok credit ->
  parse_debit rt (remove_spaces debit) = Ok amount ->
  credit <> "" ->
  all_chars is_space credit = true ->
  credit_col self <> payee_col self ->
  atof rt "" = Raise (ValueError e) ->
  credit_debit rt self row = Raise TypeError.
Proof.
  intros Ht Hcols Hd Hc Ha Hne Hsp Hpay Hf.
  rewrite (credit_branch rt self row debit credit amount) by assumption.
  rewrite (remove_spaces_all_spaces credit Hsp), Hf. reflexivity.
Qed.

(** X8.  Without a credit pattern and with debit and credit in different
    columns, an amount above zero can only come from the credit column: if
    [credit_debit] returns an amount above zero, the credit field is not
    empty, is not the payee column, parses, and the amount is its absolute
    value.  The debit column alone never gives an amount above zero. *)
Theorem positive_amount_is_credit (self : CSVFormat) (row : list string)
    (r : pynum) :
  truthy (credit_regexp self) = false ->
  debit_col self <> credit_col self ->
  credit_debit rt self row = Ok r ->
  gt0 r = true ->
  exists credit f,
    getitem row (credit_col self) = Ok credit /\
    credit <> "" /\
    credit_col self <> payee_col self /\
    atof rt (remove_spaces credit) = Ok f /\
    r = pyabs (PyFloat f).
Proof.
  intros Ht Hcols. unfold credit_debit.
  destruct (getitem row (debit_col self)) as [debit | e1]; cbn [bind];
    [| discriminate].
  destruct (getitem row (credit_col self)) as [credit | e1]; cbn [bind];
    [| discriminate].
  destruct (except_ValueError _ _) as [amount | e1]; cbn [bind];
    [| discriminate].
  rewrite Ht. destruct (Z.eqb_spec (debit_col self) (credit_col self));
    [contradiction |].
  destruct (String.eqb_spec credit ""); cbn [negb andb].
  { intros [= <-] H. now rewrite fallback_not_positive in H. }
  destruct (Z.eqb_spec (credit_col self) (payee_col self)); cbn [negb].
  { intros [= <-] H. now rewrite fallback_not_positive in H. }
  destruct (atof rt (remove_spaces credit)) as [f | e1] eqn:Hf; cbn [bind].
  2: { destruct e1; cbn [except_ValueError handler bind]; discriminate. }
  cbn [except_ValueError bind].
  destruct (ne0 _) eqn:Hne.
  - intros [= <-] _. exists credit, f. repeat split; try assumption.
    revert Hne. unfold ne0, lt0. cbn [neg pyabs].
    destruct f as [s | s | | s m e]; try destruct s; cbn; congruence.
  - intros [= <-] H. now rewrite fallback_not_positive in H.
Qed.

(** X9.  [debit_is_negative] acts in one place only.  With a credit
    pattern, or with debit and credit in different columns, [credit_debit]
    returns the same whatever the flag is; without a pattern and with
    both in one column, the result for the flag off is the opposite of the
    result for the flag on. *)
Theorem debit_is_negative_scope (self : CSVFormat) (row : list string) :
  (truthy (credit_regexp self) = true \/ debit_col self <> credit_col self ->
   forall b,
     credit_debit rt (with_debit_is_negative self b) row =
     credit_debit rt self row) /\
  (truthy (credit_regexp self) = false -> debit_col self = credit_col self ->
   credit_debit rt (with_debit_is_negative self false) row =
   (r <- credit_debit rt (with_debit_is_negative self true) row ;; Ok (neg r))).
Proof.
  split.
  - intros H b. unfold credit_debit, with_debit_is_negative.
    cbn [debit_col credit_col credit_regexp payee_col debit_is_negative].
    destruct (getitem row (debit_col self)) as [debit | e1]; cbn [bind];
      [| reflexivity].
    destruct (getitem row (credit_col self)) as [credit | e1]; cbn [bind];
      [| reflexivity].
    destruct (except_ValueError _ _) as [amount | e1]; cbn [bind];
      [| reflexivity].
    destruct (truthy (credit_regexp self)); [reflexivity |].
    destruct (Z.eqb_spec (debit_col self) (credit_col self)); [| reflexivity].
    destruct H; [discriminate | contradiction].
  - intros Ht Hcols. unfold credit_debit, with_debit_is_negative.
    cbn [debit_col credit_col credit_regexp payee_col debit_is_negative].
    destruct (getitem row (debit_col self)) as [debit | e1]; cbn [bind];
      [| reflexivity].
    destruct (getitem row (credit_col self)) as [credit | e1]; cbn [bind];
      [| reflexivity].
    destruct (except_ValueError _ _) as [amount | e1]; cbn [bind];
      [| reflexivity].
    rewrite Ht, Hcols, Z.eqb_refl. reflexivity.
Qed.

End CreditDebitMore.

(* ===================================================================== *)
(** * More on [str2date] *)
(* ===================================================================== *)

Section Str2dateMore.

Variable rt : Runtime.

(** X10.  A date without year is placed in the reference year whenever
    its month is not after the reference month, also when its day is
    later: the date [str2date] returns lies after the reference date
    exactly when the month is the reference month and the day is later.
    (Such a row is after [today] and is not processed.) *)
Theorem no_year_date_after_reference (self : CSVFormat) (date_str : string)
    (now d r : date) :
  strptime rt date_str (date_format self) = Ok d ->
  year d = NO_YEAR ->
  str2date rt self date_str (Some now) = Some r ->
  month r = month d /\ day r = day d /\ year r <= year now /\
  (date_ltb now r = true <-> month d = month now /\ day now < day d).
Proof.
  intros Hp Hy. rewrite (str2date_no_year rt self date_str now d Hp Hy).
  cbv zeta.
  destruct (valid_ymd _ (month d) (day d)); [| discriminate].
  intros [= <-]. cbn [year month day].
  split; [reflexivity |]. split; [reflexivity |].
  rewrite date_ltb_iff. cbn [year month day].
  destruct (Z.leb_spec (month d) (month now)); split; lia.
Qed.

(** X11.  The reference date is read for the year 1900 only.  A date
    parsed with another year is returned as parsed, whatever the reference
    date is and also without one; a date parsed with the year 1900 gives
    [None] when there is no reference date. *)
Theorem reference_date_only_for_1900 (self : CSVFormat) (date_str : string)
    (d : date) :
  strptime rt date_str (date_format self) = Ok d ->
  valid_date d = true ->
  (year d <> NO_YEAR -> forall now, str2date rt self date_str now = Some d) /\
  (year d = NO_YEAR -> str2date rt self date_str None = None).
Proof.
  intros Hp Hv. unfold str2date, str2date_try. rewrite Hp. cbn [bind].
  split.
  - intros Hy now. destruct (Z.eqb_spec (year d) NO_YEAR); [contradiction |].
    cbn [bind]. unfold datetime_date. unfold valid_date in Hv. rewrite Hv.
    destruct d; reflexivity.
  - intros ->. rewrite Z.eqb_refl. reflexivity.
Qed.

End Str2dateMore.

(* ===================================================================== *)
(** * More on the conversion loop *)
(* ===================================================================== *)

Lemma serialize_all_nil (rt : Runtime) (rs : list OutputRecord) :
  serialize_all rt rs = "" <-> rs = [].
Proof.
  split; [| intros ->; reflexivity].
  destruct rs as [| r rs]; [reflexivity | discriminate].
Qed.

Lemma loop_set_csv_rows (rt : Runtime) (self : CSVFormat)
    (cutoff_date today : date) (other : list (list string))
    (rows : list (list string)) (c : counters) :
  loop rt (set_csv_rows self other) cutoff_date today c rows =
  loop rt self cutoff_date today c rows.
Proof.
  revert c. induction rows as [| row rows IH]; intros c; [reflexivity |].
  cbn [loop].
  replace (row_step rt (set_csv_rows self other) cutoff_date today c row)
    with (row_step rt self cutoff_date today c row) by reflexivity.
  destruct (row_step rt self cutoff_date today c row); cbn [bind];
    [apply IH | reflexivity].
Qed.

Section ConversionMore.

Variable rt : Runtime.
Variable self : CSVFormat.
Variables cutoff_date today : date.

Local Abbreviation step := (row_step rt self cutoff_date today).
Local Abbreviation run := (loop rt self cutoff_date today).
Local Abbreviation records := (output_records rt self cutoff_date today).

(** [processed] counts the output records and [balance] adds their
    amounts in order. *)
Lemma loop_records (rows : list (list string)) (c c' : counters) :
  run c rows = Ok c' ->
  c_processed c' = c_processed c + len (records rows) /\
  c_balance c' =
    fold_left (fun b r => Fadd b (to_float (r_amount r))) (records rows)
      (c_balance c).
Proof.
  unfold len.
  revert c. induction rows as [| row rows IH]; intros c; cbn.
  - intros [= <-]. split; [lia | reflexivity].
  - destruct (step c row) as [c1 | e] eqn:Hs; cbn [bind]; try discriminate.
    intros Hrun. destruct (IH c1 Hrun) as [IH1 IH2].
    destruct (row_step_inv rt self cutoff_date today c c1 row Hs)
      as [(_ & Ha & ->) | [(_ & Ha & Hc) | (_ & r & Ha & ->)]];
      rewrite Ha.
    + split; assumption.
    + destruct Hc as [-> | [-> | ->]]; split; assumption.
    + cbn [List.length fold_left]. rewrite Nat2Z.inj_succ.
      cbn in IH1, IH2. split; [lia | exact IH2].
Qed.

(** The rows that the ignore filter drops can be left out. *)
Lemma loop_kept (rows : list (list string)) (c c' : counters) :
  run c rows = Ok c' -> run c (kept rt self rows) = Ok c'.
Proof.
  unfold kept.
  revert c. induction rows as [| row rows IH]; intros c; cbn [loop filter];
    [trivial |].
  destruct (step c row) as [c1 | e] eqn:Hs; cbn [bind]; try discriminate.
  intros Hrun.
  destruct (row_step_inv rt self cutoff_date today c c1 row Hs)
    as [(Hi & _ & ->) | [(Hi & _) | (Hi & _)]]; rewrite Hi; cbn [negb].
  - apply IH, Hrun.
  - cbn [loop]. rewrite Hs. cbn [bind]. apply IH, Hrun.
  - cbn [loop]. rewrite Hs. cbn [bind]. apply IH, Hrun.
Qed.

(** In a window whose bounds are the wrong way round no row is accepted. *)
Lemma records_inverted_window (rows : list (list string)) :
  date_ltb today cutoff_date = true -> records rows = [].
Proof.
  intros Hinv. induction rows as [| row rows IH]; [reflexivity |].
  cbn [output_records].
  destruct (accepted rt self cutoff_date today row) as [r |] eqn:Ha;
    [| exact IH].
  destruct (accepted_inv rt self cutoff_date today row r Ha) as (_ & Hw & _).
  exfalso.
  unfold in_window, date_leb in Hw. apply andb_prop in Hw.
  destruct Hw as [H1 H2]. apply negb_true_iff in H1, H2.
  apply date_ltb_iff in Hinv.
  assert (N1 : ~ date_ltb (r_date r) cutoff_date = true) by congruence.
  assert (N2 : ~ date_ltb today (r_date r) = true) by congruence.
  rewrite date_ltb_iff in N1, N2. lia.
Qed.

End ConversionMore.

Section ConversionProperties.

Variable rt : Runtime.

(** X12.  In the statistics of a run that ends without an exception,
    [processed] is the number of output records and [balance] is the sum
    of their amounts, added in the order of the rows to [0.0]. *)
Theorem stats_match_records (self self' : CSVFormat)
    (cutoff_date today : date) (text : string) :
  convert_csv_to_qif rt self cutoff_date today = (Ok text, self') ->
  exists st,
    stats self' = Some st /\
    processed st =
      len (output_records rt self cutoff_date today (csv_rows self)) /\
    balance st =
      sum_amounts (output_records rt self cutoff_date today (csv_rows self)).
Proof.
  unfold convert_csv_to_qif.
  destruct (loop rt self cutoff_date today counters0 (csv_rows self))
    as [c | e] eqn:Hrun; [| discriminate].
  intros [= _ <-]. exists (stats_of c).
  destruct (loop_records rt self cutoff_date today _ _ _ Hrun) as [Hp Hb].
  cbn in Hp, Hb |- *. repeat split; [lia | exact Hb].
Qed.

(** X13.  The rows that the ignore filter drops have no effect at all:
    the same conversion on the rows without them returns the same text
    and records the same statistics. *)
Theorem ignored_rows_have_no_effect (self self' : CSVFormat)
    (cutoff_date today : date) (text : string) :
  convert_csv_to_qif rt self cutoff_date today = (Ok text, self') ->
  convert_csv_to_qif rt
    (set_csv_rows self (kept rt self (csv_rows self))) cutoff_date today =
  (Ok text, set_csv_rows self' (kept rt self (csv_rows self))).
Proof.
  unfold convert_csv_to_qif.
  destruct (loop rt self cutoff_date today counters0 (csv_rows self))
    as [c | e] eqn:Hrun; [| discriminate].
  intros [= <- <-].
  change (csv_rows (set_csv_rows self (kept rt self (csv_rows self))))
    with (kept rt self (csv_rows self)).
  rewrite loop_set_csv_rows.
  rewrite (loop_kept rt self cutoff_date today _ _ _ Hrun). reflexivity.
Qed.

(** X14.  After [perform_conversion] the text is empty exactly when no row
    was processed, and [output_qif] follows: with no processed row it
    writes and prints nothing and returns [False], whatever the output
    directory; otherwise what it returns is [True] with one effect. *)
Theorem nothing_processed_nothing_written (self self' : CSVFormat)
    (rows : list (list string)) (effective_date cutoff_date : date) :
  perform_conversion rt self rows effective_date cutoff_date = (Ok tt, self') ->
  exists st,
    stats self' = Some st /\
    (qif_text self' = "" <-> processed st = 0) /\
    forall (output_dir qif_suffix : string) (dump : bool),
      (processed st = 0 ->
       output_qif self' output_dir qif_suffix dump = Ok ([], false)) /\
      (processed st <> 0 ->
       forall r, output_qif self' output_dir qif_suffix dump = Ok r ->
                 snd r = true /\ exists eff, fst r = [eff]).
Proof.
  unfold perform_conversion, convert_csv_to_qif.
  change (csv_rows (set_csv_rows self rows)) with rows.
  rewrite loop_set_csv_rows.
  destruct (loop rt self cutoff_date effective_date counters0 rows)
    as [c | e] eqn:Hrun; [| discriminate].
  intros [= <-]. exists (stats_of c). split; [reflexivity |].
  pose proof (loop_text rt self cutoff_date effective_date _ _ _ Hrun) as Ht.
  destruct (loop_records rt self cutoff_date effective_date _ _ _ Hrun)
    as [Hp _].
  cbn [counters0 c_qif_text c_processed append] in Ht, Hp.
  assert (Hiff : c_qif_text c = "" <-> c_processed c = 0).
  { rewrite Ht, serialize_all_nil, Hp. unfold len.
    destruct (output_records rt self cutoff_date effective_date rows);
      cbn [List.length]; split; intros; try reflexivity; try discriminate; lia. }
  split; [exact Hiff |].
  intros output_dir qif_suffix dump. unfold output_qif.
  cbn [qif_text set_qif_text stats_of processed]. split.
  - intros H0. apply Hiff in H0. rewrite H0. reflexivity.
  - intros Hn r.
    destruct (String.eqb_spec (c_qif_text c) "") as [He | _].
    { apply Hiff in He. contradiction. }
    cbn [negb]. destruct dump.
    + intros [= <-]. cbn. eauto.
    + destruct (last_char output_dir); cbn [bind]; [| discriminate].
      intros [= <-]. cbn. eauto.
Qed.

(** X15.  When the effective date lies before the cutoff date the window
    is empty: a run that ends without an exception returns the empty text,
    processes no row and counts every valid row as skipped. *)
Theorem inverted_window_processes_nothing (self self' : CSVFormat)
    (cutoff_date today : date) (text : string) :
  date_ltb today cutoff_date = true ->
  convert_csv_to_qif rt self cutoff_date today = (Ok text, self') ->
  text = "" /\
  exists st,
    stats self' = Some st /\ processed st = 0 /\ skipped st = valid st.
Proof.
  intros Hinv. unfold convert_csv_to_qif.
  destruct (loop rt self cutoff_date today counters0 (csv_rows self))
    as [c | e] eqn:Hrun; [| discriminate].
  intros [= <- <-].
  pose proof (loop_text rt self cutoff_date today _ _ _ Hrun) as Ht.
  destruct (loop_records rt self cutoff_date today _ _ _ Hrun) as [Hp _].
  rewrite (records_inverted_window rt self cutoff_date today _ Hinv) in Ht, Hp.
  cbn in Ht, Hp. split; [exact Ht |].
  exists (stats_of c). cbn. repeat split; lia.
Qed.

(** X16.  What a conversion run writes comes from rows inside the window.
    The text of a run that ends normally is a sequence of blocks, as many
    as rows were processed and never more than there are rows; each block
    has the account kind of the format and the date line of a date [d] of
    the calendar with [cutoff_date <= d <= today]. *)
Theorem written_blocks_in_window (self self' : CSVFormat)
    (cutoff_date today : date) (text : string) :
  convert_csv_to_qif rt self cutoff_date today = (Ok text, self') ->
  let crlf := String "013" (String "010" "") in
  let block (w : date * pynum * string) :=
    let '(d, amount, payee) := w in
    "!Type:" ++ match type self with CCard => "CCard" | Bank => "Bank" end ++
    crlf ++
    "D" ++ strftime rt d "%d-%m-%Y" ++ crlf ++
    "T" ++ format_2f rt
             (match amount with PyInt z => float_of_int z | PyFloat f => f end) ++
    crlf ++
    "P" ++ payee ++ crlf ++
    "^" ++ crlf in
  exists written : list (date * pynum * string),
    text = fold_right (fun w rest => block w ++ rest) "" written /\
    Forall (fun w => let '(d, _, _) := w in
                     valid_date d = true /\
                     date_leb cutoff_date d = true /\
                     date_leb d today = true) written /\
    (exists st, stats self' = Some st /\ processed st = len written) /\
    len written <= len (csv_rows self).
Proof.
  intros Hconv crlf block.
  set (entry := fun r : OutputRecord => (r_date r, r_amount r, r_payee r)).
  assert (Hrows : forall rows,
    serialize_all rt (output_records rt self cutoff_date today rows) =
      fold_right (fun w rest => block w ++ rest) ""
        (map entry (output_records rt self cutoff_date today rows)) /\
    Forall (fun w => let '(d, _, _) := w in
                     valid_date d = true /\
                     date_leb cutoff_date d = true /\
                     date_leb d today = true)
      (map entry (output_records rt self cutoff_date today rows)) /\
    (List.length (output_records rt self cutoff_date today rows)
     <= List.length rows)%nat).
  { induction rows as [| row rows (IH1 & IH2 & IH3)]; cbn [output_records].
    - split; [reflexivity |]. split; [constructor | reflexivity].
    - destruct (accepted rt self cutoff_date today row) as [r |] eqn:Ha.
      + destruct (accepted_inv rt self cutoff_date today row r Ha)
          as (Hk & Hw & Hv & _).
        unfold in_window in Hw. apply andb_prop in Hw.
        cbn [serialize_all map fold_right List.length].
        split; [| split].
        * rewrite IH1. unfold serialize. rewrite Hk. reflexivity.
        * constructor; [cbn; tauto | exact IH2].
        * lia.
      + split; [exact IH1 |]. split; [exact IH2 |]. cbn [List.length]. lia. }
  revert Hconv. unfold convert_csv_to_qif.
  destruct (loop rt self cutoff_date today counters0 (csv_rows self))
    as [c | e] eqn:Hrun; [| discriminate].
  intros [= <- <-].
  pose proof (loop_text rt self cutoff_date today _ _ _ Hrun) as Htext.
  cbn [counters0 c_qif_text append] in Htext.
  destruct (loop_records rt self cutoff_date today _ _ _ Hrun) as [Hproc _].
  destruct (Hrows (csv_rows self)) as (H1 & H2 & H3).
  exists (map entry (output_records rt self cutoff_date today (csv_rows self))).
  split; [rewrite Htext; exact H1 |]. split; [exact H2 |].
  unfold len in *. rewrite length_map. split.
  - exists (stats_of c). split; [reflexivity |]. cbn in *. lia.
  - lia.
Qed.

End ConversionProperties.

(* ===================================================================== *)
(** * [__init__], [output_qif], [delete_files], [file_count] *)
(* ===================================================================== *)

Lemma dict_get_set_same {V : Type} (d : dict V) (k : string) (v : V) :
  dict_get (dict_set d k v) k = Some v.
Proof.
  induction d as [| [k' v'] d IH]; cbn.
  - now rewrite String.eqb_refl.
  - destruct (String.eqb k' k) eqn:Hk; cbn.
    + now rewrite String.eqb_refl.
    + now rewrite Hk.
Qed.

Lemma dict_get_set_other {V : Type} (d : dict V) (k n : string) (v : V) :
  n <> k -> dict_get (dict_set d k v) n = dict_get d n.
Proof.
  intros Hn. induction d as [| [k' v'] d IH]; cbn.
  - destruct (String.eqb_spec k n); [congruence | reflexivity].
  - destruct (String.eqb_spec k' k) as [-> |]; cbn.
    + destruct (String.eqb_spec k n); [congruence | reflexivity].
    + destruct (String.eqb k' n); [reflexivity | exact IH].
Qed.

Lemma check_type_ok (nm ty : string) (t : qif_type) :
  check_type nm ty = Ok t -> ty = type_str t.
Proof.
  unfold check_type.
  destruct (String.eqb_spec ty "CCard") as [-> |]; [now intros [= <-] |].
  destruct (String.eqb_spec ty "Bank") as [-> |]; [now intros [= <-] |].
  discriminate.
Qed.

Section InitFacts.

Variable int_of_str : string -> except Z.

(** What a successful [build_instance] stores. *)
Lemma build_instance_ok (a : InitArgs) (self : Instance) :
  build_instance int_of_str a = Ok self ->
  name (fmt self) = a_name a /\
  a_type a = type_str (type (fmt self)) /\
  ignore_regexp (fmt self) = a_ignore_regexp a /\
  ignore_col (fmt self) = a_ignore_col a /\
  csv_rows (fmt self) = [] /\ qif_text (fmt self) = "" /\
  stats (fmt self) = None.
Proof.
  unfold build_instance.
  destruct (check_type (a_name a) (a_type a)) as [t | e] eqn:Ht; cbn [bind];
    [| discriminate].
  repeat (match goal with
          | |- context [to_int int_of_str ?v] =>
              destruct (to_int int_of_str v); cbn [bind]; [| discriminate]
          end).
  intros [= <-]. cbn. repeat split; try reflexivity.
  now apply check_type_ok in Ht.
Qed.

(** X19.  [CSVFormat(...)] registers the new instance under its name in
    [CSVFormat.formats], in the place of an instance of that name made
    before, and leaves the entries of the other names alone; an instance
    has the type [CCard] or [Bank], and no rows, text or statistics yet.
    When [__init__] raises (a type that is neither, a column that is not
    an integer), the dictionary is unchanged. *)
Theorem init_registers_by_name (formats : dict Instance) (a : InitArgs) :
  match CSVFormat_init int_of_str formats a with
  | (Ok self, formats') =>
      dict_get formats' (a_name a) = Some self /\
      (forall n, n <> a_name a -> dict_get formats' n = dict_get formats n) /\
      name (fmt self) = a_name a /\
      (a_type a = "CCard" \/ a_type a = "Bank") /\
      csv_rows (fmt self) = [] /\ qif_text (fmt self) = "" /\
      stats (fmt self) = None
  | (Raise e, formats') =>
      formats' = formats /\
      (a_type a <> "CCard" -> a_type a <> "Bank" -> exists m, e = MQException m)
  end.
Proof.
  unfold CSVFormat_init.
  destruct (build_instance int_of_str a) as [self | e] eqn:Hb.
  - destruct (build_instance_ok a self Hb) as (Hn & Ht & _ & _ & Hr & Hq & Hs).
    split; [apply dict_get_set_same |].
    split; [intros n Hne; now apply dict_get_set_other |].
    split; [exact Hn |]. split; [| auto].
    rewrite Ht. destruct (type (fmt self)); auto.
  - split; [reflexivity |]. intros H1 H2. revert Hb.
    unfold build_instance, check_type.
    destruct (String.eqb_spec (a_type a) "CCard"); [contradiction |].
    destruct (String.eqb_spec (a_type a) "Bank"); [contradiction |].
    cbn [bind]. intros [= <-]. eauto.
Qed.

(** X20.  [__init__] keeps [ignore_col] as it is given, where it converts
    the other columns with [int()].  For an instance made with an ignore
    pattern and an [ignore_col] that is a [str], as the values read from a
    configuration file are, the conversion of any rows, one at least, stops
    at the first row with [TypeError] and records no statistics. *)
Theorem str_ignore_col_raises_TypeError (rt : Runtime)
    (formats : dict Instance) (a : InitArgs) (self : Instance) (s : string)
    (row : list string) (rows : list (list string))
    (cutoff_date today : date) :
  fst (CSVFormat_init int_of_str formats a) = Ok self ->
  truthy (a_ignore_regexp a) = true ->
  a_ignore_col a = SubStr s ->
  convert_csv_to_qif rt (set_csv_rows (fmt self) (row :: rows))
    cutoff_date today =
  (Raise TypeError, set_csv_rows (fmt self) (row :: rows)).
Proof.
  unfold CSVFormat_init.
  destruct (build_instance int_of_str a) as [self0 | e] eqn:Hb;
    [| discriminate].
  cbn [fst]. intros [= ->] Ht Hcol.
  destruct (build_instance_ok a self Hb) as (_ & _ & Hre & Hic & _).
  unfold convert_csv_to_qif.
  change (csv_rows (set_csv_rows (fmt self) (row :: rows))) with (row :: rows).
  rewrite loop_set_csv_rows. cbn [loop]. unfold row_step, ignore_test.
  rewrite Hre, Ht, Hic, Hcol. reflexivity.
Qed.

End InitFacts.

Lemma last_char_slash (s : string) : last_char (s ++ "/") = Ok "/"%char.
Proof.
  induction s as [| c s IH]; [reflexivity |].
  cbn [append last_char]. rewrite IH.
  destruct (s ++ "/") eqn:E; [destruct s; discriminate | reflexivity].
Qed.

Lemma last_char_nonempty (s : string) :
  s <> "" -> exists c, last_char s = Ok c.
Proof.
  induction s as [| c s IH]; [contradiction |]. intros _.
  destruct s as [| c' s']; [eexists; reflexivity |].
  apply IH. discriminate.
Qed.

(** X21.  When there is text to write to a file, [output_qif] asks for one
    file, named by the instance and the suffix, directly in the output
    directory: the path is the same whether the directory is given with or
    without its final slash.  An empty output directory raises
    [IndexError]. *)
Theorem output_qif_path (self : CSVFormat) (output_dir qif_suffix : string) :
  qif_text self <> "" ->
  (output_dir = "" ->
   output_qif self output_dir qif_suffix false = Raise IndexError) /\
  (output_dir <> "" ->
   exists dir,
     last_char dir = Ok "/"%char /\
     (dir = output_dir \/ dir = output_dir ++ "/") /\
     output_qif self output_dir qif_suffix false =
       Ok ([WriteFile (dir ++ name self ++ qif_suffix) (qif_text self)], true) /\
     output_qif self dir qif_suffix false =
       output_qif self output_dir qif_suffix false).
Proof.
  intros Htext. unfold output_qif.
  destruct (String.eqb_spec (qif_text self) ""); [contradiction |].
  cbn [negb]. split.
  - intros ->. reflexivity.
  - intros Hdir. destruct (last_char_nonempty output_dir Hdir) as [c Hc].
    rewrite Hc. cbn [bind]. destruct (Ascii.eqb_spec c "/"%char) as [-> | Hne].
    + exists output_dir. rewrite Hc. cbn [bind]. rewrite Ascii.eqb_refl.
      auto.
    + exists (output_dir ++ "/"). rewrite last_char_slash. cbn [bind].
      rewrite Ascii.eqb_refl. auto.
Qed.

Section DeleteFacts.

Variables (world oserror : Type).
Variable unlink : string -> world -> world * option oserror.

Lemma delete_loop_spec (pathnames : list string) (error : option oserror)
    (w : world) :
  delete_loop unlink pathnames error w =
  (unlink_all unlink pathnames w,
   match error with
   | Some _ => error
   | None => first_error (unlink_results unlink pathnames w)
   end).
Proof.
  revert error w. induction pathnames as [| p ps IH]; intros error w;
    cbn [delete_loop unlink_all unlink_results first_error].
  - destruct error; reflexivity.
  - destruct (unlink p w) as [w' [err |]]; cbn [fst snd]; rewrite IH;
      destruct error; reflexivity.
Qed.

(** X22.  [delete_files] calls [os.unlink] on every path, also after a
    call has failed, and returns the error of the first call that failed:
    [None] exactly when every call succeeded. *)
Theorem delete_files_first_error (pathnames : list string) (w : world) :
  fst (delete_files unlink pathnames w) = unlink_all unlink pathnames w /\
  snd (delete_files unlink pathnames w) =
    first_error (unlink_results unlink pathnames w) /\
  (snd (delete_files unlink pathnames w) = None <->
   Forall (fun r => r = None) (unlink_results unlink pathnames w)).
Proof.
  unfold delete_files. rewrite delete_loop_spec. cbn [fst snd].
  split; [reflexivity |]. split; [reflexivity |].
  induction (unlink_results unlink pathnames w) as [| [err |] rs IH];
    cbn [first_error].
  - split; [constructor | reflexivity].
  - split; [discriminate |]. intros H. inversion H. discriminate.
  - rewrite IH. split.
    + intros H. constructor; [reflexivity | exact H].
    + intros H. now inversion H.
Qed.

End DeleteFacts.

(** X23.  The file counts of the statistics line take one character: the
    decimal digit of the count for a count of 0 to 9, the character of
    code 48 plus the count, and a star for any larger count. *)
Theorem file_count_one_character (count : Z) :
  0 <= count ->
  String.length (file_count count) = 1%nat /\
  (file_count count = "*" <-> 9 < count) /\
  (count <= 9 ->
   file_count count = String (ascii_of_N (Z.to_N (48 + count))) "").
Proof.
  intros H. unfold file_count. destruct (Z.ltb_spec 9 count) as [Hgt | Hle].
  - split; [reflexivity |].
    split; [split; [intros _; exact Hgt | reflexivity] | lia].
  - assert (Hc : In count [0; 1; 2; 3; 4; 5; 6; 7; 8; 9]) by (cbn; lia).
    cbn in Hc.
    repeat (destruct Hc as [<- | Hc];
            [split; [reflexivity |];
             split; [split; [discriminate | lia] | reflexivity] |]).
    contradiction.
Qed.

(* ===================================================================== *)
(** * [check] *)
(* ===================================================================== *)

Lemma date_leb_iff (a b : date) :
  date_leb a b = true <-> ~ date_ltb b a = true.
Proof.
  unfold date_leb. destruct (date_ltb b a); cbn; split; congruence.
Qed.

Lemma date_leb_trans (a b c : date) :
  date_leb a b = true -> date_leb b c = true -> date_leb a c = true.
Proof.
  rewrite !date_leb_iff, !date_ltb_iff. lia.
Qed.

Lemma date_leb_ltb_trans (a b c : date) :
  date_leb a b = true -> date_ltb b c = true -> date_ltb a c = true.
Proof.
  rewrite date_leb_iff, !date_ltb_iff. lia.
Qed.

Lemma prev_day_leb (d : date) : date_leb (prev_day d) d = true.
Proof.
  rewrite date_leb_iff, date_ltb_iff. unfold prev_day.
  destruct (Z.ltb_spec 1 (day d)); cbn [year month day]; [lia |].
  destruct (Z.ltb_spec 1 (month d)); cbn [year month day]; lia.
Qed.

Lemma iter_prev_day_leb (d : date) (p : positive) :
  date_leb (Pos.iter prev_day d p) d = true.
Proof.
  apply (Pos.iter_invariant p date prev_day (fun x => date_leb x d = true)).
  - intros x Hx. eapply date_leb_trans; [apply prev_day_leb | exact Hx].
  - apply date_leb_refl.
Qed.

Lemma iter_next_day_ltb (d : date) (p : positive) :
  date_ltb d (Pos.iter next_day d p) = true.
Proof.
  induction p as [| p IH] using Pos.peano_ind.
  - apply date_ltb_next_day.
  - rewrite Pos.iter_succ. rewrite date_ltb_iff in *.
    pose proof (date_ltb_next_day (Pos.iter next_day d p)) as Hn.
    rewrite date_ltb_iff in Hn. lia.
Qed.

(** The direction in which [date_minus_days] moves. *)
Lemma date_minus_days_order (d r : date) (n : Z) :
  date_minus_days d n = Some r ->
  valid_date r = true /\
  (0 <= n -> date_leb r d = true) /\
  (n < 0 -> date_ltb d r = true).
Proof.
  unfold date_minus_days.
  destruct n as [| p | p];
    match goal with |- context [valid_date ?x] => destruct (valid_date x) eqn:Hv end;
    try discriminate; intros [= <-]; (split; [exact Hv |]); split; intros H;
    try lia.
  - apply date_leb_refl.
  - apply iter_prev_day_leb.
  - apply iter_next_day_ltb.
Qed.

(** ** The ordinal of a date *)

Lemma valid_date_day_of_month (d : date) :
  valid_date d = true -> day_of_month d.
Proof.
  intros H. destruct (valid_date_bounds d H) as (_ & Hm & Hd). split; assumption.
Qed.

Lemma days_before_year_succ (y : Z) :
  days_before_year (y + 1) =
  days_before_year y + 365 + (if is_leap y then 1 else 0).
Proof.
  unfold days_before_year, is_leap.
  replace (y + 1 - 1) with y by lia.
  destruct (Z.eqb_spec (y mod 4) 0), (Z.eqb_spec (y mod 100) 0),
    (Z.eqb_spec (y mod 400) 0); cbn [negb andb orb];
    Z.div_mod_to_equations; lia.
Qed.

Lemma days_before_month_succ (y m : Z) :
  1 <= m <= 11 ->
  days_before_month y (m + 1) = days_before_month y m + days_in_month y m.
Proof.
  intros Hm.
  assert (H : m = 1 \/ m = 2 \/ m = 3 \/ m = 4 \/ m = 5 \/ m = 6 \/ m = 7 \/
              m = 8 \/ m = 9 \/ m = 10 \/ m = 11) by lia.
  unfold days_before_month, days_in_month.
  repeat (destruct H as [-> | H]); try subst m; cbn;
    destruct (is_leap y); reflexivity.
Qed.

Lemma days_before_month_12 (y : Z) :
  days_before_month y 12 = 334 + (if is_leap y then 1 else 0).
Proof. unfold days_before_month. cbn. destruct (is_leap y); reflexivity. Qed.

(** The day after has the next ordinal. *)
Lemma next_day_ordinal (d : date) :
  day_of_month d ->
  day_of_month (next_day d) /\ toordinal (next_day d) = toordinal d + 1.
Proof.
  intros [Hm Hd]. unfold next_day, toordinal, day_of_month.
  destruct (Z.ltb_spec (day d) (days_in_month (year d) (month d)));
    cbn [year month day].
  - lia.
  - destruct (Z.ltb_spec (month d) 12); cbn [year month day].
    + pose proof (days_in_month_bound (year d) (month d + 1)).
      rewrite days_before_month_succ by lia. lia.
    + assert (Hm12 : month d = 12) by lia.
      rewrite days_before_year_succ. rewrite Hm12 in *.
      rewrite days_before_month_12.
      change (days_in_month (year d + 1) 1) with 31.
      change (days_before_month (year d + 1) 1) with 0.
      change (days_in_month (year d) 12) with 31 in *. lia.
Qed.

(** The day before has the ordinal before. *)
Lemma prev_day_ordinal (d : date) :
  day_of_month d ->
  day_of_month (prev_day d) /\ toordinal (prev_day d) = toordinal d - 1.
Proof.
  intros [Hm Hd]. unfold prev_day, toordinal, day_of_month.
  destruct (Z.ltb_spec 1 (day d)); cbn [year month day].
  - lia.
  - destruct (Z.ltb_spec 1 (month d)); cbn [year month day].
    + pose proof (days_in_month_bound (year d) (month d - 1)).
      pose proof (days_before_month_succ (year d) (month d - 1)) as Hs.
      replace (month d - 1 + 1) with (month d) in Hs by lia.
      rewrite Hs by lia. lia.
    + assert (Hm1 : month d = 1) by lia.
      pose proof (days_before_year_succ (year d - 1)) as Hs.
      replace (year d - 1 + 1) with (year d) in Hs by lia.
      rewrite Hs, Hm1, days_before_month_12.
      change (days_in_month (year d - 1) 12) with 31.
      change (days_before_month (year d) 1) with 0. lia.
Qed.

Lemma iter_prev_day_ordinal (d : date) (p : positive) :
  day_of_month d ->
  day_of_month (Pos.iter prev_day d p) /\
  toordinal (Pos.iter prev_day d p) = toordinal d - Z.pos p.
Proof.
  intros Hd. induction p as [| p IH] using Pos.peano_ind.
  - cbn [Pos.iter]. apply prev_day_ordinal, Hd.
  - rewrite Pos.iter_succ. destruct IH as [IH1 IH2].
    destruct (prev_day_ordinal _ IH1) as [H1 H2]. split; [exact H1 |]. lia.
Qed.

Lemma iter_next_day_ordinal (d : date) (p : positive) :
  day_of_month d ->
  day_of_month (Pos.iter next_day d p) /\
  toordinal (Pos.iter next_day d p) = toordinal d + Z.pos p.
Proof.
  intros Hd. induction p as [| p IH] using Pos.peano_ind.
  - cbn [Pos.iter]. apply next_day_ordinal, Hd.
  - rewrite Pos.iter_succ. destruct IH as [IH1 IH2].
    destruct (next_day_ordinal _ IH1) as [H1 H2]. split; [exact H1 |]. lia.
Qed.

(** [date_minus_days d n] is the date [n] ordinals before [d]. *)
Lemma date_minus_days_ordinal (d r : date) (n : Z) :
  valid_date d = true ->
  date_minus_days d n = Some r ->
  toordinal r = toordinal d - n.
Proof.
  intros Hv. apply valid_date_day_of_month in Hv.
  unfold date_minus_days.
  destruct n as [| p | p];
    match goal with |- context [valid_date ?x] => destruct (valid_date x) end;
    try discriminate; intros [= <-].
  - lia.
  - apply iter_prev_day_ordinal, Hv.
  - rewrite (proj2 (iter_next_day_ordinal d p Hv)). lia.
Qed.

(** Dates in their order have ordinals in the same order: the ordinal
    tells the date. *)
Lemma days_before_year_mono (y1 y2 : Z) :
  y1 < y2 -> days_before_year y1 + 365 <= days_before_year y2.
Proof.
  unfold days_before_year. intros H. Z.div_mod_to_equations. lia.
Qed.

Lemma day_in_year_bound (d : date) :
  day_of_month d ->
  1 <= days_before_month (year d) (month d) + day d <=
  365 + (if is_leap (year d) then 1 else 0).
Proof.
  intros [Hm Hd]. revert Hd.
  assert (H : month d = 1 \/ month d = 2 \/ month d = 3 \/ month d = 4 \/
              month d = 5 \/ month d = 6 \/ month d = 7 \/ month d = 8 \/
              month d = 9 \/ month d = 10 \/ month d = 11 \/ month d = 12) by lia.
  unfold days_before_month, days_in_month.
  repeat (destruct H as [-> | H]); try rewrite H;
    cbn [Z.eqb Z.ltb Z.compare Pos.compare Pos.compare_cont Pos.eqb andb orb];
    destruct (is_leap (year d)); lia.
Qed.

Lemma days_before_month_mono (y m1 m2 : Z) :
  1 <= m1 -> m1 < m2 -> m2 <= 12 ->
  days_before_month y m1 + days_in_month y m1 <= days_before_month y m2.
Proof.
  intros H1 H12 H2.
  assert (Ha : m1 = 1 \/ m1 = 2 \/ m1 = 3 \/ m1 = 4 \/ m1 = 5 \/ m1 = 6 \/
               m1 = 7 \/ m1 = 8 \/ m1 = 9 \/ m1 = 10 \/ m1 = 11) by lia.
  assert (Hb : m2 = 2 \/ m2 = 3 \/ m2 = 4 \/ m2 = 5 \/ m2 = 6 \/
               m2 = 7 \/ m2 = 8 \/ m2 = 9 \/ m2 = 10 \/ m2 = 11 \/ m2 = 12) by lia.
  unfold days_before_month, days_in_month.
  repeat (destruct Ha as [-> | Ha]); try subst m1;
    repeat (destruct Hb as [-> | Hb]); try subst m2;
    try lia; cbn; destruct (is_leap y); lia.
Qed.

Lemma toordinal_ltb (a b : date) :
  day_of_month a -> day_of_month b ->
  date_ltb a b = true -> toordinal a < toordinal b.
Proof.
  intros Ha Hb. rewrite date_ltb_iff. unfold toordinal.
  pose proof (day_in_year_bound a Ha) as Ba.
  pose proof (day_in_year_bound b Hb) as Bb.
  destruct Ha as [Hma Hda], Hb as [Hmb Hdb].
  intros [Hy | (Hy & [Hm | (Hm & Hd)])].
  - assert (Hs : days_before_year (year a + 1) <= days_before_year (year b)).
    { destruct (Z.eq_dec (year a + 1) (year b)) as [<- | Hne]; [lia |].
      pose proof (days_before_year_mono (year a + 1) (year b)). lia. }
    rewrite days_before_year_succ in Hs. lia.
  - rewrite Hy in *.
    pose proof (days_before_month_mono (year b) (month a) (month b)). lia.
  - rewrite Hy, Hm. lia.
Qed.

Lemma toordinal_injective (a b : date) :
  day_of_month a -> day_of_month b ->
  toordinal a = toordinal b -> a = b.
Proof.
  intros Ha Hb Heq.
  destruct (date_ltb a b) eqn:Hab.
  { pose proof (toordinal_ltb a b Ha Hb Hab). lia. }
  destruct (date_ltb b a) eqn:Hba.
  { pose proof (toordinal_ltb b a Hb Ha Hba). lia. }
  assert (Na : ~ date_ltb a b = true) by congruence.
  assert (Nb : ~ date_ltb b a = true) by congruence.
  rewrite date_ltb_iff in Na, Nb.
  destruct a as [ya ma da], b as [yb mb db]. cbn [year month day] in *.
  f_equal; lia.
Qed.

Lemma first_unconfigured_none (institutions : dict Instance)
    (fi_names : list string) :
  first_unconfigured institutions fi_names = None <->
  Forall (fun nm => dict_get institutions nm <> None) fi_names.
Proof.
  induction fi_names as [| nm rest IH]; cbn [first_unconfigured].
  - split; [constructor | reflexivity].
  - destruct (dict_get institutions nm) eqn:Hg.
    + rewrite IH. split.
      * intros H. constructor; [congruence | exact H].
      * intros H. now inversion H.
    + split; [discriminate |]. intros H. inversion H. contradiction.
Qed.

Section CheckFacts.

Variable rt : Runtime.

(** X24.  When [check] returns, the parameters hold a cutoff date: the one
    given, or else the effective date minus the delta, a date of the
    calendar.  The computed cutoff date is the date whose ordinal is the
    ordinal of the effective date less the number of days of the delta,
    and the only date of the calendar with that ordinal.  It is not after
    the effective date when the delta is not negative, so that the window
    is not empty, and is after the effective date when the delta is
    negative, which leaves the window empty.  Formats are configured,
    every name of [fi_names] is one of them, and the suffix is set from
    the effective date. *)
Theorem check_sets_window (reply : answer) (params params' : Params)
    (out : list printed) :
  check rt reply params = (out, Returned params') ->
  p_institutions params' <> [] /\
  Forall (fun nm => dict_get (p_institutions params') nm <> None)
         (p_fi_names params') /\
  p_effective_date params' = p_effective_date params /\
  p_qif_suffix params' =
    Some (strftime rt (p_effective_date params) "%y%m%d.qif") /\
  exists cutoff,
    p_cutoff_date params' = Some cutoff /\
    (forall c, p_cutoff_date params = Some c -> cutoff = c) /\
    (p_cutoff_date params = None ->
     valid_date cutoff = true /\
     (0 <= p_cutoff_delta params ->
      date_leb cutoff (p_effective_date params) = true) /\
     (p_cutoff_delta params < 0 ->
      date_ltb (p_effective_date params) cutoff = true) /\
     (valid_date (p_effective_date params) = true ->
      toordinal cutoff =
        toordinal (p_effective_date params) - p_cutoff_delta params /\
      (p_cutoff_delta params = 0 -> cutoff = p_effective_date params) /\
      forall r,
        valid_date r = true ->
        toordinal r =
          toordinal (p_effective_date params) - p_cutoff_delta params ->
        r = cutoff)).
Proof.
  unfold check.
  destruct (p_institutions params) as [| i others] eqn:Hi; [discriminate |].
  destruct (match p_cutoff_date params with
            | Some c => Some c
            | None => date_minus_days (p_effective_date params)
                        (p_cutoff_delta params)
            end) as [cutoff |] eqn:Hc; [| discriminate].
  destruct (first_unconfigured (i :: others) (p_fi_names params)) as [nm |] eqn:Hf;
    [discriminate |].
  apply first_unconfigured_none in Hf.
  assert (Hgoal : forall p,
            p = mkParams (p_script params) (p_fi_names params)
                  (p_effective_date params) (Some cutoff)
                  (p_cutoff_delta params) (i :: others)
                  (Some (strftime rt (p_effective_date params) "%y%m%d.qif"))
                  (p_check params) ->
            p_institutions p <> [] /\
            Forall (fun nm => dict_get (p_institutions p) nm <> None)
                   (p_fi_names p) /\
            p_effective_date p = p_effective_date params /\
            p_qif_suffix p =
              Some (strftime rt (p_effective_date params) "%y%m%d.qif") /\
            exists cutoff0,
              p_cutoff_date p = Some cutoff0 /\
              (forall c, p_cutoff_date params = Some c -> cutoff0 = c) /\
              (p_cutoff_date params = None ->
               valid_date cutoff0 = true /\
               (0 <= p_cutoff_delta params ->
                date_leb cutoff0 (p_effective_date params) = true) /\
               (p_cutoff_delta params < 0 ->
                date_ltb (p_effective_date params) cutoff0 = true) /\
               (valid_date (p_effective_date params) = true ->
                toordinal cutoff0 =
                  toordinal (p_effective_date params) - p_cutoff_delta params /\
                (p_cutoff_delta params = 0 ->
                 cutoff0 = p_effective_date params) /\
                forall r,
                  valid_date r = true ->
                  toordinal r =
                    toordinal (p_effective_date params) - p_cutoff_delta params ->
                  r = cutoff0))).
  { intros p ->. cbn.
    split; [discriminate |]. split; [exact Hf |].
    split; [reflexivity |]. split; [reflexivity |].
    exists cutoff. split; [reflexivity |]. split.
    - intros c Hgiven. rewrite Hgiven in Hc. congruence.
    - intros Hnone. rewrite Hnone in Hc.
      destruct (date_minus_days_order _ _ _ Hc) as (Hv & Hle & Hlt).
      split; [exact Hv |]. split; [exact Hle |]. split; [exact Hlt |].
      intros Heff.
      pose proof (date_minus_days_ordinal _ _ _ Heff Hc) as Hord.
      split; [exact Hord |]. split.
      + intros H0. apply toordinal_injective;
          try (apply valid_date_day_of_month; assumption). lia.
      + intros r Hr Hro. apply toordinal_injective;
          try (apply valid_date_day_of_month; assumption). lia. }
  destruct (p_check params).
  - destruct reply; try discriminate. intros [= _ <-]. now apply Hgoal.
  - intros [= _ <-]. now apply Hgoal.
Qed.

(** X25.  [check] leaves through [sys.exit] in three cases only.  The
    status is 1, with one line on the standard error and nothing on the
    standard output, when no format is configured or a name of
    [fi_names] is not configured; it is 0 when the user interrupts the
    confirmation, which is asked only if [check] is set. *)
Theorem check_exit_status (reply : answer) (params : Params)
    (out : list printed) (status : Z) :
  check rt reply params = (out, Exited status) ->
  (status = 1 /\ (exists line, out = [Stderr line]) /\
   (p_institutions params = [] \/
    exists nm, In nm (p_fi_names params) /\
               dict_get (p_institutions params) nm = None)) \/
  (status = 0 /\ p_check params = true /\ reply = KeyboardInterrupt).
Proof.
  unfold check.
  destruct (p_institutions params) as [| i others] eqn:Hi.
  { intros [= <- <-]. left. split; [reflexivity |]. split; eauto. }
  destruct (match p_cutoff_date params with
            | Some c => Some c
            | None => _
            end) as [cutoff |]; [| discriminate].
  destruct (first_unconfigured (i :: others) (p_fi_names params)) as [nm |] eqn:Hf.
  - intros [= <- <-]. left. split; [reflexivity |]. split; [eauto |].
    right. exists nm. clear -Hf.
    induction (p_fi_names params) as [| x rest IH]; [discriminate |].
    cbn [first_unconfigured] in Hf.
    destruct (dict_get (i :: others) x) eqn:Hg.
    + destruct (IH Hf) as [Hin Hnone]. split; [right; exact Hin | exact Hnone].
    + injection Hf as <-. split; [left; reflexivity | exact Hg].
  - destruct (p_check params); [| discriminate].
    destruct reply; try discriminate.
    intros [= _ <-]. right. auto.
Qed.

End CheckFacts.

(* ===================================================================== *)
(** * [get_csv_rows] *)
(* ===================================================================== *)

Section FilesFacts.

Variable re_findall : string -> string -> bool.
Variable listdir : string -> list string.
Variable read : string -> string.
Variable mtime : string -> date.
Variable linesep : string.

Hypothesis linesep_not_empty : linesep <> "".

Lemma reader_ok (nh : Z) (ulines : string) :
  exists lines, reader nh linesep ulines = Ok lines.
Proof.
  unfold reader, str_split.
  destruct (String.eqb_spec linesep ""); [contradiction |].
  cbn [bind]. eauto.
Qed.

Lemma read_files_ok (nh : Z) (paths : list string) :
  exists rows, read_files read linesep nh paths = Ok rows.
Proof.
  induction paths as [| p paths [tail IH]]; cbn [read_files]; [eauto |].
  destruct (reader_ok nh (read p)) as [lines ->]. cbn [bind].
  rewrite IH. cbn [bind]. eauto.
Qed.

Lemma filter_filter {A : Type} (p q : A -> bool) (l : list A) :
  filter q (filter p l) = filter (fun x => p x && q x) l.
Proof.
  induction l as [| x l IH]; [reflexivity |]. cbn [filter].
  destruct (p x); cbn [andb filter]; [destruct (q x) |]; now rewrite IH.
Qed.

(** What the loop over the files reads: the lines of each file, in the
    order of the paths. *)
Lemma read_files_concat (nh : Z) (paths : list string) (rows : list string) :
  read_files read linesep nh paths = Ok rows ->
  exists liness,
    Forall2 (fun path lines => reader nh linesep (read path) = Ok lines)
      paths liness /\
    rows = List.concat liness.
Proof.
  revert rows. induction paths as [| p paths IH]; intros rows; cbn [read_files].
  - intros [= <-]. exists []. split; [constructor | reflexivity].
  - destruct (reader nh linesep (read p)) as [lines | e] eqn:Hr; cbn [bind];
      [| discriminate].
    destruct (read_files read linesep nh paths) as [tail | e]; cbn [bind];
      [| discriminate].
    intros [= <-]. destruct (IH tail eq_refl) as (liness & Hall & ->).
    exists (lines :: liness). split; [constructor; assumption | reflexivity].
Qed.

(** X26.  [get_csv_rows] reads a file that is named as it is named: the
    source directory is not put before it, the date check is not applied
    and [nfiles] is not touched.  Otherwise it reads files of the source
    directory, which it names with one slash after the directory:
    [nfiles] becomes the number of files that match the pattern, and the
    files read are, in the order of the directory listing, all the files
    that match the pattern without the date check, and with it all those
    of them whose modification time has the year, month and day of the
    effective date, and no other file.  The rows are the lines of the
    files read, one file after the other.  An empty source directory
    raises [IndexError] in both cases. *)
Theorem get_csv_rows_files (self : Instance) (source_dir : string)
    (effective_date : date) (date_check : bool) (file : option string) :
  (source_dir = "" ->
   get_csv_rows re_findall listdir read mtime linesep self source_dir
     effective_date date_check file = Raise IndexError) /\
  (source_dir <> "" ->
   exists rows paths self',
     get_csv_rows re_findall listdir read mtime linesep self source_dir
       effective_date date_check file = Ok (rows, paths, self') /\
     (truthy file = true ->
      paths = [pattern file] /\ self' = self /\
      reader (nheaders self) linesep (read (pattern file)) = Ok rows) /\
     (truthy file = false ->
      exists dir,
        last_char dir = Ok "/"%char /\
        (dir = source_dir \/ dir = source_dir ++ "/") /\
        nfiles self' =
          len (filter (fun f => re_findall (regexp self) f) (listdir dir)) /\
        fmt self' = fmt self /\ nheaders self' = nheaders self /\
        regexp self' = regexp self /\ pathnames self' = pathnames self /\
        paths =
          map (fun f => dir ++ f)
            (filter (fun f =>
                       re_findall (regexp self) f &&
                       (if date_check
                        then (year (mtime (dir ++ f)) =? year effective_date) &&
                             (month (mtime (dir ++ f)) =? month effective_date) &&
                             (day (mtime (dir ++ f)) =? day effective_date)
                        else true))
               (listdir dir)) /\
        (exists liness,
           Forall2 (fun path lines =>
                      reader (nheaders self) linesep (read path) = Ok lines)
             paths liness /\
           rows = List.concat liness) /\
        len paths <= nfiles self' /\
        (date_check = false -> len paths = nfiles self'))).
Proof.
  unfold get_csv_rows. split.
  - intros ->. reflexivity.
  - intros Hdir. destruct (last_char_nonempty source_dir Hdir) as [c Hc].
    rewrite Hc. cbn [bind].
    set (dir := if Ascii.eqb c "/" then source_dir else source_dir ++ "/").
    assert (Hd : last_char dir = Ok "/"%char /\
                 (dir = source_dir \/ dir = source_dir ++ "/")).
    { subst dir. destruct (Ascii.eqb_spec c "/"%char) as [-> | _].
      - auto.
      - split; [apply last_char_slash | auto]. }
    destruct (truthy file) eqn:Hf.
    + destruct (reader_ok (nheaders self) (read (pattern file))) as [rows Hr].
      rewrite Hr. cbn [bind]. do 3 eexists. split; [reflexivity |].
      split; [auto | discriminate].
    + set (cands := get_matching_files re_findall listdir dir (regexp self)).
      set (files := if date_check
                    then filter (fun f => is_modified_now mtime (dir ++ f)
                                            effective_date) cands
                    else cands).
      destruct (read_files_ok (nheaders self) (map (fun f => dir ++ f) files))
        as [rows Hr].
      rewrite Hr. cbn [bind]. do 3 eexists. split; [reflexivity |].
      split; [discriminate |]. intros _. exists dir.
      split; [apply Hd |]. split; [apply Hd |].
      cbn [nfiles fmt nheaders regexp pathnames].
      split; [reflexivity |]. do 4 (split; [reflexivity |]).
      assert (Hfiles :
        files =
        filter (fun f =>
                  re_findall (regexp self) f &&
                  (if date_check
                   then (year (mtime (dir ++ f)) =? year effective_date) &&
                        (month (mtime (dir ++ f)) =? month effective_date) &&
                        (day (mtime (dir ++ f)) =? day effective_date)
                   else true))
          (listdir dir)).
      { subst files cands. unfold get_matching_files. destruct date_check.
        - rewrite filter_filter. reflexivity.
        - apply filter_ext. intros f. now rewrite andb_true_r. }
      split; [rewrite Hfiles; reflexivity |].
      split; [apply (read_files_concat _ _ _ Hr) |].
      assert (Hlen : (List.length files <= List.length cands)%nat).
      { subst files. destruct date_check; [apply filter_length_le | lia]. }
      unfold len. rewrite length_map.
      split; [exact (inj_le _ _ Hlen) |].
      intros ->. reflexivity.
Qed.

End FilesFacts.

(* ===================================================================== *)
(** * The added theorems on concrete inputs *)
(* ===================================================================== *)

Lemma conv_finame_file_list_pairs_witness :
  conv_finame_file_list unpack_message_cpython ["bank,a.csv"; "card,b.csv"] =
  Ok [("bank", "a.csv"); ("card", "b.csv")].
Proof.
  apply (proj2 (conv_finame_file_list_pairs unpack_message_cpython
                  ["bank,a.csv"; "card,b.csv"]
                  [("bank", "a.csv"); ("card", "b.csv")])).
  split; [reflexivity |].
  repeat constructor; cbn; discriminate.
Defined.

Lemma conv_finame_file_list_raises_MQException_witness :
  exists m,
    conv_finame_file_list unpack_message_cpython ["bank,a.csv"; "oops"] =
    Raise (MQException m).
Proof.
  destruct (conv_finame_file_list unpack_message_cpython
              ["bank,a.csv"; "oops"]) as [ps | e] eqn:H;
    [vm_compute in H; discriminate H |].
  destruct (conv_finame_file_list_raises_MQException unpack_message_cpython
              _ e H) as [m ->].
  exists m. reflexivity.
Defined.

Lemma reader_keeps_ascii_text_witness :
  exists headers lines,
    reader 1 LF statement_text = Ok lines /\
    join LF (headers ++ lines) = ascii_only statement_text /\
    (0 <= 1 -> len headers = Z.min 1 (len (headers ++ lines)%list)) /\
    Forall (fun line =>
              all_chars (fun c => (N_of_ascii c <? 128)%N) line = true) lines.
Proof.
  apply (reader_keeps_ascii_text 1 LF statement_text). discriminate.
Defined.

Lemma reader_final_empty_line_witness :
  exists lines,
    reader 1 LF statement_text = Ok lines /\
    (lines = [] \/ last lines "x" = "").
Proof.
  apply (reader_final_empty_line 1 (ascii_of_N 10)
           ("Date,Payee,Debit,Credit" ++ LF ++
            "10-01-2024,Coffee  Shop,3.50," ++ LF ++
            "15-01-2024,Salary,,1500.00")).
  reflexivity.
Defined.

Lemma collapse_spaces_normal_witness :
  collapse_spaces "Coffee Shop" = "Coffee Shop".
Proof.
  exact (proj2 (proj2 (collapse_spaces_normal "Coffee Shop")) eq_refl).
Defined.

Lemma hex_encode_injective_witness :
  remove_spaces "12, 5O" = "12,5O".
Proof.
  apply (hex_encode_injective (remove_spaces "12, 5O") "12,5O"). reflexivity.
Defined.

Lemma spaces_only_credit_raises_witness :
  credit_debit Ref.runtime default_format spaces_credit_row = Raise TypeError.
Proof.
  apply (spaces_only_credit_raises Ref.runtime default_format
           spaces_credit_row "3.00" "  "
           "could not convert string to float: ''" (PyFloat f_3));
    try reflexivity; discriminate.
Defined.

Lemma positive_amount_is_credit_witness :
  exists credit f,
    getitem salary_row (credit_col default_format) = Ok credit /\
    credit <> "" /\
    credit_col default_format <> payee_col default_format /\
    atof Ref.runtime (remove_spaces credit) = Ok f /\
    PyFloat f_1500 = pyabs (PyFloat f).
Proof.
  apply (positive_amount_is_credit Ref.runtime default_format salary_row
           (PyFloat f_1500)); try reflexivity. discriminate.
Defined.

Lemma debit_is_negative_scope_witness :
  credit_debit Ref.runtime (with_debit_is_negative default_format false)
    coffee_row =
  credit_debit Ref.runtime default_format coffee_row.
Proof.
  apply (proj1 (debit_is_negative_scope Ref.runtime default_format coffee_row)).
  right. discriminate.
Defined.

Lemma no_year_date_after_reference_witness :
  str2date Ref.runtime no_year_format "20-03" (Some d_2024_03_15) =
    Some d_2024_03_20 /\
  (date_ltb d_2024_03_15 d_2024_03_20 = true <->
   month (mkDate 1900 3 20) = month d_2024_03_15 /\
   day d_2024_03_15 < day (mkDate 1900 3 20)).
Proof.
  split; [reflexivity |].
  exact (proj2 (proj2 (proj2
           (no_year_date_after_reference Ref.runtime no_year_format "20-03"
              d_2024_03_15 (mkDate 1900 3 20) d_2024_03_20
              eq_refl eq_refl eq_refl)))).
Defined.

Lemma reference_date_only_for_1900_witness :
  str2date Ref.runtime default_format "10-01-2024" None = Some d_2024_01_10 /\
  str2date Ref.runtime default_format "10-01-2024" (Some d_0001_01_01) =
    Some d_2024_01_10.
Proof.
  pose proof (proj1 (reference_date_only_for_1900 Ref.runtime default_format
                       "10-01-2024" d_2024_01_10 eq_refl eq_refl)) as H.
  split; apply H; discriminate.
Defined.

Lemma stats_match_records_witness :
  exists st,
    stats (snd (convert_csv_to_qif Ref.runtime january d_2024_01_01 d_2024_01_31))
      = Some st /\
    processed st =
      len (output_records Ref.runtime january d_2024_01_01 d_2024_01_31
             (csv_rows january)) /\
    balance st =
      sum_amounts (output_records Ref.runtime january d_2024_01_01 d_2024_01_31
                     (csv_rows january)).
Proof.
  refine (stats_match_records Ref.runtime january _ d_2024_01_01 d_2024_01_31
            (match fst (convert_csv_to_qif Ref.runtime january
                          d_2024_01_01 d_2024_01_31) with
             | Ok t => t
             | Raise _ => ""
             end) _).
  vm_compute. reflexivity.
Defined.

Lemma ignored_rows_have_no_effect_witness :
  fst (convert_csv_to_qif Ref.runtime
         (set_csv_rows ignoring_format [coffee_row]) d_2024_01_01 d_2024_01_31) =
  fst (convert_csv_to_qif Ref.runtime
         (set_csv_rows ignoring_format [pending_row; coffee_row; pending_row])
         d_2024_01_01 d_2024_01_31).
Proof.
  destruct (convert_csv_to_qif Ref.runtime
              (set_csv_rows ignoring_format [pending_row; coffee_row; pending_row])
              d_2024_01_01 d_2024_01_31) as [[text | e] self'] eqn:Hrun;
    [| vm_compute in Hrun; discriminate Hrun].
  pose proof (ignored_rows_have_no_effect Ref.runtime _ _ _ _ _ Hrun) as H.
  change (kept Ref.runtime
            (set_csv_rows ignoring_format [pending_row; coffee_row; pending_row])
            (csv_rows (set_csv_rows ignoring_format
                         [pending_row; coffee_row; pending_row])))
    with [coffee_row] in H.
  change (set_csv_rows
            (set_csv_rows ignoring_format [pending_row; coffee_row; pending_row])
            [coffee_row])
    with (set_csv_rows ignoring_format [coffee_row]) in H.
  rewrite H. reflexivity.
Defined.

Lemma nothing_processed_nothing_written_witness :
  match perform_conversion Ref.runtime default_format [late_row; empty_row]
          d_2024_01_31 d_2024_01_01 with
  | (Ok _, self') => output_qif self' "" ".qif" false = Ok ([], false)
  | (Raise _, _) => False
  end.
Proof.
  destruct (perform_conversion Ref.runtime default_format [late_row; empty_row]
              d_2024_01_31 d_2024_01_01) as [[[] | e] self'] eqn:Hrun;
    [| vm_compute in Hrun; discriminate Hrun].
  destruct (nothing_processed_nothing_written Ref.runtime default_format self'
              [late_row; empty_row] d_2024_01_31 d_2024_01_01 Hrun)
    as (st & Hst & _ & Hout).
  apply Hout. vm_compute in Hrun. injection Hrun as <-.
  cbn in Hst. injection Hst as <-. reflexivity.
Defined.

Lemma inverted_window_processes_nothing_witness :
  fst (convert_csv_to_qif Ref.runtime january d_2024_01_31 d_2024_01_01) =
  Ok "".
Proof.
  destruct (convert_csv_to_qif Ref.runtime january d_2024_01_31 d_2024_01_01)
    as [[text | e] self'] eqn:Hrun; [| vm_compute in Hrun; discriminate Hrun].
  destruct (inverted_window_processes_nothing Ref.runtime january self'
              d_2024_01_31 d_2024_01_01 text eq_refl Hrun) as [-> _].
  reflexivity.
Defined.

(** The January rows: two blocks less than rows with a valid date, and
    the statistics count the three blocks of the text. *)
Lemma written_blocks_in_window_witness :
  exists written : list (date * pynum * string),
    fst (convert_csv_to_qif Ref.runtime january d_2024_01_01 d_2024_01_31) =
      Ok (fold_right
            (fun w rest =>
               (let '(d, amount, payee) := w in
                "!Type:CCard" ++ CRLF ++
                "D" ++ Ref.strftime d "%d-%m-%Y" ++ CRLF ++
                "T" ++ Ref.format_2f (to_float amount) ++ CRLF ++
                "P" ++ payee ++ CRLF ++ "^" ++ CRLF) ++ rest) "" written) /\
    Forall (fun w => let '(d, _, _) := w in
                     date_leb d_2024_01_01 d = true /\
                     date_leb d d_2024_01_31 = true) written /\
    len written <= 6.
Proof.
  destruct (convert_csv_to_qif Ref.runtime january d_2024_01_01 d_2024_01_31)
    as [[text | e] self'] eqn:Hrun; [| vm_compute in Hrun; discriminate Hrun].
  destruct (written_blocks_in_window Ref.runtime january self'
              d_2024_01_01 d_2024_01_31 text Hrun)
    as (written & Htext & Hall & _ & Hlen).
  exists written. split; [cbn [fst]; rewrite Htext; reflexivity |].
  split; [| exact Hlen].
  revert Hall. apply Forall_impl. intros [[d amount] payee]. tauto.
Defined.

Lemma init_registers_by_name_witness :
  match CSVFormat_init int_of_decimal [] bank_args with
  | (Ok self, formats') =>
      dict_get formats' "Bank1" = Some self /\ type (fmt self) = Bank /\
      ncols (fmt self) = 4 /\ nheaders self = 1
  | (Raise _, _) => False
  end.
Proof.
  pose proof (init_registers_by_name int_of_decimal [] bank_args) as H.
  destruct (CSVFormat_init int_of_decimal [] bank_args)
    as [[self | e] formats'] eqn:Hinit;
    [| vm_compute in Hinit; discriminate Hinit].
  destruct H as (Hget & _). split; [exact Hget |].
  vm_compute in Hinit. injection Hinit as <- _. repeat split.
Defined.

Lemma str_ignore_col_raises_TypeError_witness :
  match CSVFormat_init int_of_decimal [] bank_args with
  | (Ok self, _) =>
      fst (convert_csv_to_qif Ref.runtime
             (set_csv_rows (fmt self) [coffee_row; salary_row])
             d_2024_01_01 d_2024_01_31) = Raise TypeError
  | (Raise _, _) => False
  end.
Proof.
  destruct (CSVFormat_init int_of_decimal [] bank_args)
    as [[self | e] formats'] eqn:Hinit;
    [| vm_compute in Hinit; discriminate Hinit].
  rewrite (str_ignore_col_raises_TypeError int_of_decimal Ref.runtime []
             bank_args self "1" coffee_row [salary_row]
             d_2024_01_01 d_2024_01_31);
    first [reflexivity | now rewrite Hinit].
Defined.

Lemma output_qif_path_witness :
  output_qif (set_qif_text default_format "^") "out" "240131.qif" false =
  output_qif (set_qif_text default_format "^") "out/" "240131.qif" false.
Proof.
  destruct (output_qif_path (set_qif_text default_format "^") "out"
              "240131.qif") as [_ H]; [discriminate |].
  destruct (H ltac:(discriminate)) as (dir & Hlast & [-> | ->] & _ & Hsame).
  - discriminate Hlast.
  - symmetry. exact Hsame.
Defined.

Lemma delete_files_first_error_witness :
  delete_files unlink_listed ["a.csv"; "missing.csv"; "b.csv"]
    ["a.csv"; "b.csv"; "c.csv"] =
  (["c.csv"], Some "No such file or directory: missing.csv").
Proof.
  destruct (delete_files_first_error (list string) string unlink_listed
              ["a.csv"; "missing.csv"; "b.csv"] ["a.csv"; "b.csv"; "c.csv"])
    as (Hw & He & _).
  rewrite (surjective_pairing (delete_files _ _ _)), Hw, He. reflexivity.
Defined.

(** Seven files are shown as [7], twelve as a star. *)
Lemma file_count_one_character_witness :
  file_count 7 = "7" /\ String.length (file_count 7) = 1%nat /\
  file_count 12 = "*".
Proof.
  destruct (file_count_one_character 7) as (Hlen & _ & Hdigit); [lia |].
  destruct (file_count_one_character 12) as (_ & Hstar & _); [lia |].
  split; [apply Hdigit; lia |]. split; [exact Hlen | apply Hstar; lia].
Defined.

(** Thirty days before 31 January 2024 is 1 January 2024. *)
Lemma check_sets_window_witness :
  match check Ref.runtime (Entered "") (example_params 30) with
  | (_, Returned params') =>
      p_cutoff_date params' = Some d_2024_01_01 /\
      toordinal d_2024_01_01 = toordinal d_2024_01_31 - 30 /\
      date_leb d_2024_01_01 d_2024_01_31 = true
  | _ => False
  end.
Proof.
  destruct (check Ref.runtime (Entered "") (example_params 30))
    as [out [params' | st | |]] eqn:Hc;
    try (vm_compute in Hc; discriminate Hc).
  destruct (check_sets_window Ref.runtime (Entered "") (example_params 30)
              params' out Hc) as (_ & _ & _ & _ & cutoff & Hcut & _ & Hcomp).
  destruct (Hcomp eq_refl) as (_ & Hle & _ & Hord).
  destruct (Hord eq_refl) as (Ho & _ & Huniq).
  assert (Heq : d_2024_01_01 = cutoff)
    by (apply Huniq; vm_compute; reflexivity).
  rewrite Hcut, <- Heq. split; [reflexivity |].
  split; rewrite Heq; [exact Ho | apply Hle; cbn; lia].
Defined.

Lemma check_exit_status_witness :
  match check Ref.runtime (Entered "")
          (mkParams "mkqif.py" ["Bank2"] d_2024_01_31 None 7
             (snd (CSVFormat_init int_of_decimal [] bank_args)) None true) with
  | (out, Exited status) => status = 1 /\ exists line, out = [Stderr line]
  | _ => False
  end.
Proof.
  destruct (check Ref.runtime (Entered "")
              (mkParams "mkqif.py" ["Bank2"] d_2024_01_31 None 7
                 (snd (CSVFormat_init int_of_decimal [] bank_args)) None true))
    as [out [params' | st | |]] eqn:Hc;
    try (vm_compute in Hc; discriminate Hc).
  destruct (check_exit_status Ref.runtime _ _ out st Hc)
    as [(Hs & Hout & _) | (_ & _ & Hr)]; [auto | discriminate Hr].
Defined.

(** Of the two statements of the bank in the directory the one changed
    on the effective date is read, from its first line after the
    header. *)
Lemma get_csv_rows_files_witness :
  match get_csv_rows example_findall example_listdir example_read
          example_mtime LF example_instance "data" d_2024_01_31 true None with
  | Ok (rows, paths, self') =>
      paths = ["data/bank_jan.csv"] /\ nfiles self' = 2 /\
      reader 1 LF statement_text = Ok rows
  | Raise _ => False
  end.
Proof.
  destruct (proj2 (get_csv_rows_files example_findall example_listdir
                     example_read example_mtime LF ltac:(discriminate)
                     example_instance "data" d_2024_01_31 true None)
              ltac:(discriminate))
    as (rows & paths & self' & Hrun & _ & Hsearch).
  destruct (Hsearch eq_refl)
    as (dir & Hlast & [-> | ->] & Hn & _ & _ & _ & _ & Hpaths & Hrows & _);
    [vm_compute in Hlast; discriminate Hlast |].
  rewrite Hrun.
  assert (Hp : paths = ["data/bank_jan.csv"]) by (rewrite Hpaths; reflexivity).
  split; [exact Hp |]. split; [rewrite Hn; reflexivity |].
  destruct Hrows as (liness & Hall & ->). rewrite Hp in Hall.
  inversion Hall as [| p l ps ls Hl Hrest]; subst.
  inversion Hrest; subst. cbn [List.concat]. rewrite app_nil_r. exact Hl.
Defined.

(** [CSVFormat()] with the default arguments is the default instance. *)
Example default_instance :
  CSVFormat_init int_of_decimal [] default_args =
  (Ok (mkInstance default_format 0 ".*\.csv" [] 0),
   [("Default", mkInstance default_format 0 ".*\.csv" [] 0)]).
Proof. reflexivity. Qed.
